(** * MindMoney request handler: a shallow embedding and its properties

    The development embeds the Lambda request handler of the MindMoney
    financial tracker (the JavaScript module with [verifyToken],
    [executeQuery], [callGemini], the eleven domain handlers and
    [exports.handler]) together with the tables of [database/schema.sql]
    that the handler reads and writes.

    - JavaScript numbers are IEEE-754 binary64 values ([float]); numeric
      columns are read back as numbers.
    - Thrown [Error]s are carried by their [message].
    - [async] functions are computations of the state-and-error monad [M].
    - The relational store, the wall clock and the counter of external
      calls form the mutable [world]; the token verifier, the API key, the
      provider's replies, the store outages and the latencies of the
      external calls form the read-only [env].
    - A statement is run by [exec_query]: string columns compare by
      equality, [id = ?] compares the key with the decimal string bound to
      it, [NOW()] is the clock in whole seconds, and the constraints of the
      schema (primary and unique keys, foreign keys to [users], the range
      of [INT AUTO_INCREMENT]) make a statement fail. [ORDER BY ... DESC]
      is a merge sort on the key. *)

From Stdlib Require Import ZArith Floats Ascii String.
From stdpp Require Import base option strings list sorting pretty gmap.

Local Open Scope Z_scope.
Local Open Scope string_scope.

(** ** JavaScript string primitives *)

Module Js.

(** [s.startsWith(p)] *)
Fixpoint startsWith (s p : string) {struct p} : bool :=
  match p with
  | EmptyString => true
  | String c p' =>
      match s with
      | String d s' => (Ascii.eqb c d && startsWith s' p')%bool
      | EmptyString => false
      end
  end.

(** [s.indexOf(p)], [None] standing for [-1]. *)
Definition indexOf (s p : string) : option nat := String.index 0 p s.

(** [s.slice(i)] and [s.slice(0, j)] for indices inside the string. *)
Definition slice_from (s : string) (i : nat) : string :=
  String.substring i (String.length s - i) s.
Definition slice_to (s : string) (j : nat) : string := String.substring 0 j s.

(** [s.replace(p, r)] with a string pattern: the first occurrence only. *)
Definition replace (s p r : string) : string :=
  match indexOf s p with
  | Some i => slice_to s i +:+ r +:+ slice_from s (i + String.length p)
  | None => s
  end.

(** Truthiness of a possibly undefined string. *)
Definition truthy (o : option string) : bool :=
  match o with
  | Some s => negb (String.eqb s "")
  | None => false
  end.

(** [a || b] on possibly undefined strings. *)
Definition or (a b : option string) : option string :=
  if truthy a then a else b.

Definition lower (c : ascii) : ascii :=
  let n := nat_of_ascii c in
  if (Nat.leb 65 n && Nat.leb n 90)%bool then ascii_of_nat (n + 32) else c.

Fixpoint lowercase (s : string) : string :=
  match s with
  | EmptyString => EmptyString
  | String c r => String (lower c) (lowercase r)
  end.

(** The ASCII members of the regular-expression class [\s]. *)
Definition is_ws (c : ascii) : bool :=
  let n := nat_of_ascii c in
  (Nat.eqb n 32 || (Nat.leb 9 n && Nat.leb n 13))%bool.

Fixpoint drop_ws (s : string) : string :=
  match s with
  | String c r => if is_ws c then drop_ws r else s
  | EmptyString => EmptyString
  end.

(** [h.replace(/^Bearer\s+/i, '')] *)
Definition stripBearer (h : string) : string :=
  let rest := slice_from h 6 in
  if (String.eqb (lowercase (slice_to h 6)) "bearer")
  then match rest with
       | String c _ => if is_ws c then drop_ws rest else h
       | EmptyString => h
       end
  else h.

(** [x || 0] on numbers: [0], [-0] and [NaN] are falsy. *)
Definition or_zero (x : float) : float :=
  if (PrimFloat.is_zero x || PrimFloat.is_nan x)%bool then 0%float else x.

End Js.

(** ** Data model *)

(** Verified token claims ([userPayload]). *)
Record claims := Claims {
  sub : string;
  email : option string;
  name : option string
}.

Record quiz_answer := QuizAnswer { questionId : string; answer : string }.

(** Rows, one record per table of [schema.sql]. [TIMESTAMP] columns hold
    whole seconds, [INT AUTO_INCREMENT] keys hold integers. *)
Record user_row := UserRow {
  u_id : string;
  u_email : string;
  u_name : string;
  u_created_at : Z;
  u_updated_at : Z
}.

Record quiz_row := QuizRow {
  q_id : Z;
  q_user_id : string;
  q_answers : list quiz_answer;
  q_analysis : string;
  q_created_at : Z
}.

Record spending_row := SpendingRow {
  id : Z;
  user_id : string;
  date : string;
  amount : float;
  description : string;
  category : string;
  is_necessary : bool;
  created_at : Z
}.

Record goal_row := GoalRow {
  g_id : Z;
  g_user_id : string;
  monthly_income : float;
  monthly_savings_goal : float;
  savings_plan : string;
  g_created_at : Z;
  g_updated_at : Z
}.

Record chat_row := ChatRow {
  c_id : Z;
  c_user_id : string;
  c_message : string;
  is_user : bool;
  timestamp : Z
}.

(** The parsed request body: the fields the handlers destructure, each
    possibly [undefined]. *)
Record request_body := Body {
  b_answers : option (list quiz_answer);
  b_date : option string;
  b_amount : option float;
  b_description : option string;
  b_category : option string;
  b_isNecessary : option bool;
  b_monthlyIncome : option float;
  b_monthlySavingsGoal : option float;
  b_message : option string
}.

(** The API Gateway event. [body = None] is a body on which [JSON.parse]
    (or the destructuring of its result) raises. *)
Record event := Event {
  httpMethod : string;
  path : option string;
  resource : option string;
  pathParameters : option (gmap string string);
  queryStringParameters : option (gmap string string);
  headers : option (gmap string string);
  body : option request_body
}.

(** [obj?.key] on an optional string-keyed object. *)
Definition opt_get (o : option (gmap string string)) (k : string) : option string :=
  match o with
  | Some m => m !! k
  | None => None
  end.

(** An instant rendered by [toISOString], kept as its epoch milliseconds. *)
Inductive iso := ISO (ms : Z).

Definition toISOString (ms : Z) : iso := ISO ms.

(** A [TIMESTAMP] column read back as a [Date]. *)
Definition date_of_timestamp (secs : Z) : Z := secs * 1000.

(** Response payloads ([data] of the envelope). *)
Record quiz_json := QuizJson {
  qj_id : string;
  qj_userId : string;
  qj_answers : list quiz_answer;
  qj_analysis : string;
  qj_createdAt : iso
}.

Record entry_json := EntryJson {
  ej_id : option string;
  ej_userId : string;
  ej_date : option string;
  ej_amount : option float;
  ej_description : option string;
  ej_category : option string;
  ej_isNecessary : option bool;
  ej_createdAt : iso
}.

Record goal_json := GoalJson {
  gj_id : string;
  gj_userId : string;
  gj_monthlyIncome : option float;
  gj_monthlySavingsGoal : option float;
  gj_savingsPlan : string;
  gj_createdAt : iso;
  gj_updatedAt : iso
}.

Record analysis_json := AnalysisJson {
  aj_date : option string;
  aj_totalSpent : float;
  aj_necessarySpent : float;
  aj_unnecessarySpent : float;
  aj_onTrack : bool;
  aj_analysis : string;
  aj_recommendations : list string
}.

Record chat_json := ChatJson {
  cj_id : string;
  cj_userId : string;
  cj_message : string;
  cj_isUser : bool;
  cj_timestamp : iso
}.

Inductive payload :=
| QuizData (q : quiz_json)
| EntryData (e : entry_json)
| EntryRows (rows : list spending_row)
| GoalData (g : goal_json)
| AnalysisData (a : analysis_json)
| ChatData (c : chat_json)
| ChatList (msgs : list chat_json)
| NullData.

(** Response bodies before [JSON.stringify]. *)
Inductive json_body :=
| EmptyObject
| StatusObject (status : string) (detail : option string)
| DebugObject (path originalPath actualPath : option string)
| ErrorObject (error : string)
| Success (data : payload)
| Failure (error : string).

Record response := Response {
  statusCode : Z;
  resp_headers : list (string * string);
  resp_body : json_body
}.

Definition corsHeaders : list (string * string) :=
  [ ("Access-Control-Allow-Origin", "*");
    ("Access-Control-Allow-Headers", "Content-Type,Authorization");
    ("Access-Control-Allow-Methods", "GET,POST,PUT,DELETE,OPTIONS") ].

(** [createResponse(statusCode, body)]; no caller passes extra headers. *)
Definition createResponse (status : Z) (b : json_body) : response :=
  Response status corsHeaders b.

(** ** The external world *)

(** The text-generation provider's reply, with the optional chaining of
    [response.data?.candidates[0]?.content?.parts?.[0]?.text]. *)
Record part := Part { text : option string }.
Record content := Content { parts : option (list part) }.
Record candidate := Candidate { cand_content : option content }.
Record response_data := ResponseData { candidates : option (list candidate) }.

Inductive axios_result :=
| AxiosError (detail : string)
| AxiosOk (data : option response_data).

(** Prompts, kept as the values interpolated into the template. *)
Inductive prompt :=
| QuizPrompt (answers : list quiz_answer)
| PlanPrompt (monthlyIncome monthlySavingsGoal : option float)
| DailyPrompt (totalSpent necessarySpent unnecessarySpent goal income : float)
| ChatPrompt (message : option string) (income goal : float)
             (recent : list (string * float))
| TestPrompt.

Record env := Env {
  (** [verifier.verify(token)]: the claims, or the verifier's error. *)
  verifier_verify : string -> string + claims;
  (** [process.env.GEMINI_API_KEY] *)
  GEMINI_API_KEY : option string;
  (** the provider's reply to the request issued as the n-th external call *)
  axios_post : nat -> axios_result;
  (** whether the store is unreachable at the n-th external call *)
  db_unreachable : nat -> bool;
  (** milliseconds taken by the n-th external call *)
  latency : nat -> Z
}.

Record world := World {
  users : list user_row;
  quiz_responses : list quiz_row;
  spending_entries : list spending_row;
  savings_goals : list goal_row;
  chat_messages : list chat_row;
  (** next [AUTO_INCREMENT] value of each table *)
  next_quiz_id : Z;
  next_entry_id : Z;
  next_goal_id : Z;
  next_chat_id : Z;
  (** wall clock, milliseconds since the epoch *)
  clock : Z;
  (** number of external calls issued so far *)
  calls : nat
}.

(** [Date.now()] and SQL [NOW()] in a given world. *)
Definition Date_now (w : world) : Z := clock w.
Definition NOW (w : world) : Z := clock w / 1000.

(** Largest value of a signed [INT] column. *)
Definition INT_MAX : Z := 2147483647.

(** ** Computations that may throw *)

Inductive outcome (A : Type) :=
| Returned (a : A)
| Thrown (message : string).
Arguments Returned {A} a.
Arguments Thrown {A} message.

Definition M (A : Type) : Type := world -> outcome A * world.

Definition ret {A} (a : A) : M A := fun w => (Returned a, w).
Definition throw {A} (msg : string) : M A := fun w => (Thrown msg, w).
Definition bind {A B} (m : M A) (k : A -> M B) : M B :=
  fun w => match m w with
           | (Returned a, w') => k a w'
           | (Thrown e, w') => (Thrown e, w')
           end.
(** [try { m } catch (error) { h(error.message) }] *)
Definition try_catch {A} (m : M A) (h : string -> M A) : M A :=
  fun w => match m w with
           | (Returned a, w') => (Returned a, w')
           | (Thrown e, w') => h e w'
           end.
Definition get_world : M world := fun w => (Returned w, w).

Declare Scope js_scope.
Delimit Scope js_scope with js.
Notation "'let*' x := m 'in' k" := (bind m (fun x => k))
  (at level 10, x pattern, m at level 100, k at level 200) : js_scope.
Notation "m ;; k" := (bind m (fun _ => k))
  (at level 100, k at level 200, right associativity) : js_scope.
Local Open Scope js_scope.

(** ** Query Executor *)

(** The statements the handlers prepare, indexed by the type of the rows
    they return. A bind value that may be [undefined] in the source is an
    [option]; the driver raises on [undefined]. *)
Inductive query : Type -> Type :=
| SelectUserById (uid : string) : query (list user_row)
| InsertUser (uid mail nm : string) : query unit
| InsertQuizResponse (uid : string) (answers : list quiz_answer)
    (analysis : string) : query unit
| InsertSpendingEntry (uid : string) (d : option string) (a : option float)
    (descr cat : option string) (nec : option bool) : query unit
| SelectEntriesByUser (uid : string) (d : option string) : query (list spending_row)
| UpsertSavingsGoal (uid : string) (income goal : option float)
    (plan : string) : query unit
| SelectEntriesByUserDate (uid : string) (d : option string) : query (list spending_row)
| SelectGoalByUser (uid : string) : query (list goal_row)
| SelectRecentEntries (uid : string) : query (list spending_row)
| InsertChatMessage (uid : string) (msg : option string) (isUser : bool) : query unit
| SelectLatestQuiz (uid : string) : query (list quiz_row)
| SelectEntryByIdUser (entryId : option string) (uid : string) : query (list spending_row)
| UpdateEntry (d : option string) (a : option float) (descr cat : option string)
    (nec : option bool) (entryId : option string) (uid : string) : query unit
| DeleteEntry (entryId : option string) (uid : string) : query unit
| SelectChatHistory (uid : string) : query (list chat_row)
| Describe : query unit.

(** [WHERE id = ?] with the string taken from the path: the key whose
    decimal rendering is the bound string. *)
Definition id_matches (entryId : string) (row_id : Z) : bool :=
  String.eqb entryId (pretty row_id).

Definition user_exists (w : world) (uid : string) : bool :=
  existsb (fun u => String.eqb (u_id u) uid) (users w).

(** [ORDER BY key DESC]: a row may precede another when its key is not
    smaller. The order among equal keys is the sort's, as SQL leaves it
    open. *)
Definition desc {A} (key : A -> Z) (a b : A) : Prop := key b <= key a.

#[global] Instance desc_dec {A} (key : A -> Z) : RelDecision (desc key) :=
  fun a b => decide (key b <= key a).

Definition order_by_desc {A} (key : A -> Z) (l : list A) : list A :=
  merge_sort (desc key) l.

Definition owned_by (uid : string) (r : spending_row) : bool :=
  String.eqb (user_id r) uid.
Definition on_date (d : string) (r : spending_row) : bool :=
  String.eqb (date r) d.
Definition entry_selected (entryId uid : string) (r : spending_row) : bool :=
  (id_matches entryId (id r) && owned_by uid r)%bool.

Definition set_users (w : world) (l : list user_row) : world :=
  World l (quiz_responses w) (spending_entries w) (savings_goals w)
        (chat_messages w) (next_quiz_id w) (next_entry_id w) (next_goal_id w)
        (next_chat_id w) (clock w) (calls w).
Definition set_quiz_responses (w : world) (l : list quiz_row) (n : Z) : world :=
  World (users w) l (spending_entries w) (savings_goals w)
        (chat_messages w) n (next_entry_id w) (next_goal_id w)
        (next_chat_id w) (clock w) (calls w).
Definition set_spending_entries (w : world) (l : list spending_row) (n : Z) : world :=
  World (users w) (quiz_responses w) l (savings_goals w)
        (chat_messages w) (next_quiz_id w) n (next_goal_id w)
        (next_chat_id w) (clock w) (calls w).
Definition set_savings_goals (w : world) (l : list goal_row) (n : Z) : world :=
  World (users w) (quiz_responses w) (spending_entries w) l
        (chat_messages w) (next_quiz_id w) (next_entry_id w) n
        (next_chat_id w) (clock w) (calls w).
Definition set_chat_messages (w : world) (l : list chat_row) (n : Z) : world :=
  World (users w) (quiz_responses w) (spending_entries w) (savings_goals w)
        l (next_quiz_id w) (next_entry_id w) (next_goal_id w)
        n (clock w) (calls w).

(** [SET date = ?, amount = ?, description = ?, category = ?,
    is_necessary = ?]: the key, the owner and [created_at] (which has no
    [ON UPDATE] clause in the schema) are kept. *)
Definition update_row (d : string) (a : float) (descr cat : string) (nec : bool)
    (r : spending_row) : spending_row :=
  SpendingRow (id r) (user_id r) d a descr cat nec (created_at r).

Definition upsert_goal_row (income goal : float) (plan : string) (now : Z)
    (g : goal_row) : goal_row :=
  GoalRow (g_id g) (g_user_id g) income goal plan (g_created_at g) now.

(** One statement against the store; [None] when the store rejects it
    (an [undefined] bind value, a key or foreign-key violation, an
    exhausted [AUTO_INCREMENT] counter). *)
Definition exec_query {A} (q : query A) (w : world) : option (A * world) :=
  match q in query T return option (T * world) with
  | SelectUserById uid =>
      Some (List.filter (fun u => String.eqb (u_id u) uid) (users w), w)
  | InsertUser uid mail nm =>
      if (user_exists w uid
          || existsb (fun u => String.eqb (u_email u) mail) (users w))%bool
      then None
      else Some (tt, set_users w (users w ++ [UserRow uid mail nm (NOW w) (NOW w)]))
  | InsertQuizResponse uid answers analysis =>
      if (user_exists w uid && (Z.leb (next_quiz_id w) INT_MAX))%bool
      then Some (tt, set_quiz_responses w
                   (quiz_responses w ++
                      [QuizRow (next_quiz_id w) uid answers analysis (NOW w)])
                   (next_quiz_id w + 1))
      else None
  | InsertSpendingEntry uid (Some d) (Some a) (Some descr) (Some cat) (Some nec) =>
      if (user_exists w uid && (Z.leb (next_entry_id w) INT_MAX))%bool
      then Some (tt, set_spending_entries w
                   (spending_entries w ++
                      [SpendingRow (next_entry_id w) uid d a descr cat nec (NOW w)])
                   (next_entry_id w + 1))
      else None
  | InsertSpendingEntry _ _ _ _ _ _ => None
  | SelectEntriesByUser uid d =>
      let mine := List.filter (owned_by uid) (spending_entries w) in
      Some (order_by_desc created_at
              match d with
              | Some d => List.filter (on_date d) mine
              | None => mine
              end, w)
  | UpsertSavingsGoal uid (Some income) (Some goal) plan =>
      if negb (user_exists w uid) then None
      else if existsb (fun g => String.eqb (g_user_id g) uid) (savings_goals w)
      then Some (tt, set_savings_goals w
                   (map (fun g => if String.eqb (g_user_id g) uid
                                  then upsert_goal_row income goal plan (NOW w) g
                                  else g) (savings_goals w))
                   (next_goal_id w))
      else if Z.leb (next_goal_id w) INT_MAX
      then Some (tt, set_savings_goals w
                   (savings_goals w ++
                      [GoalRow (next_goal_id w) uid income goal plan (NOW w) (NOW w)])
                   (next_goal_id w + 1))
      else None
  | UpsertSavingsGoal _ _ _ _ => None
  | SelectEntriesByUserDate uid (Some d) =>
      Some (List.filter (on_date d) (List.filter (owned_by uid) (spending_entries w)), w)
  | SelectEntriesByUserDate _ None => None
  | SelectGoalByUser uid =>
      Some (List.filter (fun g => String.eqb (g_user_id g) uid) (savings_goals w), w)
  | SelectRecentEntries uid =>
      Some (take 10 (order_by_desc created_at (List.filter (owned_by uid) (spending_entries w))), w)
  | InsertChatMessage uid (Some msg) isUser =>
      if (user_exists w uid && (Z.leb (next_chat_id w) INT_MAX))%bool
      then Some (tt, set_chat_messages w
                   (chat_messages w ++
                      [ChatRow (next_chat_id w) uid msg isUser (NOW w)])
                   (next_chat_id w + 1))
      else None
  | InsertChatMessage _ None _ => None
  | SelectLatestQuiz uid =>
      Some (take 1 (order_by_desc q_created_at
                      (List.filter (fun r => String.eqb (q_user_id r) uid)
                                   (quiz_responses w))), w)
  | SelectEntryByIdUser (Some entryId) uid =>
      Some (List.filter (entry_selected entryId uid) (spending_entries w), w)
  | SelectEntryByIdUser None _ => None
  | UpdateEntry (Some d) (Some a) (Some descr) (Some cat) (Some nec) (Some entryId) uid =>
      Some (tt, set_spending_entries w
                  (map (fun r => if entry_selected entryId uid r
                                 then update_row d a descr cat nec r else r)
                       (spending_entries w))
                  (next_entry_id w))
  | UpdateEntry _ _ _ _ _ _ _ => None
  | DeleteEntry (Some entryId) uid =>
      Some (tt, set_spending_entries w
                  (List.filter (fun r => negb (entry_selected entryId uid r))
                               (spending_entries w))
                  (next_entry_id w))
  | DeleteEntry None _ => None
  | SelectChatHistory uid =>
      Some (take 50 (order_by_desc timestamp
                       (List.filter (fun c => String.eqb (c_user_id c) uid)
                                    (chat_messages w))), w)
  | Describe => Some (tt, w)
  end.

(** The binary64 value of the literal [0.8]. *)
Definition lit_0_8 : float := 0x1.999999999999ap-1%float.

(** [entries.reduce((sum, entry) => sum + entry.amount, 0)] *)
Definition sum_amounts (entries : list spending_row) : float :=
  fold_left (fun sum entry => (sum + amount entry)%float) entries 0%float.

(** The on-track rule of [handleGetDailyAnalysis]. *)
Definition dailyBudget (savingsGoal : option goal_row) : float :=
  match savingsGoal with
  | Some g => ((monthly_income g - monthly_savings_goal g) / 30)%float
  | None => 0%float
  end.

Definition onTrack (totalSpent : float) (savingsGoal : option goal_row) : bool :=
  PrimFloat.leb totalSpent (dailyBudget savingsGoal * lit_0_8)%float.

Definition recommendations (on_track : bool) : list string :=
  [ if on_track then "Great job staying within budget!"
    else "Consider reducing unnecessary expenses";
    "Track your spending daily to stay on top of your goals";
    "Review your budget weekly to make adjustments" ].

(** Messages of the errors raised by the runtime and the drivers. *)
Definition SyntaxError_message : string := "Unexpected end of JSON input".
Definition TypeError_message : string := "Cannot read properties of undefined".
Definition connect_error_message : string := "connect ETIMEDOUT".
Definition statement_error_message : string := "statement rejected by the store".

(** [const { ... } = JSON.parse(event.body)] *)
Definition JSON_parse (ev : event) : M request_body :=
  match body ev with
  | Some b => ret b
  | None => throw SyntaxError_message
  end.

Definition extractUserIdFromPath (p : option string) (prefix : string) : option string :=
  if (negb (Js.truthy p) || negb (Js.truthy (Some prefix)))%bool then None
  else
    let p := default "" p in
    match Js.indexOf p prefix with
    | None => None
    | Some idx =>
        let rest := Js.slice_from p (idx + String.length prefix) in
        let rest := match Js.indexOf rest "?" with
                    | Some qIdx => Js.slice_to rest qIdx
                    | None => rest
                    end in
        match Js.indexOf rest "/" with
        | None => Some rest
        | Some endIdx => Some (Js.slice_to rest endIdx)
        end
    end.

(** [let userId = event.pathParameters?.userId;
     if (!userId) userId = extractUserIdFromPath(event.path, prefix);] *)
Definition resolve_userId (ev : event) (prefix : string) : option string :=
  let userId := opt_get (pathParameters ev) "userId" in
  if Js.truthy userId then userId else extractUserIdFromPath (path ev) prefix.

(** Extraction of the first candidate's text, [''] when any link is missing. *)
Definition first_text (data : option response_data) : string :=
  let cands : list candidate :=
    match data with
    | Some d => default [] (candidates d)
    | None => []
    end in
  let t : option string :=
    c ← head cands; ct ← cand_content c; ps ← parts ct; p ← head ps; text p in
  default "" (Js.or t (Some "")).

Section Handler.

Variable E : env.

(** One external call: the counter moves on and the clock advances by
    the call's latency. *)
Definition tick (w : world) : world :=
  World (users w) (quiz_responses w) (spending_entries w) (savings_goals w)
        (chat_messages w) (next_quiz_id w) (next_entry_id w) (next_goal_id w)
        (next_chat_id w) (clock w + latency E (calls w)) (S (calls w)).

(** [getConnection()] followed by [connection.end()] *)
Definition getConnection : M unit := fun w =>
  if db_unreachable E (calls w) then (Thrown connect_error_message, tick w)
  else (Returned tt, tick w).

Definition executeQuery {A} (q : query A) : M A := fun w =>
  if db_unreachable E (calls w) then (Thrown connect_error_message, tick w)
  else match exec_query q (tick w) with
       | Some (rows, w') => (Returned rows, w')
       | None => (Thrown statement_error_message, tick w)
       end.

(** [headers.Authorization || headers.authorization || headers.AUTHORIZATION] *)
Definition authHeader_of (ev : event) : option string :=
  let hs := headers ev in
  Js.or (opt_get hs "Authorization")
        (Js.or (opt_get hs "authorization") (opt_get hs "AUTHORIZATION")).

(** [authHeader ? authHeader.replace(/^Bearer\s+/i, '') : null] *)
Definition token_of (ev : event) : option string :=
  if Js.truthy (authHeader_of ev)
  then Js.stripBearer <$> authHeader_of ev else None.

Definition verifyToken (ev : event) : M claims :=
  try_catch
    (match token_of ev with
     | Some t =>
         if String.eqb t "" then throw "No token provided"
         else match verifier_verify E t with
              | inr payload => ret payload
              | inl err => throw err
              end
     | None => throw "No token provided"
     end)
    (fun _ => throw "Invalid token").

Definition callGemini (p : prompt) : M string :=
  if negb (Js.truthy (GEMINI_API_KEY E))
  then throw "GEMINI_API_KEY is not configured"
  else
    try_catch
      (let* response := (fun w => match axios_post E (calls w) with
                                  | AxiosOk data => (Returned data, tick w)
                                  | AxiosError detail => (Thrown detail, tick w)
                                  end) in
       let text := first_text response in
       if String.eqb text "" then throw "Empty response from Gemini"
       else ret text)
      (fun _ => throw "Failed to get AI response").

(** *** Domain handlers *)

Definition unauthorized : response := createResponse 403 (Failure "Unauthorized").

Definition handleQuizSubmit (ev : event) (userPayload : claims) : M response :=
  try_catch
    (let* b := JSON_parse ev in
     let answers := b_answers b in
     let* existingUser := executeQuery (SelectUserById (sub userPayload)) in
     (if Nat.eqb (length existingUser) 0
      then executeQuery
             (InsertUser (sub userPayload)
                (default "user@example.com" (Js.or (email userPayload) (Some "user@example.com")))
                (default "User" (Js.or (name userPayload) (Some "User"))))
      else ret tt);;
     match answers with
     | None => throw TypeError_message
     | Some answers =>
         let* analysis := callGemini (QuizPrompt answers) in
         executeQuery (InsertQuizResponse (sub userPayload) answers analysis);;
         let* w := get_world in
         ret (createResponse 200 (Success (QuizData
                (QuizJson (pretty (Date_now w)) (sub userPayload) answers analysis
                          (toISOString (Date_now w))))))
     end)
    (fun message => ret (createResponse 500 (Failure message))).

Definition handleAddSpendingEntry (ev : event) (userPayload : claims) : M response :=
  let* b := JSON_parse ev in
  executeQuery (InsertSpendingEntry (sub userPayload) (b_date b) (b_amount b)
                  (b_description b) (b_category b) (b_isNecessary b));;
  let* w := get_world in
  ret (createResponse 200 (Success (EntryData
         (EntryJson (Some (pretty (Date_now w))) (sub userPayload) (b_date b)
                    (b_amount b) (b_description b) (b_category b)
                    (b_isNecessary b) (toISOString (Date_now w)))))).

Definition handleGetSpendingEntries (ev : event) (userPayload : claims) : M response :=
  let userId := resolve_userId ev "/spending/entries/" in
  let d := opt_get (queryStringParameters ev) "date" in
  if (Js.truthy userId && negb (bool_decide (userId = Some (sub userPayload))))%bool
  then ret unauthorized
  else
    try_catch
      (let effectiveUserId := Js.or userId (Some (sub userPayload)) in
       match effectiveUserId with
       | Some uid =>
           if String.eqb uid ""
           then ret (createResponse 400 (Failure "Missing userId"))
           else
             let* entries :=
               executeQuery (SelectEntriesByUser uid (if Js.truthy d then d else None)) in
             ret (createResponse 200 (Success (EntryRows entries)))
       | None => ret (createResponse 400 (Failure "Missing userId"))
       end)
      (fun _ => ret (createResponse 200 (Success (EntryRows [])))).

Definition handleSetSavingsGoal (ev : event) (userPayload : claims) : M response :=
  let* b := JSON_parse ev in
  let monthlyIncome := b_monthlyIncome b in
  let monthlySavingsGoal := b_monthlySavingsGoal b in
  let* savingsPlan := callGemini (PlanPrompt monthlyIncome monthlySavingsGoal) in
  try_catch
    (executeQuery (UpsertSavingsGoal (sub userPayload) monthlyIncome
                     monthlySavingsGoal savingsPlan))
    (fun _ => ret tt);;
  let* w := get_world in
  ret (createResponse 200 (Success (GoalData
         (GoalJson (pretty (Date_now w)) (sub userPayload) monthlyIncome
                   monthlySavingsGoal savingsPlan
                   (toISOString (Date_now w)) (toISOString (Date_now w)))))).

Definition handleGetDailyAnalysis (ev : event) (userPayload : claims) : M response :=
  let userId := resolve_userId ev "/analysis/daily/" in
  let d := opt_get (queryStringParameters ev) "date" in
  if negb (bool_decide (userId = Some (sub userPayload)))
  then ret unauthorized
  else
    (* past the check, [userId] is the subject *)
    let* entries := executeQuery (SelectEntriesByUserDate (sub userPayload) d) in
    let totalSpent := sum_amounts entries in
    let necessarySpent := sum_amounts (List.filter is_necessary entries) in
    let unnecessarySpent := (totalSpent - necessarySpent)%float in
    let* goals := executeQuery (SelectGoalByUser (sub userPayload)) in
    let savingsGoal := head goals in
    let* analysis :=
      callGemini (DailyPrompt totalSpent necessarySpent unnecessarySpent
                    (Js.or_zero (default 0%float (monthly_savings_goal <$> savingsGoal)))
                    (Js.or_zero (default 0%float (monthly_income <$> savingsGoal)))) in
    let on_track := onTrack totalSpent savingsGoal in
    ret (createResponse 200 (Success (AnalysisData
           (AnalysisJson d totalSpent necessarySpent unnecessarySpent on_track
                         analysis (recommendations on_track))))).

Definition handleChatMessage (ev : event) (userPayload : claims) : M response :=
  let* b := JSON_parse ev in
  let message := b_message b in
  let* goals := executeQuery (SelectGoalByUser (sub userPayload)) in
  let savingsGoal := head goals in
  let* recentEntries := executeQuery (SelectRecentEntries (sub userPayload)) in
  let* reply :=
    callGemini (ChatPrompt message
                  (Js.or_zero (default 0%float (monthly_income <$> savingsGoal)))
                  (Js.or_zero (default 0%float (monthly_savings_goal <$> savingsGoal)))
                  (map (fun e => (description e, amount e)) recentEntries)) in
  executeQuery (InsertChatMessage (sub userPayload) message true);;
  executeQuery (InsertChatMessage (sub userPayload) (Some reply) false);;
  let* w := get_world in
  ret (createResponse 200 (Success (ChatData
         (ChatJson (pretty (Date_now w)) (sub userPayload) reply false
                   (toISOString (Date_now w)))))).

Definition handleGetQuizAnalysis (ev : event) (userPayload : claims) : M response :=
  let userId := opt_get (pathParameters ev) "userId" in
  if negb (bool_decide (userId = Some (sub userPayload)))
  then ret unauthorized
  else
    let* rows := executeQuery (SelectLatestQuiz (sub userPayload)) in
    match head rows with
    | None => ret (createResponse 404 (Failure "Quiz not found"))
    | Some quizResponse =>
        ret (createResponse 200 (Success (QuizData
               (QuizJson (pretty (q_id quizResponse)) (q_user_id quizResponse)
                         (q_answers quizResponse) (q_analysis quizResponse)
                         (toISOString (date_of_timestamp (q_created_at quizResponse)))))))
    end.

Definition handleGetSavingsGoal (ev : event) (userPayload : claims) : M response :=
  let userId := opt_get (pathParameters ev) "userId" in
  if negb (bool_decide (userId = Some (sub userPayload)))
  then ret unauthorized
  else
    let* rows := executeQuery (SelectGoalByUser (sub userPayload)) in
    match head rows with
    | None => ret (createResponse 404 (Failure "Savings goal not found"))
    | Some savingsGoal =>
        ret (createResponse 200 (Success (GoalData
               (GoalJson (pretty (g_id savingsGoal)) (g_user_id savingsGoal)
                         (Some (monthly_income savingsGoal))
                         (Some (monthly_savings_goal savingsGoal))
                         (savings_plan savingsGoal)
                         (toISOString (date_of_timestamp (g_created_at savingsGoal)))
                         (toISOString (date_of_timestamp (g_updated_at savingsGoal)))))))
    end.

Definition entry_not_found : response :=
  createResponse 404 (Failure "Entry not found").

Definition handleUpdateSpendingEntry (ev : event) (userPayload : claims) : M response :=
  let entryId := opt_get (pathParameters ev) "id" in
  let* b := JSON_parse ev in
  let* rows := executeQuery (SelectEntryByIdUser entryId (sub userPayload)) in
  match head rows with
  | None => ret entry_not_found
  | Some existingEntry =>
      executeQuery (UpdateEntry (b_date b) (b_amount b) (b_description b)
                      (b_category b) (b_isNecessary b) entryId (sub userPayload));;
      ret (createResponse 200 (Success (EntryData
             (EntryJson entryId (sub userPayload) (b_date b) (b_amount b)
                        (b_description b) (b_category b) (b_isNecessary b)
                        (toISOString (date_of_timestamp (created_at existingEntry)))))))
  end.

Definition handleDeleteSpendingEntry (ev : event) (userPayload : claims) : M response :=
  let entryId := opt_get (pathParameters ev) "id" in
  let* rows := executeQuery (SelectEntryByIdUser entryId (sub userPayload)) in
  match head rows with
  | None => ret entry_not_found
  | Some _ =>
      executeQuery (DeleteEntry entryId (sub userPayload));;
      ret (createResponse 200 (Success NullData))
  end.

Definition chat_item (msg : chat_row) : chat_json :=
  ChatJson (pretty (c_id msg)) (c_user_id msg) (c_message msg) (is_user msg)
           (toISOString (date_of_timestamp (timestamp msg))).

Definition handleGetChatHistory (ev : event) (userPayload : claims) : M response :=
  let userId := resolve_userId ev "/chat/history/" in
  if negb (bool_decide (userId = Some (sub userPayload)))
  then ret unauthorized
  else
    let* messages := executeQuery (SelectChatHistory (sub userPayload)) in
    ret (createResponse 200 (Success (ChatList (map chat_item messages)))).

(** *** Router *)

(** Path normalisation of [exports.handler]; [actualPath.startsWith]
    raises when neither [path] nor [resource] is set. *)
Definition cleanPath_of (ev : event) : M string :=
  let actualPath := Js.or (path ev) (resource ev) in
  let proxy := opt_get (pathParameters ev) "proxy" in
  let* cleanPath :=
    if Js.truthy proxy then ret (Some ("/" +:+ default "" proxy))
    else match actualPath with
         | None => throw TypeError_message
         | Some p =>
             if Js.startsWith p "/dev/" then ret (Some (Js.replace p "/dev" ""))
             else ret actualPath
         end in
  ret (default "/" (Js.or cleanPath (Some "/"))).

(** Routes served without token verification. *)
Definition open_route (cleanPath : string) : bool :=
  (String.eqb cleanPath "/health" || String.eqb cleanPath "/test-db"
   || String.eqb cleanPath "/test-gemini" || String.eqb cleanPath "/test-schema"
   || String.eqb cleanPath "/debug")%bool.

Definition testUserId : string := "41d30dea-2041-707f-953d-b18011ab9d80".

(** Dispatch on method and normalised path, in the order of the source. *)
Definition route (ev : event) (cleanPath : string) (userPayload : option claims)
    : M response :=
  let method := httpMethod ev in
  let authed (h : event -> claims -> M response) : M response :=
    match userPayload with
    | Some p => h ev p
    | None => throw TypeError_message
    end in
  if String.eqb cleanPath "/health"
  then ret (createResponse 200 (StatusObject "healthy" None))
  else if String.eqb cleanPath "/test-db"
  then try_catch
         (getConnection;;
          ret (createResponse 200 (StatusObject "database connected" None)))
         (fun message => ret (createResponse 500 (ErrorObject message)))
  else if String.eqb cleanPath "/test-gemini"
  then try_catch
         (let* reply := callGemini TestPrompt in
          ret (createResponse 200 (StatusObject "gemini working" (Some reply))))
         (fun message => ret (createResponse 500 (ErrorObject message)))
  else if String.eqb cleanPath "/debug"
  then ret (createResponse 200
              (DebugObject (Some cleanPath) (path ev) (Js.or (path ev) (resource ev))))
  else if String.eqb cleanPath "/test-schema"
  then try_catch
         (executeQuery Describe;;
          executeQuery Describe;;
          executeQuery Describe;;
          executeQuery (SelectUserById testUserId);;
          ret (createResponse 200 (StatusObject "schema check" None)))
         (fun message => ret (createResponse 500 (ErrorObject message)))
  else if (String.eqb method "POST" && String.eqb cleanPath "/quiz/submit")%bool
  then authed handleQuizSubmit
  else if (String.eqb method "POST" && String.eqb cleanPath "/spending/entry")%bool
  then authed handleAddSpendingEntry
  else if (String.eqb method "GET" && Js.startsWith cleanPath "/spending/entries/")%bool
  then authed handleGetSpendingEntries
  else if (String.eqb method "POST" && String.eqb cleanPath "/savings/goal")%bool
  then authed handleSetSavingsGoal
  else if (String.eqb method "GET" && Js.startsWith cleanPath "/analysis/daily/")%bool
  then authed handleGetDailyAnalysis
  else if (String.eqb method "POST" && String.eqb cleanPath "/chat/message")%bool
  then authed handleChatMessage
  else if (String.eqb method "GET" && Js.startsWith cleanPath "/quiz/analysis/")%bool
  then authed handleGetQuizAnalysis
  else if (String.eqb method "GET" && Js.startsWith cleanPath "/savings/goal/")%bool
  then authed handleGetSavingsGoal
  else if (String.eqb method "PUT" && Js.startsWith cleanPath "/spending/entry/")%bool
  then authed handleUpdateSpendingEntry
  else if (String.eqb method "DELETE" && Js.startsWith cleanPath "/spending/entry/")%bool
  then authed handleDeleteSpendingEntry
  else if (String.eqb method "GET" && Js.startsWith cleanPath "/chat/history/")%bool
  then authed handleGetChatHistory
  else ret (createResponse 404 (Failure "Not found")).

(** [exports.handler] *)
Definition handler (ev : event) : M response :=
  if String.eqb (httpMethod ev) "OPTIONS"
  then ret (createResponse 200 EmptyObject)
  else
    try_catch
      (let* cleanPath := cleanPath_of ev in
       let* userPayload :=
         if negb (open_route cleanPath)
         then let* p := verifyToken ev in ret (Some p)
         else ret None in
       route ev cleanPath userPayload)
      (fun message =>
         ret (createResponse 500
                (Failure (if String.eqb message "" then "Internal server error"
                          else message)))).

End Handler.

(** ** Concrete scenarios

    A verifier that accepts the tokens of two users, a provider that
    answers every request with one candidate, a reachable store and calls
    that take five milliseconds. *)

Module Scenario.

Definition alice : claims := Claims "abc" (Some "abc@example.com") (Some "Abc").
Definition bob : claims := Claims "xyz" (Some "xyz@example.com") (Some "Xyz").

Definition verify (t : string) : string + claims :=
  if String.eqb t "token-abc" then inr alice
  else if String.eqb t "token-xyz" then inr bob
  else inl "Token expired".

Definition reply_with (t : string) : axios_result :=
  AxiosOk (Some (ResponseData (Some [Candidate (Some (Content (Some [Part (Some t)])))]))).

(** A provider reply without candidates. *)
Definition reply_empty : axios_result := AxiosOk (Some (ResponseData (Some []))).

Definition env_ok : env :=
  Env verify (Some "api-key") (fun _ => reply_with "Spend less on coffee.")
      (fun _ => false) (fun _ => 5).
Definition env_empty_reply : env :=
  Env verify (Some "api-key") (fun _ => reply_empty) (fun _ => false) (fun _ => 5).
Definition env_transport_error : env :=
  Env verify (Some "api-key") (fun _ => AxiosError "socket hang up")
      (fun _ => false) (fun _ => 5).
Definition env_store_down : env :=
  Env verify (Some "api-key") (fun _ => reply_with "Save a tenth of it.")
      (fun _ => true) (fun _ => 5).
Definition env_no_key : env :=
  Env verify None (fun _ => reply_with "unused") (fun _ => false) (fun _ => 5).

(** 2025-11-01T12:26:40Z *)
Definition t0 : Z := 1762000000000.

Definition base : world :=
  World [UserRow "abc" "abc@example.com" "Abc" 1761000000 1761000000;
         UserRow "xyz" "xyz@example.com" "Xyz" 1761000000 1761000000]
        [] [] [] [] 1 1 1 1 t0 0.

Definition request (method p : string) (params query hdrs : list (string * string))
    (b : option request_body) : event :=
  Event method (Some p) (Some p) (Some (list_to_map params))
        (Some (list_to_map query)) (Some (list_to_map hdrs)) b.

Definition as_alice : list (string * string) := [("Authorization", "Bearer token-abc")].
Definition as_bob : list (string * string) := [("authorization", "bearer token-xyz")].

Definition entry_body (d : string) (a : float) (descr cat : string) (nec : bool)
    : request_body :=
  Body None (Some d) (Some a) (Some descr) (Some cat) (Some nec) None None None.
Definition goal_body (income goal : float) : request_body :=
  Body None None None None None None (Some income) (Some goal) None.
Definition chat_body (msg : string) : request_body :=
  Body None None None None None None None None (Some msg).

(** The world after alice has logged one expense. *)
Definition lunch : request_body :=
  entry_body "2025-09-13" 12.5 "Lunch" "Food & Dining" true.
Definition post_lunch : event :=
  request "POST" "/spending/entry" [] [] as_alice (Some lunch).
Definition after_lunch : world :=
  snd (handleAddSpendingEntry env_ok post_lunch alice base).
Definition lunch_row : spending_row :=
  SpendingRow 1 "abc" "2025-09-13" 12.5 "Lunch" "Food & Dining" true 1762000000.

(** Requests on the entry with key 1. *)
Definition put_entry_1 (who : list (string * string)) : event :=
  request "PUT" "/spending/entry/1" [("id", "1")] [] who
    (Some (entry_body "2025-09-14" 99 "Changed" "Shopping" false)).
Definition delete_entry_1 (who : list (string * string)) : event :=
  request "DELETE" "/spending/entry/1" [("id", "1")] [] who None.

(** The payload of a successful update of that entry by its owner. *)
Definition changed_json : entry_json :=
  EntryJson (Some "1") "abc" (Some "2025-09-14") (Some 99%float) (Some "Changed")
            (Some "Shopping") (Some false) (toISOString 1762000000000).

(** Listing alice's entries of that day. *)
Definition list_entries : event :=
  request "GET" "/spending/entries/abc" [("userId", "abc")] [("date", "2025-09-13")]
          as_alice None.

(** The response to [post_lunch]. *)
Definition lunch_created : response :=
  createResponse 200 (Success (EntryData
    (EntryJson (Some "1762000000005") "abc" (Some "2025-09-13") (Some 12.5%float)
               (Some "Lunch") (Some "Food & Dining") (Some true)
               (toISOString 1762000000005)))).

(** One chat turn of alice, and the request for her history. *)
Definition chat_turn : event :=
  request "POST" "/chat/message" [] [] as_alice (Some (chat_body "How can I save more?")).
Definition after_chat : world := snd (handleChatMessage env_ok chat_turn alice base).
Definition chat_history : event :=
  request "GET" "/chat/history/abc" [("userId", "abc")] [] as_alice None.

(** An update addressed to the id that [lunch_created] carries. *)
Definition put_returned_id : event :=
  request "PUT" "/spending/entry/1762000000005" [("id", "1762000000005")] []
          as_alice (Some (entry_body "2025-09-14" 99 "Changed" "Shopping" false)).

(** Alice sets a goal of 900 on an income of 3000, then spends 55. *)
Definition post_goal : event :=
  request "POST" "/savings/goal" [] [] as_alice (Some (goal_body 3000 900)).
Definition after_goal : world := snd (handleSetSavingsGoal env_ok post_goal alice base).
Definition goal_created : response :=
  createResponse 200 (Success (GoalData
    (GoalJson "1762000000010" "abc" (Some 3000%float) (Some 900%float)
              "Spend less on coffee." (toISOString 1762000000010)
              (toISOString 1762000000010)))).
Definition post_55 : event :=
  request "POST" "/spending/entry" [] [] as_alice
          (Some (entry_body "2025-09-13" 55 "Groceries" "Food & Dining" true)).


(** Bob logs an expense of his own after alice's lunch. *)
Definition post_taxi : event :=
  request "POST" "/spending/entry" [] [] as_bob
          (Some (entry_body "2025-09-13" 30 "Taxi" "Transportation" false)).
Definition after_lunch_and_taxi : world :=
  snd (handleAddSpendingEntry env_ok post_taxi bob after_lunch).

(** A store in which nobody has submitted the quiz yet. *)
Definition empty_store : world := World [] [] [] [] [] 1 1 1 1 t0 0.

(** Alice submits the quiz to a store that does not know her yet. *)
Definition quiz_answers : list quiz_answer :=
  [QuizAnswer "q1" "I plan every purchase"; QuizAnswer "q2" "Weekly"].
Definition post_quiz : event :=
  request "POST" "/quiz/submit" [] [] as_alice
          (Some (Body (Some quiz_answers) None None None None None None None None)).
Definition quiz_created : quiz_json :=
  QuizJson "1762000000020" "abc" quiz_answers "Spend less on coffee."
           (toISOString 1762000000020).

(** The response to [chat_turn]. *)
Definition chat_reply : chat_json :=
  ChatJson "1762000000025" "abc" "Spend less on coffee." false
           (toISOString 1762000000025).


(** An update of entry 1 that leaves [isNecessary] out. *)
Definition put_incomplete : event :=
  request "PUT" "/spending/entry/1" [("id", "1")] [] as_alice
    (Some (Body None (Some "2025-09-14") (Some 99%float) (Some "Changed")
                (Some "Shopping") None None None None)).


End Scenario.

(** ** Vocabulary of the statements *)

(** The GET routes whose path names a target user. *)
Inductive user_route :=
| SpendingEntries | AnalysisDaily | QuizAnalysis | SavingsGoal | ChatHistory.

Definition route_prefix (r : user_route) : string :=
  match r with
  | SpendingEntries => "/spending/entries/"
  | AnalysisDaily => "/analysis/daily/"
  | QuizAnalysis => "/quiz/analysis/"
  | SavingsGoal => "/savings/goal/"
  | ChatHistory => "/chat/history/"
  end.

(** The target userId of a request, as the route's handler reads it. *)
Definition path_userId (r : user_route) (ev : event) : option string :=
  match r with
  | SpendingEntries | AnalysisDaily | ChatHistory => resolve_userId ev (route_prefix r)
  | QuizAnalysis | SavingsGoal => opt_get (pathParameters ev) "userId"
  end.

(** Store invariant guaranteed by [id INT AUTO_INCREMENT PRIMARY KEY]:
    keys are unique, were issued by the counter, and the counter has not
    left the range of [INT]. *)
Definition entries_wf (w : world) : Prop :=
  List.NoDup (map id (spending_entries w)) /\
  Forall (fun r => id r < next_entry_id w) (spending_entries w) /\
  next_entry_id w <= INT_MAX + 1.

Definition goals_wf (w : world) : Prop :=
  Forall (fun g => g_id g < next_goal_id w) (savings_goals w) /\
  next_goal_id w <= INT_MAX + 1.

Definition store_wf (w : world) : Prop := entries_wf w /\ goals_wf w.

(** A computation that keeps the store invariant. *)
Definition preserves {A} (m : M A) : Prop :=
  forall w, store_wf w -> store_wf (snd (m w)).

(** The rows of [spending_entries] that do not belong to a subject. *)
Definition rows_of_others (s : string) (w : world) : list spending_row :=
  List.filter (fun r => negb (owned_by s r)) (spending_entries w).


(** Orderings of a returned chat history by timestamp. *)
Definition iso_ms (i : iso) : Z := match i with ISO ms => ms end.

Definition later (a b : chat_json) : Prop :=
  iso_ms (cj_timestamp b) < iso_ms (cj_timestamp a).
Definition not_earlier (a b : chat_json) : Prop :=
  iso_ms (cj_timestamp b) <= iso_ms (cj_timestamp a).

(** Each message strictly later than the next one. *)
Definition strictly_newest_first (msgs : list chat_json) : Prop := Sorted later msgs.
(** Each message at least as late as every message after it. *)
Definition newest_first (msgs : list chat_json) : Prop := StronglySorted not_earlier msgs.

(** A response that is the success envelope at status 200. *)
Definition is_success (r : outcome response) : bool :=
  match r with
  | Returned (Response 200 _ (Success _)) => true
  | _ => false
  end.

(** ** Frames, postconditions and response shapes *)

(** The persistent part of the world: the five tables and their counters. *)
Definition tables (w : world) :=
  (users w, quiz_responses w, spending_entries w, savings_goals w, chat_messages w,
   (next_quiz_id w, next_entry_id w, next_goal_id w, next_chat_id w)).

(** A computation that writes no table. *)
Definition read_only {A} (m : M A) : Prop :=
  forall w, tables (snd (m w)) = tables w.

(** Postconditions on the value returned and on the message thrown. *)
Definition post {A} (R : A -> Prop) (T : string -> Prop) (m : M A) : Prop :=
  forall w, match fst (m w) with
            | Returned a => R a
            | Thrown e => T e
            end.

Definition nonempty (msg : string) : Prop := msg <> "".

(** The shapes of the responses the handler builds: the CORS headers on
    every response; a failure envelope with a non-empty error at status
    400, 403, 404 or 500; a bare error object at 500; anything else at
    200. *)
Definition well_formed (r : response) : Prop :=
  resp_headers r = corsHeaders /\
  match resp_body r with
  | Failure msg =>
      msg <> "" /\
      (statusCode r = 400 \/ statusCode r = 403 \/ statusCode r = 404 \/
       statusCode r = 500)
  | ErrorObject _ => statusCode r = 500
  | _ => statusCode r = 200
  end.

(** ** Vocabulary for paths and headers *)

(** Whether a character occurs in a string. *)
Fixpoint has_char (c : ascii) (s : string) : bool :=
  match s with
  | EmptyString => false
  | String d r => (Ascii.eqb c d || has_char c r)%bool
  end.

(** The longest prefix of a string without a given character. *)
Fixpoint take_until (c : ascii) (s : string) : string :=
  match s with
  | EmptyString => EmptyString
  | String d r => if Ascii.eqb c d then EmptyString else String d (take_until c r)
  end.



(** The statements that select. *)
Definition selects {A} (q : query A) : bool :=
  match q with
  | SelectUserById _ | SelectEntriesByUser _ _ | SelectEntriesByUserDate _ _
  | SelectGoalByUser _ | SelectRecentEntries _ | SelectLatestQuiz _
  | SelectEntryByIdUser _ _ | SelectChatHistory _ | Describe => true
  | _ => false
  end.

(** What the store holds for one user: the rows of the four per-user
    tables that carry the user's id. *)
Definition view (s : string) (w : world) :=
  (List.filter (owned_by s) (spending_entries w),
   List.filter (fun g => String.eqb (g_user_id g) s) (savings_goals w),
   List.filter (fun r => String.eqb (q_user_id r) s) (quiz_responses w),
   List.filter (fun c => String.eqb (c_user_id c) s) (chat_messages w)).

(** Two states that hold the same rows for a user, at the same point of the
    sequence of external calls. *)
Definition same_view (s : string) (w1 w2 : world) : Prop :=
  calls w1 = calls w2 /\ view s w1 = view s w2.

(** A computation whose outcome is the same from related states, and that
    keeps the states related. *)
Definition agree (R : world -> world -> Prop) {A} (m : M A) : Prop :=
  forall w1 w2, R w1 w2 ->
    fst (m w1) = fst (m w2) /\ R (snd (m w1)) (snd (m w2)).

(** The statements that select rows of the user [s] only. *)
Definition selects_for (s : string) {A} (q : query A) : Prop :=
  match q with
  | SelectEntriesByUser u _ | SelectEntriesByUserDate u _ | SelectGoalByUser u
  | SelectRecentEntries u | SelectLatestQuiz u | SelectChatHistory u => u = s
  | _ => False
  end.

(** The statements that write no row of the user [s] in the per-user
    tables. *)
Definition foreign_to (s : string) {A} (q : query A) : Prop :=
  match q with
  | InsertQuizResponse u _ _ | InsertSpendingEntry u _ _ _ _ _
  | UpsertSavingsGoal u _ _ _ | InsertChatMessage u _ _
  | UpdateEntry _ _ _ _ _ _ u | DeleteEntry _ u => u <> s
  | _ => True
  end.

(** A computation that leaves the rows of the user [s] as they are, and
    whose returned value satisfies [R]. *)
Definition keeps_rows_of (s : string) {A} (R : A -> Prop) (m : M A) : Prop :=
  forall w, view s (snd (m w)) = view s w /\
            match fst (m w) with Returned a => R a | Thrown _ => True end.

(** The request carries a token that the verifier accepts as the user [s]. *)
Definition authenticated_as (E : env) (ev : event) (s : string) (w : world) : bool :=
  match fst (verifyToken E ev w) with
  | Returned p => String.eqb (sub p) s
  | Thrown _ => false
  end.

(** Successive invocations: each event is handled in the state the
    previous one left. *)
Fixpoint serve (E : env) (evs : list event) (w : world)
    : list (outcome response) * world :=
  match evs with
  | [] => ([], w)
  | ev :: rest =>
      let (r, w1) := handler E ev w in
      let (rs, w2) := serve E rest w1 in
      (r :: rs, w2)
  end.

(** The same event with other headers. *)
Definition with_headers (ev : event) (hs : option (gmap string string)) : event :=
  Event (httpMethod ev) (path ev) (resource ev) (pathParameters ev)
        (queryStringParameters ev) hs (body ev).

(** * Properties *)

(** ** The monad and the external calls *)

Ltac unfold_m := unfold bind, ret, throw, try_catch, get_world in *.

Section ExternalCalls.

Variable E : env.

Lemma executeQuery_down {A} (q : query A) w :
  db_unreachable E (calls w) = true ->
  executeQuery E q w = (Thrown connect_error_message, tick E w).
Proof. intros H. unfold executeQuery. now rewrite H. Qed.

Lemma executeQuery_up {A} (q : query A) w :
  db_unreachable E (calls w) = false ->
  executeQuery E q w =
    match exec_query q (tick E w) with
    | Some (rows, w') => (Returned rows, w')
    | None => (Thrown statement_error_message, tick E w)
    end.
Proof. intros H. unfold executeQuery. now rewrite H. Qed.

(** Token verification neither reads nor writes the world. *)
Lemma verifyToken_pure ev w w' :
  fst (verifyToken E ev w) = fst (verifyToken E ev w') /\
  snd (verifyToken E ev w) = w.
Proof.
  unfold verifyToken. unfold_m.
  destruct (token_of ev) as [t|]; [|now split].
  destruct (String.eqb t ""); [now split|].
  destruct (verifier_verify E t); now split.
Qed.

Lemma verifyToken_throws_generic ev w msg w' :
  verifyToken E ev w = (Thrown msg, w') -> msg = "Invalid token" /\ w' = w.
Proof.
  unfold verifyToken. unfold_m.
  destruct (token_of ev) as [t|]; [|intros [= <- <-]; now split].
  destruct (String.eqb t ""); [intros [= <- <-]; now split|].
  destruct (verifier_verify E t); [intros [= <- <-]; now split|discriminate].
Qed.

(** Path normalisation neither reads nor writes the world. *)
Lemma cleanPath_of_pure ev w w' :
  fst (cleanPath_of ev w) = fst (cleanPath_of ev w') /\
  snd (cleanPath_of ev w) = w.
Proof.
  unfold cleanPath_of. unfold_m.
  destruct (Js.truthy (opt_get (pathParameters ev) "proxy")); [now split|].
  destruct (Js.or (path ev) (resource ev)) as [p|]; [|now split].
  destruct (Js.startsWith p "/dev/"); now split.
Qed.

End ExternalCalls.

(** ** Text-generation client *)

Section Generation.

Variable E : env.

(** The only messages [callGemini] can raise: the configuration check
    sits outside the [try], every other failure passes through the
    [catch]. *)
Lemma callGemini_messages p w msg w' :
  callGemini E p w = (Thrown msg, w') ->
  msg = "GEMINI_API_KEY is not configured" \/ msg = "Failed to get AI response".
Proof.
  unfold callGemini.
  destruct (negb (Js.truthy (GEMINI_API_KEY E))).
  - unfold throw. intros [= <- _]. now left.
  - unfold_m. destruct (axios_post E (calls w)) as [detail|data].
    + intros [= <- _]. now right.
    + destruct (String.eqb (first_text data) "").
      * intros [= <- _]. now right.
      * discriminate.
Qed.


Lemma callGemini_fails p w :
  Js.truthy (GEMINI_API_KEY E) = true ->
  (forall data, axios_post E (calls w) = AxiosOk data -> first_text data = "") ->
  callGemini E p w = (Thrown "Failed to get AI response", tick E w).
Proof.
  intros Hk Ha. unfold callGemini. rewrite Hk. simpl. unfold_m.
  destruct (axios_post E (calls w)) as [detail|data]; [reflexivity|].
  now rewrite (Ha data eq_refl).
Qed.

End Generation.

(** C5 (evaluation at the failing input). With a configured key, a
    provider reply without candidates and a transport failure make
    [callGemini] raise the same message, "Failed to get AI response": the
    "Empty response from Gemini" error is thrown inside the [try] and
    replaced by the [catch]. Only the missing key is told apart. *)
Theorem empty_reply_raises_the_transport_message :
  fst (callGemini Scenario.env_empty_reply TestPrompt Scenario.base)
    = Thrown "Failed to get AI response" /\
  fst (callGemini Scenario.env_transport_error TestPrompt Scenario.base)
    = Thrown "Failed to get AI response" /\
  fst (callGemini Scenario.env_no_key TestPrompt Scenario.base)
    = Thrown "GEMINI_API_KEY is not configured".
Proof. repeat split; reflexivity. Qed.

(** ** Token verification and the router's error envelope *)

Section Authentication.

Variable E : env.

Lemma verifyToken_no_token ev w :
  Js.truthy (token_of ev) = false ->
  verifyToken E ev w = (Thrown "Invalid token", w).
Proof.
  intros H. unfold verifyToken. unfold_m.
  destruct (token_of ev) as [t|]; [|reflexivity].
  simpl in H. apply negb_false_iff in H. now rewrite H.
Qed.

Lemma verifyToken_rejected ev w t err :
  token_of ev = Some t -> verifier_verify E t = inl err ->
  verifyToken E ev w = (Thrown "Invalid token", w).
Proof.
  intros Ht Hv. unfold verifyToken. unfold_m. rewrite Ht.
  destruct (String.eqb t ""); [reflexivity|]. now rewrite Hv.
Qed.


(** A request whose token verification throws gets the router's
    catch-all envelope. *)
Lemma handler_verification_failure ev w cp msg :
  httpMethod ev <> "OPTIONS" ->
  fst (cleanPath_of ev w) = Returned cp ->
  open_route cp = false ->
  verifyToken E ev w = (Thrown msg, w) ->
  handler E ev w =
    (Returned (createResponse 500
                 (Failure (if String.eqb msg "" then "Internal server error" else msg))), w).
Proof.
  intros Hm Hcp Hopen Hv. unfold handler.
  apply String.eqb_neq in Hm. rewrite Hm.
  destruct (cleanPath_of_pure ev w w) as [_ Hw].
  destruct (cleanPath_of ev w) as [r w1] eqn:Hc. simpl in *. subst r w1.
  unfold try_catch, bind at 1. rewrite Hc.
  unfold bind at 1. rewrite Hopen. simpl. unfold bind at 1. now rewrite Hv.
Qed.

End Authentication.

(** C2. On a route that requires authentication, a request without a
    token, or with a token the verifier rejects, makes token verification
    fail, and the router answers with status 500 and the error envelope. *)
Theorem authentication_failure_is_status_500 (E : env) (ev : event) (w : world)
    (cp : string) :
  httpMethod ev <> "OPTIONS" ->
  fst (cleanPath_of ev w) = Returned cp ->
  open_route cp = false ->
  (Js.truthy (token_of ev) = false \/
   exists t err, token_of ev = Some t /\ verifier_verify E t = inl err) ->
  (exists msg, verifyToken E ev w = (Thrown msg, w)) /\
  (exists msg, handler E ev w = (Returned (createResponse 500 (Failure msg)), w)).
Proof.
  intros Hm Hcp Hopen Hfail.
  assert (Hv : verifyToken E ev w = (Thrown "Invalid token", w)).
  { destruct Hfail as [H|(t & err & Ht & Hr)].
    - now apply verifyToken_no_token.
    - now apply verifyToken_rejected with t err. }
  split; [eauto|].
  exists "Invalid token".
  now rewrite (handler_verification_failure E ev w cp "Invalid token").
Qed.

Lemma authentication_failure_is_status_500_witness :
  let ev := Scenario.request "POST" "/spending/entry" [] [] []
              (Some (Scenario.entry_body "2025-09-13" 12.5 "Lunch" "Food & Dining" true)) in
  (exists msg, verifyToken Scenario.env_ok ev Scenario.base = (Thrown msg, Scenario.base)) /\
  (exists msg, handler Scenario.env_ok ev Scenario.base
               = (Returned (createResponse 500 (Failure msg)), Scenario.base)).
Proof.
  intros ev.
  apply (authentication_failure_is_status_500 Scenario.env_ok ev Scenario.base
           "/spending/entry").
  - discriminate.
  - reflexivity.
  - reflexivity.
  - left. reflexivity.
Defined.

(** C2 (counterexample). A POST to /spending/entry without any header:
    verification raises "Invalid token", not "No token provided", and the
    response status is 500, not 401. *)
Lemma missing_token_is_invalid_token_500 :
  let ev := Scenario.request "POST" "/spending/entry" [] [] []
              (Some (Scenario.entry_body "2025-09-13" 12.5 "Lunch" "Food & Dining" true)) in
  fst (verifyToken Scenario.env_ok ev Scenario.base) = Thrown "Invalid token" /\
  fst (verifyToken Scenario.env_ok ev Scenario.base) <> Thrown "No token provided" /\
  fst (handler Scenario.env_ok ev Scenario.base)
    = Returned (createResponse 500 (Failure "Invalid token")) /\
  (forall b, fst (handler Scenario.env_ok ev Scenario.base)
             <> Returned (createResponse 401 b)).
Proof.
  intros ev. repeat split; try reflexivity.
  - vm_compute. discriminate.
  - intros b. vm_compute. discriminate.
Qed.

(** ** Dispatch *)

Lemma startsWith_split (s p : string) :
  Js.startsWith s p = true -> exists rest, s = p +:+ rest.
Proof.
  revert s. induction p as [|c p IH]; intros s H.
  - exists s. reflexivity.
  - destruct s as [|d s]; [discriminate|]. simpl in H.
    apply andb_true_iff in H as [Hc Hs]. apply Ascii.eqb_eq in Hc as ->.
    destruct (IH s Hs) as [rest ->]. exists rest. reflexivity.
Qed.

(** Evaluates the router's string tests on a path with a known prefix. *)
Ltac settle_tests :=
  repeat match goal with
    | |- context [String.eqb ?a ?b] =>
        first [ change (String.eqb a b) with false
              | change (String.eqb a b) with true ]
    | |- context [Js.startsWith ?a ?b] =>
        first [ change (Js.startsWith a b) with false
              | change (Js.startsWith a b) with true ]
    end.

Section Dispatch.

Variable E : env.
Variables (ev : event) (p : claims).
Hypothesis GET : httpMethod ev = "GET".

Ltac dispatch H :=
  apply startsWith_split in H; destruct H as [rest ->];
  unfold route; rewrite GET; settle_tests; reflexivity.

Lemma route_spending_entries cp :
  Js.startsWith cp "/spending/entries/" = true ->
  route E ev cp (Some p) = handleGetSpendingEntries E ev p.
Proof. intros H. dispatch H. Qed.

Lemma route_analysis_daily cp :
  Js.startsWith cp "/analysis/daily/" = true ->
  route E ev cp (Some p) = handleGetDailyAnalysis E ev p.
Proof. intros H. dispatch H. Qed.

Lemma route_quiz_analysis cp :
  Js.startsWith cp "/quiz/analysis/" = true ->
  route E ev cp (Some p) = handleGetQuizAnalysis E ev p.
Proof. intros H. dispatch H. Qed.

Lemma route_savings_goal cp :
  Js.startsWith cp "/savings/goal/" = true ->
  route E ev cp (Some p) = handleGetSavingsGoal E ev p.
Proof. intros H. dispatch H. Qed.

Lemma route_chat_history cp :
  Js.startsWith cp "/chat/history/" = true ->
  route E ev cp (Some p) = handleGetChatHistory E ev p.
Proof. intros H. dispatch H. Qed.

End Dispatch.

Section Routing.

Variable E : env.

Lemma cleanPath_of_at ev w0 w cp :
  fst (cleanPath_of ev w0) = Returned cp -> cleanPath_of ev w = (Returned cp, w).
Proof.
  intros H. destruct (cleanPath_of_pure ev w w0) as [H1 H2].
  destruct (cleanPath_of ev w). simpl in *. congruence.
Qed.

Lemma verifyToken_at ev w0 w p :
  fst (verifyToken E ev w0) = Returned p -> verifyToken E ev w = (Returned p, w).
Proof.
  intros H. destruct (verifyToken_pure E ev w w0) as [H1 H2].
  destruct (verifyToken E ev w). simpl in *. congruence.
Qed.

(** Past normalisation and verification the router runs the matched
    handler under its catch-all. *)
Lemma handler_routed ev w cp p :
  httpMethod ev <> "OPTIONS" ->
  cleanPath_of ev w = (Returned cp, w) ->
  open_route cp = false ->
  verifyToken E ev w = (Returned p, w) ->
  handler E ev w =
    try_catch (route E ev cp (Some p))
      (fun message =>
         ret (createResponse 500
                (Failure (if String.eqb message "" then "Internal server error"
                          else message)))) w.
Proof.
  intros Hm Hcp Hopen Hv. unfold handler.
  apply String.eqb_neq in Hm. rewrite Hm.
  unfold try_catch, bind at 1. rewrite Hcp.
  unfold bind at 1. rewrite Hopen. simpl. unfold bind at 1. rewrite Hv.
  reflexivity.
Qed.

Lemma user_route_not_open r cp :
  Js.startsWith cp (route_prefix r) = true -> open_route cp = false.
Proof.
  intros H. apply startsWith_split in H as [rest ->].
  unfold open_route. destruct r; simpl route_prefix; settle_tests; reflexivity.
Qed.

Lemma route_user_route ev p r cp :
  httpMethod ev = "GET" ->
  Js.startsWith cp (route_prefix r) = true ->
  route E ev cp (Some p) =
    match r with
    | SpendingEntries => handleGetSpendingEntries E ev p
    | AnalysisDaily => handleGetDailyAnalysis E ev p
    | QuizAnalysis => handleGetQuizAnalysis E ev p
    | SavingsGoal => handleGetSavingsGoal E ev p
    | ChatHistory => handleGetChatHistory E ev p
    end.
Proof.
  intros Hm H. destruct r; simpl in H.
  - now apply route_spending_entries.
  - now apply route_analysis_daily.
  - now apply route_quiz_analysis.
  - now apply route_savings_goal.
  - now apply route_chat_history.
Qed.

(** The ownership check of every user route answers before any store or
    provider call. *)
Lemma user_route_mismatch ev p r w :
  path_userId r ev <> Some (sub p) ->
  (r = SpendingEntries -> Js.truthy (path_userId r ev) = true) ->
  match r with
  | SpendingEntries => handleGetSpendingEntries E ev p
  | AnalysisDaily => handleGetDailyAnalysis E ev p
  | QuizAnalysis => handleGetQuizAnalysis E ev p
  | SavingsGoal => handleGetSavingsGoal E ev p
  | ChatHistory => handleGetChatHistory E ev p
  end w = (Returned unauthorized, w).
Proof.
  intros Hne Htruthy.
  assert (Hd : bool_decide (path_userId r ev = Some (sub p)) = false)
    by now apply bool_decide_eq_false.
  destruct r; simpl in Hd, Htruthy;
    [ unfold handleGetSpendingEntries | unfold handleGetDailyAnalysis
    | unfold handleGetQuizAnalysis | unfold handleGetSavingsGoal
    | unfold handleGetChatHistory ]; rewrite Hd; try reflexivity.
  now rewrite (Htruthy eq_refl).
Qed.

End Routing.

(** C3. On every GET route that names a target user, a request whose path
    userId differs from the subject of its verified token is answered with
    status 403 and [{success:false, error:"Unauthorized"}], in every store
    state and without touching the store; the responses in any two store
    states are therefore identical. (The listing of spending entries
    compares only a userId that is present and not empty.) *)
Theorem path_mismatch_is_unauthorized (E : env) (ev : event) (p : claims)
    (r : user_route) (cp : string) (w0 : world) :
  httpMethod ev = "GET" ->
  fst (cleanPath_of ev w0) = Returned cp ->
  Js.startsWith cp (route_prefix r) = true ->
  fst (verifyToken E ev w0) = Returned p ->
  path_userId r ev <> Some (sub p) ->
  (r = SpendingEntries -> Js.truthy (path_userId r ev) = true) ->
  (forall w, handler E ev w
             = (Returned (createResponse 403 (Failure "Unauthorized")), w)) /\
  (forall w1 w2, fst (handler E ev w1) = fst (handler E ev w2)).
Proof.
  intros Hm Hcp Hpre Hv Hne Htruthy.
  assert (H : forall w, handler E ev w = (Returned unauthorized, w)).
  { intros w.
    rewrite (handler_routed E ev w cp p).
    - rewrite (route_user_route E ev p r cp Hm Hpre).
      unfold try_catch. now rewrite (user_route_mismatch E ev p r w).
    - rewrite Hm. discriminate.
    - now apply cleanPath_of_at with w0.
    - now apply user_route_not_open with r.
    - now apply verifyToken_at with w0. }
  split; [exact H|]. intros w1 w2. now rewrite !H.
Qed.

Lemma path_mismatch_is_unauthorized_witness :
  let ev := Scenario.request "GET" "/savings/goal/xyz" [("userId", "xyz")] []
              Scenario.as_alice None in
  (forall w, handler Scenario.env_ok ev w
             = (Returned (createResponse 403 (Failure "Unauthorized")), w)) /\
  (forall w1 w2, fst (handler Scenario.env_ok ev w1) = fst (handler Scenario.env_ok ev w2)).
Proof.
  intros ev.
  apply (path_mismatch_is_unauthorized Scenario.env_ok ev Scenario.alice SavingsGoal
           "/savings/goal/xyz" Scenario.base).
  - reflexivity.
  - reflexivity.
  - reflexivity.
  - reflexivity.
  - vm_compute. discriminate.
  - discriminate.
Defined.

(** ** Soft-failed and propagated store errors *)

Section StoreOutage.

Variable E : env.
Variables (ev : event) (p : claims).




Hypothesis outage : forall n, db_unreachable E n = true.











End StoreOutage.



(** ** Ownership of spending entries *)

Lemma NoDup_map_id_inj (l : list spending_row) (x y : spending_row) :
  List.NoDup (map id l) -> In x l -> In y l -> id x = id y -> x = y.
Proof.
  induction l as [|a l IH]; simpl; intros Hnd Hx Hy Hid; [contradiction|].
  inversion Hnd as [|? ? Hnotin Hnd']; subst.
  destruct Hx as [->|Hx], Hy as [->|Hy]; auto.
  - exfalso. apply Hnotin. rewrite Hid. now apply in_map.
  - exfalso. apply Hnotin. rewrite <- Hid. now apply in_map.
Qed.

Lemma id_matches_pretty (i j : Z) : id_matches (pretty i) j = true -> j = i.
Proof.
  unfold id_matches. intros H. apply String.eqb_eq in H.
  symmetry. now apply (inj pretty).
Qed.

Lemma filter_nil_iff {A} (f : A -> bool) (l : list A) :
  (forall x, In x l -> f x = false) -> List.filter f l = [].
Proof.
  induction l as [|a l IH]; simpl; intros H; [reflexivity|].
  rewrite (H a) by now left. apply IH. intros x Hx. apply H. now right.
Qed.

(** No row is selected by another user's id under the caller's subject. *)
Lemma foreign_entry_not_selected (w : world) (r : spending_row) (s : string) :
  List.NoDup (map id (spending_entries w)) ->
  In r (spending_entries w) -> user_id r <> s ->
  List.filter (entry_selected (pretty (id r)) s) (spending_entries w) = [].
Proof.
  intros Hnd Hr Hown. apply filter_nil_iff. intros x Hx.
  unfold entry_selected.
  destruct (id_matches (pretty (id r)) (id x)) eqn:Hm; [|reflexivity].
  apply id_matches_pretty in Hm.
  assert (x = r) as -> by now apply (NoDup_map_id_inj (spending_entries w)).
  unfold owned_by. simpl. now apply String.eqb_neq.
Qed.

(** [UPDATE] and [DELETE] leave the rows that are not selected. *)
Lemma map_update_others (f : spending_row -> spending_row) (sel : spending_row -> bool)
    (s : string) (l : list spending_row) :
  (forall r, sel r = true -> owned_by s r = true) ->
  (forall r, owned_by s (f r) = owned_by s r) ->
  List.filter (fun r => negb (owned_by s r)) (map (fun r => if sel r then f r else r) l)
  = List.filter (fun r => negb (owned_by s r)) l.
Proof.
  intros Hsel Hf. induction l as [|a l IH]; simpl; [reflexivity|].
  destruct (sel a) eqn:Ha.
  - rewrite Hf, (Hsel a Ha). simpl. exact IH.
  - destruct (negb (owned_by s a)); now rewrite IH.
Qed.

Lemma filter_delete_others (sel : spending_row -> bool) (s : string)
    (l : list spending_row) :
  (forall r, sel r = true -> owned_by s r = true) ->
  List.filter (fun r => negb (owned_by s r)) (List.filter (fun r => negb (sel r)) l)
  = List.filter (fun r => negb (owned_by s r)) l.
Proof.
  intros Hsel. induction l as [|a l IH]; simpl; [reflexivity|].
  destruct (sel a) eqn:Ha; simpl.
  - rewrite (Hsel a Ha). simpl. exact IH.
  - destruct (negb (owned_by s a)); now rewrite IH.
Qed.

Lemma entry_selected_owned entryId s r :
  entry_selected entryId s r = true -> owned_by s r = true.
Proof. unfold entry_selected. now intros [_ H]%andb_true_iff. Qed.

Section Ownership.

Variable E : env.

Lemma select_entry_up entryId uid w :
  db_unreachable E (calls w) = false ->
  executeQuery E (SelectEntryByIdUser (Some entryId) uid) w
    = (Returned (List.filter (entry_selected entryId uid) (spending_entries w)),
       tick E w).
Proof. intros H. rewrite executeQuery_up by assumption. reflexivity. Qed.

(** A statement touches the rows of the subject it is bound to, at most. *)
Lemma update_entry_others d a descr cat nec entryId uid w :
  rows_of_others uid
    (snd (executeQuery E (UpdateEntry d a descr cat nec entryId uid) w))
  = rows_of_others uid w.
Proof.
  unfold executeQuery.
  destruct (db_unreachable E (calls w)); [reflexivity|].
  destruct d, a, descr, cat, nec, entryId; try reflexivity.
  simpl. unfold rows_of_others. simpl.
  apply map_update_others.
  - intros r. apply entry_selected_owned.
  - reflexivity.
Qed.

Lemma delete_entry_others entryId uid w :
  rows_of_others uid (snd (executeQuery E (DeleteEntry entryId uid) w))
  = rows_of_others uid w.
Proof.
  unfold executeQuery.
  destruct (db_unreachable E (calls w)); [reflexivity|].
  destruct entryId; try reflexivity.
  simpl. unfold rows_of_others. simpl.
  apply filter_delete_others. intros r. apply entry_selected_owned.
Qed.

Lemma select_entry_world entryId uid w :
  spending_entries (snd (executeQuery E (SelectEntryByIdUser entryId uid) w))
  = spending_entries w.
Proof.
  unfold executeQuery.
  destruct (db_unreachable E (calls w)); [reflexivity|].
  destruct entryId; reflexivity.
Qed.

Lemma updateSpendingEntry_others ev p w :
  rows_of_others (sub p) (snd (handleUpdateSpendingEntry E ev p w))
  = rows_of_others (sub p) w.
Proof.
  unfold handleUpdateSpendingEntry, JSON_parse.
  destruct (body ev) as [b|]; [|reflexivity].
  unfold bind at 1. unfold ret at 1. unfold bind at 1.
  pose proof (select_entry_world (opt_get (pathParameters ev) "id") (sub p) w) as Hsel.
  destruct (executeQuery E (SelectEntryByIdUser _ _) w) as [[rows|e] w1]; simpl in Hsel.
  - destruct (head rows) as [existing|].
    + unfold bind, ret.
      pose proof (update_entry_others (b_date b) (b_amount b) (b_description b)
                    (b_category b) (b_isNecessary b)
                    (opt_get (pathParameters ev) "id") (sub p) w1) as Hupd.
      destruct (executeQuery E (UpdateEntry _ _ _ _ _ _ _) w1) as [[[]|e] w2];
        simpl in *; rewrite Hupd; unfold rows_of_others; now rewrite Hsel.
    + simpl. unfold rows_of_others. now rewrite Hsel.
  - simpl. unfold rows_of_others. now rewrite Hsel.
Qed.

Lemma deleteSpendingEntry_others ev p w :
  rows_of_others (sub p) (snd (handleDeleteSpendingEntry E ev p w))
  = rows_of_others (sub p) w.
Proof.
  unfold handleDeleteSpendingEntry.
  unfold bind at 1.
  pose proof (select_entry_world (opt_get (pathParameters ev) "id") (sub p) w) as Hsel.
  destruct (executeQuery E (SelectEntryByIdUser _ _) w) as [[rows|e] w1]; simpl in Hsel.
  - destruct (head rows) as [existing|].
    + unfold bind, ret.
      pose proof (delete_entry_others (opt_get (pathParameters ev) "id") (sub p) w1)
        as Hdel.
      destruct (executeQuery E (DeleteEntry _ _) w1) as [[[]|e] w2];
        simpl in *; rewrite Hdel; unfold rows_of_others; now rewrite Hsel.
    + simpl. unfold rows_of_others. now rewrite Hsel.
  - simpl. unfold rows_of_others. now rewrite Hsel.
Qed.

(** Outcome of the two handlers when the id in the path selects no row
    of the caller. *)
Lemma updateSpendingEntry_run_nothing_selected ev p w entryId :
  opt_get (pathParameters ev) "id" = Some entryId ->
  List.filter (entry_selected entryId (sub p)) (spending_entries w) = [] ->
  handleUpdateSpendingEntry E ev p w =
    match body ev with
    | None => (Thrown SyntaxError_message, w)
    | Some _ =>
        if db_unreachable E (calls w)
        then (Thrown connect_error_message, tick E w)
        else (Returned entry_not_found, tick E w)
    end.
Proof.
  intros Hid Hnone. unfold handleUpdateSpendingEntry, JSON_parse. rewrite Hid.
  destruct (body ev) as [b|]; [|reflexivity].
  unfold bind at 1. unfold ret at 1. unfold bind at 1.
  destruct (db_unreachable E (calls w)) eqn:Hdb.
  - now rewrite executeQuery_down.
  - rewrite select_entry_up by assumption. now rewrite Hnone.
Qed.

Lemma deleteSpendingEntry_run_nothing_selected ev p w entryId :
  opt_get (pathParameters ev) "id" = Some entryId ->
  List.filter (entry_selected entryId (sub p)) (spending_entries w) = [] ->
  handleDeleteSpendingEntry E ev p w =
    if db_unreachable E (calls w)
    then (Thrown connect_error_message, tick E w)
    else (Returned entry_not_found, tick E w).
Proof.
  intros Hid Hnone. unfold handleDeleteSpendingEntry. rewrite Hid.
  unfold bind at 1.
  destruct (db_unreachable E (calls w)) eqn:Hdb.
  - now rewrite executeQuery_down.
  - rewrite select_entry_up by assumption. now rewrite Hnone.
Qed.

Lemma updateSpendingEntry_nothing_selected ev p w entryId :
  opt_get (pathParameters ev) "id" = Some entryId ->
  List.filter (entry_selected entryId (sub p)) (spending_entries w) = [] ->
  spending_entries (snd (handleUpdateSpendingEntry E ev p w)) = spending_entries w /\
  (fst (handleUpdateSpendingEntry E ev p w) = Returned entry_not_found \/
   fst (handleUpdateSpendingEntry E ev p w) = Thrown SyntaxError_message \/
   fst (handleUpdateSpendingEntry E ev p w) = Thrown connect_error_message) /\
  (body ev <> None -> db_unreachable E (calls w) = false ->
   fst (handleUpdateSpendingEntry E ev p w) = Returned entry_not_found).
Proof.
  intros Hid Hnone.
  rewrite (updateSpendingEntry_run_nothing_selected ev p w entryId Hid Hnone).
  destruct (body ev) as [b|]; [destruct (db_unreachable E (calls w))|]; simpl;
    (split; [reflexivity|]); (split; [auto|]); congruence.
Qed.

Lemma deleteSpendingEntry_nothing_selected ev p w entryId :
  opt_get (pathParameters ev) "id" = Some entryId ->
  List.filter (entry_selected entryId (sub p)) (spending_entries w) = [] ->
  spending_entries (snd (handleDeleteSpendingEntry E ev p w)) = spending_entries w /\
  (fst (handleDeleteSpendingEntry E ev p w) = Returned entry_not_found \/
   fst (handleDeleteSpendingEntry E ev p w) = Thrown connect_error_message) /\
  (db_unreachable E (calls w) = false ->
   fst (handleDeleteSpendingEntry E ev p w) = Returned entry_not_found).
Proof.
  intros Hid Hnone.
  rewrite (deleteSpendingEntry_run_nothing_selected ev p w entryId Hid Hnone).
  destruct (db_unreachable E (calls w)); simpl;
    (split; [reflexivity|]); (split; [auto|]); congruence.
Qed.

End Ownership.

(** C6. An update or a delete that user B issues on the id of an entry of
    another user A is answered with status 404 and "Entry not found"; the
    stored entries are unchanged; the outcome is one of a few constants,
    so that no field of A's entry is in it; and whatever the request, an
    update or a delete under subject s leaves every row whose user_id is
    not s as it was. *)
Theorem foreign_entry_is_not_found (E : env) (ev : event) (B : claims)
    (w : world) (r : spending_row) :
  List.NoDup (map id (spending_entries w)) ->
  In r (spending_entries w) ->
  user_id r <> sub B ->
  opt_get (pathParameters ev) "id" = Some (pretty (id r)) ->
  (db_unreachable E (calls w) = false ->
   (body ev <> None ->
    fst (handleUpdateSpendingEntry E ev B w)
      = Returned (createResponse 404 (Failure "Entry not found"))) /\
   fst (handleDeleteSpendingEntry E ev B w)
     = Returned (createResponse 404 (Failure "Entry not found"))) /\
  spending_entries (snd (handleUpdateSpendingEntry E ev B w)) = spending_entries w /\
  spending_entries (snd (handleDeleteSpendingEntry E ev B w)) = spending_entries w /\
  (fst (handleUpdateSpendingEntry E ev B w) = Returned entry_not_found \/
   fst (handleUpdateSpendingEntry E ev B w) = Thrown SyntaxError_message \/
   fst (handleUpdateSpendingEntry E ev B w) = Thrown connect_error_message) /\
  (fst (handleDeleteSpendingEntry E ev B w) = Returned entry_not_found \/
   fst (handleDeleteSpendingEntry E ev B w) = Thrown connect_error_message) /\
  (forall ev' w',
     rows_of_others (sub B) (snd (handleUpdateSpendingEntry E ev' B w'))
       = rows_of_others (sub B) w' /\
     rows_of_others (sub B) (snd (handleDeleteSpendingEntry E ev' B w'))
       = rows_of_others (sub B) w').
Proof.
  intros Hnd Hr Hown Hid.
  pose proof (foreign_entry_not_selected w r (sub B) Hnd Hr Hown) as Hnone.
  destruct (updateSpendingEntry_nothing_selected E ev B w _ Hid Hnone)
    as (Hu1 & Hu2 & Hu3).
  destruct (deleteSpendingEntry_nothing_selected E ev B w _ Hid Hnone)
    as (Hd1 & Hd2 & Hd3).
  split; [|split; [|split; [|split; [|split]]]]; auto.
  intros ev' w'. split.
  - apply updateSpendingEntry_others.
  - apply deleteSpendingEntry_others.
Qed.

Lemma foreign_entry_is_not_found_witness :
  fst (handleUpdateSpendingEntry Scenario.env_ok (Scenario.put_entry_1 Scenario.as_bob)
         Scenario.bob Scenario.after_lunch)
    = Returned (createResponse 404 (Failure "Entry not found")) /\
  fst (handleDeleteSpendingEntry Scenario.env_ok (Scenario.delete_entry_1 Scenario.as_bob)
         Scenario.bob Scenario.after_lunch)
    = Returned (createResponse 404 (Failure "Entry not found")) /\
  spending_entries
    (snd (handleUpdateSpendingEntry Scenario.env_ok (Scenario.put_entry_1 Scenario.as_bob)
            Scenario.bob Scenario.after_lunch)) = [Scenario.lunch_row] /\
  spending_entries
    (snd (handleDeleteSpendingEntry Scenario.env_ok (Scenario.delete_entry_1 Scenario.as_bob)
            Scenario.bob Scenario.after_lunch)) = [Scenario.lunch_row].
Proof.
  assert (Hnd : List.NoDup (map id (spending_entries Scenario.after_lunch))).
  { apply List.NoDup_cons; [intros []|apply List.NoDup_nil]. }
  assert (Hin : In Scenario.lunch_row (spending_entries Scenario.after_lunch)).
  { vm_compute. left. reflexivity. }
  assert (Hown : user_id Scenario.lunch_row <> sub Scenario.bob) by discriminate.
  pose proof (foreign_entry_is_not_found Scenario.env_ok
                (Scenario.put_entry_1 Scenario.as_bob) Scenario.bob
                Scenario.after_lunch Scenario.lunch_row Hnd Hin Hown eq_refl)
    as (Hput & Hkeep & _).
  pose proof (foreign_entry_is_not_found Scenario.env_ok
                (Scenario.delete_entry_1 Scenario.as_bob) Scenario.bob
                Scenario.after_lunch Scenario.lunch_row Hnd Hin Hown eq_refl)
    as (Hdel & _ & Hkeep' & _).
  split; [|split; [|split]].
  - destruct (Hput eq_refl) as [Hu _]. apply Hu. discriminate.
  - destruct (Hdel eq_refl) as [_ Hd]. exact Hd.
  - rewrite Hkeep. reflexivity.
  - rewrite Hkeep'. reflexivity.
Defined.

(** ** Updates keep the creation time *)

Lemma update_rows_created_at (f : spending_row -> spending_row)
    (sel : spending_row -> bool) (l : list spending_row) :
  (forall r, created_at (f r) = created_at r) ->
  map created_at (map (fun r => if sel r then f r else r) l) = map created_at l.
Proof.
  intros Hf. induction l as [|a l IH]; simpl; [reflexivity|].
  rewrite IH. destruct (sel a); [now rewrite Hf|reflexivity].
Qed.

Lemma update_rows_id (f : spending_row -> spending_row)
    (sel : spending_row -> bool) (l : list spending_row) :
  (forall r, id (f r) = id r) ->
  map id (map (fun r => if sel r then f r else r) l) = map id l.
Proof.
  intros Hf. induction l as [|a l IH]; simpl; [reflexivity|].
  rewrite IH. destruct (sel a); [now rewrite Hf|reflexivity].
Qed.

Lemma head_filter_In {A} (f : A -> bool) (l : list A) (x : A) :
  head (List.filter f l) = Some x -> In x l /\ f x = true.
Proof.
  intros H. apply filter_In.
  destruct (List.filter f l) as [|y t]; [discriminate|].
  injection H as ->. now left.
Qed.

(** What a successful update has done: the row it read, the statement it
    ran, and the payload it returned. *)
Lemma updateSpendingEntry_success (E : env) ev p w e w' :
  handleUpdateSpendingEntry E ev p w
    = (Returned (createResponse 200 (Success (EntryData e))), w') ->
  exists existing entryId d a descr cat nec,
    In existing (spending_entries w) /\
    entry_selected entryId (sub p) existing = true /\
    spending_entries w'
      = map (fun r => if entry_selected entryId (sub p) r
                      then update_row d a descr cat nec r else r)
            (spending_entries w) /\
    e = EntryJson (Some entryId) (sub p) (Some d) (Some a) (Some descr) (Some cat)
                  (Some nec)
                  (toISOString (date_of_timestamp (created_at existing))).
Proof.
  unfold handleUpdateSpendingEntry, JSON_parse.
  destruct (body ev) as [b|]; [|discriminate].
  unfold bind at 1. unfold ret at 1. unfold bind at 1. unfold executeQuery at 1.
  destruct (db_unreachable E (calls w)); [discriminate|].
  destruct (opt_get (pathParameters ev) "id") as [entryId|]; [|discriminate].
  simpl exec_query. cbv beta iota.
  match goal with
  | |- context [head ?l] => destruct (head l) as [existing|] eqn:Hhead
  end; [|discriminate].
  apply head_filter_In in Hhead as [Hin Hsel]. simpl in Hin.
  unfold bind, ret, executeQuery.
  destruct (db_unreachable E (calls (tick E w))); [discriminate|].
  destruct (b_date b) as [d|], (b_amount b) as [a|], (b_description b) as [descr|],
    (b_category b) as [cat|], (b_isNecessary b) as [nec|]; try discriminate.
  simpl. intros [= <- <-].
  exists existing, entryId, d, a, descr, cat, nec. auto.
Qed.

(** C10. A successful update leaves the created_at value (and the key) of
    every stored entry as it was, and the createdAt of its response is the
    created_at of the entry read before the update, which the updated
    entry still carries. *)
Theorem update_keeps_created_at (E : env) (ev : event) (p : claims) (w w' : world)
    (e : entry_json) :
  handleUpdateSpendingEntry E ev p w
    = (Returned (createResponse 200 (Success (EntryData e))), w') ->
  map created_at (spending_entries w') = map created_at (spending_entries w) /\
  map id (spending_entries w') = map id (spending_entries w) /\
  exists existing updated,
    In existing (spending_entries w) /\
    ej_id e = Some (pretty (id existing)) /\
    user_id existing = sub p /\
    ej_createdAt e = toISOString (date_of_timestamp (created_at existing)) /\
    In updated (spending_entries w') /\
    id updated = id existing /\
    user_id updated = user_id existing /\
    created_at updated = created_at existing /\
    Some (date updated) = ej_date e /\
    Some (amount updated) = ej_amount e /\
    Some (description updated) = ej_description e /\
    Some (category updated) = ej_category e /\
    Some (is_necessary updated) = ej_isNecessary e.
Proof.
  intros Hrun.
  destruct (updateSpendingEntry_success E ev p w e w' Hrun)
    as (existing & entryId & d & a & descr & cat & nec & Hin & Hsel & Hw' & ->).
  rewrite Hw'. split; [|split].
  - now apply update_rows_created_at.
  - now apply update_rows_id.
  - exists existing, (update_row d a descr cat nec existing).
    pose proof Hsel as Hsel'. unfold entry_selected in Hsel'.
    apply andb_true_iff in Hsel' as [Hid Hown].
    apply String.eqb_eq in Hid. apply String.eqb_eq in Hown. simpl.
    assert (Hupd : In (update_row d a descr cat nec existing)
                      (map (fun r => if entry_selected entryId (sub p) r
                                     then update_row d a descr cat nec r else r)
                           (spending_entries w))).
    { apply in_map_iff. exists existing. now rewrite Hsel. }
    subst entryId. repeat split; assumption.
Qed.

Lemma update_keeps_created_at_witness :
  let run := handleUpdateSpendingEntry Scenario.env_ok
               (Scenario.put_entry_1 Scenario.as_alice) Scenario.alice
               Scenario.after_lunch in
  fst run = Returned (createResponse 200 (Success (EntryData Scenario.changed_json))) /\
  map created_at (spending_entries (snd run)) = [1762000000] /\
  map created_at (spending_entries Scenario.after_lunch) = [1762000000].
Proof.
  intros run.
  assert (Hrun : run = (Returned (createResponse 200
                                    (Success (EntryData Scenario.changed_json))), snd run))
    by (vm_compute; reflexivity).
  destruct (update_keeps_created_at Scenario.env_ok
              (Scenario.put_entry_1 Scenario.as_alice) Scenario.alice
              Scenario.after_lunch (snd run) Scenario.changed_json Hrun)
    as (Hcreated & _).
  split; [now rewrite Hrun|]. split; [rewrite Hcreated|]; reflexivity.
Defined.

(** ** Round trip of a spending entry *)

(** What a successful POST /spending/entry has done. *)
Lemma addSpendingEntry_success (E : env) ev p w r w' :
  handleAddSpendingEntry E ev p w = (Returned r, w') ->
  exists b d a descr cat nec,
    body ev = Some b /\
    b_date b = Some d /\ b_amount b = Some a /\ b_description b = Some descr /\
    b_category b = Some cat /\ b_isNecessary b = Some nec /\
    next_entry_id w <= INT_MAX /\
    w' = set_spending_entries (tick E w)
           (spending_entries w ++
              [SpendingRow (next_entry_id w) (sub p) d a descr cat nec (NOW (tick E w))])
           (next_entry_id w + 1) /\
    r = createResponse 200 (Success (EntryData
          (EntryJson (Some (pretty (Date_now w'))) (sub p) (Some d) (Some a)
                     (Some descr) (Some cat) (Some nec) (toISOString (Date_now w'))))).
Proof.
  unfold handleAddSpendingEntry, JSON_parse.
  destruct (body ev) as [b|]; [|discriminate].
  unfold bind at 1. unfold ret at 1. unfold bind at 1. unfold executeQuery.
  destruct (db_unreachable E (calls w)); [discriminate|].
  destruct (b_date b) as [d|] eqn:Hd, (b_amount b) as [a|] eqn:Ha,
    (b_description b) as [descr|] eqn:Hde, (b_category b) as [cat|] eqn:Hc,
    (b_isNecessary b) as [nec|] eqn:Hn; try discriminate.
  simpl exec_query.
  destruct (user_exists (tick E w) (sub p)); [|discriminate].
  destruct (Z.leb (next_entry_id w) INT_MAX) eqn:Hmax; [|discriminate].
  simpl. unfold bind, get_world, ret. intros [= <- <-].
  apply Z.leb_le in Hmax.
  exists b, d, a, descr, cat, nec. repeat split; try reflexivity; assumption.
Qed.


Lemma In_order_by_desc {A} (key : A -> Z) (l : list A) (x : A) :
  In x l -> In x (order_by_desc key l).
Proof.
  intros H. unfold order_by_desc.
  eapply Permutation_in; [|exact H].
  symmetry. apply merge_sort_Permutation.
Qed.



(** ** Chat history *)

#[local] Instance desc_total {A} (key : A -> Z) : Total (desc key).
Proof. intros x y. unfold desc. lia. Qed.

#[local] Instance desc_trans {A} (key : A -> Z) : Transitive (desc key).
Proof. intros x y z. unfold desc. lia. Qed.

Lemma order_by_desc_sorted {A} (key : A -> Z) (l : list A) :
  StronglySorted (desc key) (order_by_desc key l).
Proof. apply StronglySorted_merge_sort; apply _. Qed.

Lemma StronglySorted_take {A} (R : A -> A -> Prop) (n : nat) (l : list A) :
  StronglySorted R l -> StronglySorted R (take n l).
Proof.
  intros H. rewrite <- (take_drop n l) in H.
  now apply StronglySorted_app_1_l in H.
Qed.

Lemma StronglySorted_map {A B} (f : A -> B) (R : A -> A -> Prop) (S : B -> B -> Prop)
    (l : list A) :
  (forall x y, R x y -> S (f x) (f y)) ->
  StronglySorted R l -> StronglySorted S (map f l).
Proof.
  intros Hf. induction 1 as [|a l Hl IH Hall]; simpl; constructor; [exact IH|].
  apply List.Forall_forall. intros y Hy. apply in_map_iff in Hy as (x & <- & Hx).
  apply Hf. rewrite List.Forall_forall in Hall. now apply Hall.
Qed.

Lemma getChatHistory_listing (E : env) ev p w :
  resolve_userId ev "/chat/history/" = Some (sub p) ->
  db_unreachable E (calls w) = false ->
  handleGetChatHistory E ev p w =
    (Returned (createResponse 200 (Success (ChatList
       (map (chat_item)
          (take 50 (order_by_desc timestamp
                      (List.filter (fun c => String.eqb (c_user_id c) (sub p))
                                   (chat_messages w)))))))), tick E w).
Proof.
  intros Hu Hdb. unfold handleGetChatHistory. rewrite Hu.
  rewrite bool_decide_eq_true_2 by reflexivity.
  change (negb true) with false. cbv iota beta.
  unfold bind. rewrite executeQuery_up by assumption. reflexivity.
Qed.

(** C8. When the path userId is the token subject, the chat history
    returned has at most 50 messages and is ordered newest first, each
    message having a timestamp later than or equal to that of every
    message after it. *)
Theorem chat_history_is_newest_first (E : env) (ev : event) (p : claims) (w : world) :
  resolve_userId ev "/chat/history/" = Some (sub p) ->
  db_unreachable E (calls w) = false ->
  exists msgs,
    handleGetChatHistory E ev p w
      = (Returned (createResponse 200 (Success (ChatList msgs))), tick E w) /\
    (length msgs <= 50)%nat /\
    newest_first msgs.
Proof.
  intros Hu Hdb. eexists. split; [now apply getChatHistory_listing|]. split.
  - rewrite length_map, length_take. lia.
  - apply StronglySorted_map with (R := desc timestamp).
    + intros x y Hxy. unfold not_earlier, desc, chat_item, date_of_timestamp in *.
      simpl. lia.
    + apply StronglySorted_take, order_by_desc_sorted.
Qed.

Lemma chat_history_is_newest_first_witness :
  exists msgs,
    handleGetChatHistory Scenario.env_ok Scenario.chat_history Scenario.alice
      Scenario.after_chat
      = (Returned (createResponse 200 (Success (ChatList msgs))),
         tick Scenario.env_ok Scenario.after_chat) /\
    (length msgs <= 50)%nat /\
    newest_first msgs.
Proof.
  apply (chat_history_is_newest_first Scenario.env_ok Scenario.chat_history
           Scenario.alice Scenario.after_chat).
  - reflexivity.
  - reflexivity.
Defined.

(** C8 (counterexample). After one chat turn the history holds the user's
    message and the advisor's reply, both stamped by [NOW()] within the same
    second: the list returned is not strictly ordered by timestamp. *)
Lemma chat_turn_shares_one_timestamp :
  exists m1 m2,
    fst (handleGetChatHistory Scenario.env_ok Scenario.chat_history Scenario.alice
           Scenario.after_chat)
      = Returned (createResponse 200 (Success (ChatList [m1; m2]))) /\
    cj_timestamp m1 = cj_timestamp m2 /\
    ~ strictly_newest_first [m1; m2].
Proof.
  eexists _, _. split; [vm_compute; reflexivity|]. split; [reflexivity|].
  intros H. inversion H as [|? ? _ Hhd]; subst.
  inversion Hhd as [|? ? Hlt]; subst.
  unfold later in Hlt. simpl in Hlt. lia.
Qed.

(** ** Identifiers returned by the creating handlers *)

Lemma entries_wf_ids (w : world) :
  entries_wf w -> forall r, In r (spending_entries w) -> id r <= INT_MAX.
Proof.
  intros (_ & Hall & Hnext) r Hr.
  rewrite List.Forall_forall in Hall. specialize (Hall r Hr). lia.
Qed.

Lemma goals_wf_ids (w : world) :
  goals_wf w -> forall g, In g (savings_goals w) -> g_id g <= INT_MAX.
Proof.
  intros (Hall & Hnext) g Hg.
  rewrite List.Forall_forall in Hall. specialize (Hall g Hg). lia.
Qed.

(** [INSERT INTO spending_entries] keeps the keys unique and in range. *)
Lemma insert_entry_wf (w w1 : world) (row : spending_row) :
  entries_wf w ->
  id row = next_entry_id w ->
  next_entry_id w <= INT_MAX ->
  spending_entries w1 = (spending_entries w ++ [row])%list ->
  next_entry_id w1 = next_entry_id w + 1 ->
  entries_wf w1.
Proof.
  intros (Hnd & Hall & Hnext) Hid Hmax Hrows Hn. unfold entries_wf.
  rewrite Hrows, Hn, map_app. simpl. rewrite List.Forall_forall in Hall.
  split; [|split].
  - apply NoDup_ListNoDup. apply NoDup_app. split; [now apply NoDup_ListNoDup|]. split.
    + intros x Hx Hin. apply list_elem_of_singleton in Hin. subst x.
      apply list_elem_of_In, in_map_iff in Hx as (r & Hr & Hin).
      specialize (Hall r Hin). lia.
    + apply NoDup_singleton.
  - apply List.Forall_forall. intros r Hr. apply in_app_or in Hr as [Hr|[<-|[]]].
    + specialize (Hall r Hr). lia.
    + lia.
  - lia.
Qed.

(** An id beyond the range of [INT] selects no row of a well-formed store. *)
Lemma out_of_range_id_selects_nothing (w : world) (t : Z) (s : string) :
  entries_wf w -> INT_MAX < t ->
  List.filter (entry_selected (pretty t) s) (spending_entries w) = [].
Proof.
  intros Hwf Ht. apply filter_nil_iff. intros r Hr. unfold entry_selected.
  destruct (id_matches (pretty t) (id r)) eqn:Hm; [|reflexivity].
  apply id_matches_pretty in Hm. pose proof (entries_wf_ids w Hwf r Hr). lia.
Qed.

Section Identifiers.

Variable E : env.

Lemma callGemini_tables pr w :
  savings_goals (snd (callGemini E pr w)) = savings_goals w /\
  next_goal_id (snd (callGemini E pr w)) = next_goal_id w.
Proof.
  unfold callGemini. destruct (negb _); [now split|].
  unfold_m. destruct (axios_post E (calls w)); [now split|].
  destruct (String.eqb _ ""); now split.
Qed.

Lemma upsert_goals_wf uid income goal plan w :
  goals_wf w ->
  goals_wf (snd (executeQuery E (UpsertSavingsGoal uid income goal plan) w)).
Proof.
  intros (Hall & Hnext). unfold executeQuery.
  destruct (db_unreachable E (calls w)); [now split|].
  destruct income as [income|], goal as [goal|]; try now split.
  simpl exec_query.
  destruct (negb (user_exists (tick E w) uid)); [now split|].
  destruct (existsb _ _).
  - split; [|exact Hnext]. simpl.
    apply List.Forall_forall. intros g Hg.
    apply in_map_iff in Hg as (g0 & <- & Hg0).
    rewrite List.Forall_forall in Hall. specialize (Hall g0 Hg0).
    now destruct (String.eqb (g_user_id g0) uid).
  - destruct (Z.leb (next_goal_id w) INT_MAX) eqn:Hmax; [|now split].
    apply Z.leb_le in Hmax. split; simpl; [|lia].
    apply List.Forall_forall. intros g Hg. apply in_app_or in Hg as [Hg|[<-|[]]].
    + rewrite List.Forall_forall in Hall. specialize (Hall g Hg). lia.
    + simpl. lia.
Qed.

(** What a completed SetSavingsGoal has done. *)
Lemma setSavingsGoal_returned ev p w r w' :
  handleSetSavingsGoal E ev p w = (Returned r, w') ->
  (exists b plan,
     body ev = Some b /\
     r = createResponse 200 (Success (GoalData
           (GoalJson (pretty (Date_now w')) (sub p) (b_monthlyIncome b)
                     (b_monthlySavingsGoal b) plan
                     (toISOString (Date_now w')) (toISOString (Date_now w')))))) /\
  (goals_wf w -> goals_wf w').
Proof.
  unfold handleSetSavingsGoal, JSON_parse.
  destruct (body ev) as [b|]; [|discriminate].
  unfold bind at 1. unfold ret at 1. unfold bind at 1.
  destruct (callGemini_tables (PlanPrompt (b_monthlyIncome b) (b_monthlySavingsGoal b)) w)
    as [Hg Hn].
  destruct (callGemini E _ w) as [[plan|e] w1]; [|discriminate]. simpl in Hg, Hn.
  unfold bind at 1. unfold try_catch.
  pose proof (upsert_goals_wf (sub p) (b_monthlyIncome b) (b_monthlySavingsGoal b)
                plan w1) as Hwf.
  destruct (executeQuery E _ w1) as [[[]|e] w2]; simpl in Hwf;
    unfold bind, get_world, ret; intros [= <- <-].
  - split; [eauto|]. intros (Hall & Hnext). apply Hwf.
    split; [now rewrite Hg, Hn|now rewrite Hn].
  - split; [eauto|]. intros (Hall & Hnext). apply Hwf.
    split; [now rewrite Hg, Hn|now rewrite Hn].
Qed.

End Identifiers.

(** C9. The id in the payload of a successful AddSpendingEntry or
    SetSavingsGoal is the wall-clock time in milliseconds rendered in
    decimal. With the clock past 2^31 ms it differs from the
    AUTO_INCREMENT key the store assigned to the inserted entry and from the
    key of every stored goal, and a later UpdateSpendingEntry or
    DeleteSpendingEntry on the returned id never succeeds and changes no
    entry. *)
Theorem created_id_is_the_clock_reading (E : env) (ev : event) (p : claims)
    (w w' : world) (r : response) :
  store_wf w ->
  INT_MAX < Date_now w' ->
  (handleAddSpendingEntry E ev p w = (Returned r, w') ->
   exists e row,
     r = createResponse 200 (Success (EntryData e)) /\
     ej_id e = Some (pretty (Date_now w')) /\
     spending_entries w' = (spending_entries w ++ [row])%list /\
     id row = next_entry_id w /\
     id row <= INT_MAX /\
     ej_id e <> Some (pretty (id row)) /\
     entries_wf w' /\
     forall E2 ev2 q w2,
       entries_wf w2 ->
       opt_get (pathParameters ev2) "id" = ej_id e ->
       is_success (fst (handleUpdateSpendingEntry E2 ev2 q w2)) = false /\
       is_success (fst (handleDeleteSpendingEntry E2 ev2 q w2)) = false /\
       spending_entries (snd (handleUpdateSpendingEntry E2 ev2 q w2))
         = spending_entries w2 /\
       spending_entries (snd (handleDeleteSpendingEntry E2 ev2 q w2))
         = spending_entries w2) /\
  (handleSetSavingsGoal E ev p w = (Returned r, w') ->
   exists g,
     r = createResponse 200 (Success (GoalData g)) /\
     gj_id g = pretty (Date_now w') /\
     forall row, In row (savings_goals w') -> gj_id g <> pretty (g_id row)).
Proof.
  intros [Hewf Hgwf] Hclock. split.
  - intros Hrun.
    destruct (addSpendingEntry_success E ev p w r w' Hrun)
      as (b & d & a & descr & cat & nec & _ & _ & _ & _ & _ & _ & Hmax & Hw' & Hr).
    eexists _, (SpendingRow (next_entry_id w) (sub p) d a descr cat nec (NOW (tick E w))).
    split; [exact Hr|]. simpl.
    assert (Hwf' : entries_wf w').
    { apply (insert_entry_wf w w'
               (SpendingRow (next_entry_id w) (sub p) d a descr cat nec (NOW (tick E w))));
        try assumption; try reflexivity; now rewrite Hw'. }
    split; [reflexivity|]. split; [now rewrite Hw'|]. split; [reflexivity|].
    split; [exact Hmax|]. split; [intros [= Heq]; apply (inj pretty) in Heq; lia|].
    split; [exact Hwf'|].
    intros E2 ev2 q w2 Hwf2 Hid2.
    pose proof (out_of_range_id_selects_nothing w2 (Date_now w') (sub q) Hwf2 Hclock)
      as Hnone.
    rewrite (updateSpendingEntry_run_nothing_selected E2 ev2 q w2 _ Hid2 Hnone).
    rewrite (deleteSpendingEntry_run_nothing_selected E2 ev2 q w2 _ Hid2 Hnone).
    destruct (body ev2), (db_unreachable E2 (calls w2)); repeat split.
  - intros Hrun.
    destruct (setSavingsGoal_returned E ev p w r w' Hrun) as [(b & plan & _ & Hr) Hwf].
    eexists. split; [exact Hr|]. simpl. split; [reflexivity|].
    intros row Hrow Heq. apply (inj pretty) in Heq.
    pose proof (goals_wf_ids w' (Hwf Hgwf) row Hrow). lia.
Qed.

Lemma created_id_is_the_clock_reading_witness :
  (exists e row,
     Scenario.lunch_created = createResponse 200 (Success (EntryData e)) /\
     ej_id e = Some (pretty (Date_now Scenario.after_lunch)) /\
     id row = 1 /\
     ej_id e <> Some (pretty (id row)) /\
     is_success (fst (handleUpdateSpendingEntry Scenario.env_ok Scenario.put_returned_id
                        Scenario.alice Scenario.after_lunch)) = false) /\
  (exists g,
     Scenario.goal_created = createResponse 200 (Success (GoalData g)) /\
     gj_id g = pretty (Date_now Scenario.after_goal) /\
     forall row, In row (savings_goals Scenario.after_goal) -> gj_id g <> pretty (g_id row)).
Proof.
  assert (Hwf : store_wf Scenario.base).
  { repeat split; simpl; try constructor; discriminate. }
  split.
  - destruct (created_id_is_the_clock_reading Scenario.env_ok Scenario.post_lunch
                Scenario.alice Scenario.base Scenario.after_lunch Scenario.lunch_created
                Hwf eq_refl) as [Hadd _].
    destruct (Hadd eq_refl) as (e & row & He & Hid & _ & Hrow & _ & Hne & _ & Hlater).
    exists e, row.
    split; [exact He|]. split; [exact Hid|]. split; [exact Hrow|]. split; [exact Hne|].
    apply (Hlater Scenario.env_ok Scenario.put_returned_id Scenario.alice
             Scenario.after_lunch).
    + split; [|split].
      * apply List.NoDup_cons; [intros []|apply List.NoDup_nil].
      * repeat constructor.
      * discriminate.
    + rewrite Hid. reflexivity.
  - destruct (created_id_is_the_clock_reading Scenario.env_ok Scenario.post_goal
                Scenario.alice Scenario.base Scenario.after_goal Scenario.goal_created
                Hwf eq_refl) as [_ Hset].
    exact (Hset eq_refl).
Defined.

(** ** Daily analysis *)







(** ** The store invariant is kept by every request *)

Lemma preserves_ret {A} (a : A) : preserves (ret a).
Proof. intros w H. exact H. Qed.

Lemma preserves_throw {A} (msg : string) : preserves (@throw A msg).
Proof. intros w H. exact H. Qed.

Lemma preserves_get_world : preserves get_world.
Proof. intros w H. exact H. Qed.

Lemma preserves_bind {A B} (m : M A) (k : A -> M B) :
  preserves m -> (forall a, preserves (k a)) -> preserves (bind m k).
Proof.
  intros Hm Hk w Hw. unfold bind. specialize (Hm w Hw).
  destruct (m w) as [[a|e] w1]; simpl in *; [now apply Hk|exact Hm].
Qed.

Lemma preserves_try_catch {A} (m : M A) (h : string -> M A) :
  preserves m -> (forall e, preserves (h e)) -> preserves (try_catch m h).
Proof.
  intros Hm Hh w Hw. unfold try_catch. specialize (Hm w Hw).
  destruct (m w) as [[a|e] w1]; simpl in *; [exact Hm|now apply Hh].
Qed.

Lemma NoDup_map_id_filter (f : spending_row -> bool) (l : list spending_row) :
  List.NoDup (map id l) -> List.NoDup (map id (List.filter f l)).
Proof.
  induction l as [|a l IH]; simpl; intros H; [exact H|].
  inversion H as [|? ? Hnotin Hnd]; subst.
  destruct (f a); simpl; [|now apply IH].
  apply List.NoDup_cons; [|now apply IH].
  intros Hin. apply Hnotin. apply in_map_iff in Hin as (r & Hr & Hin).
  apply filter_In in Hin as [Hin _]. rewrite <- Hr. now apply in_map.
Qed.

Lemma ids_below_map (n : Z) (l : list spending_row) :
  Forall (fun r => id r < n) l <-> (forall i, In i (map id l) -> i < n).
Proof.
  rewrite List.Forall_forall. split.
  - intros H i Hi. apply in_map_iff in Hi as (r & <- & Hr). now apply H.
  - intros H r Hr. apply H. now apply in_map.
Qed.

Section Invariant.

Variable E : env.

Lemma tick_wf w : store_wf w -> store_wf (tick E w).
Proof. intros H. exact H. Qed.

Lemma preserves_getConnection : preserves (getConnection E).
Proof.
  intros w H. unfold getConnection.
  destruct (db_unreachable E (calls w)); now apply tick_wf.
Qed.

Lemma preserves_callGemini pr : preserves (callGemini E pr).
Proof.
  intros w H. unfold callGemini. destruct (negb _); [exact H|].
  unfold_m. destruct (axios_post E (calls w)); [now apply tick_wf|].
  destruct (String.eqb _ ""); now apply tick_wf.
Qed.

Lemma preserves_executeQuery {A} (q : query A) : preserves (executeQuery E q).
Proof.
  intros w Hw.
  destruct q; try (unfold executeQuery;
    destruct (db_unreachable E (calls w)); [now apply tick_wf|];
    simpl exec_query;
    repeat match goal with
      | |- context [match ?o with Some _ => _ | None => _ end] =>
          is_var o; destruct o
      | |- context [if ?c then _ else _] => destruct c
      end; exact Hw).
  - (* INSERT INTO spending_entries *)
    unfold executeQuery.
    destruct (db_unreachable E (calls w)); [now apply tick_wf|].
    destruct d, a, descr, cat, nec; try now apply tick_wf.
    simpl exec_query.
    destruct (user_exists (tick E w) uid); [|now apply tick_wf].
    destruct (Z.leb (next_entry_id w) INT_MAX) eqn:Hmax; [|now apply tick_wf].
    apply Z.leb_le in Hmax. destruct Hw as [He Hg]. split; [|exact Hg]. simpl.
    now eapply (insert_entry_wf w); eauto.
  - (* INSERT INTO savings_goals ... ON DUPLICATE KEY UPDATE *)
    destruct Hw as [He Hg]. split; [|now apply upsert_goals_wf].
    unfold executeQuery.
    destruct (db_unreachable E (calls w)); [exact He|].
    destruct income, goal; try exact He. simpl exec_query.
    destruct (negb _); [exact He|]. destruct (existsb _ _); [exact He|].
    destruct (Z.leb _ _); exact He.
  - (* UPDATE spending_entries *)
    unfold executeQuery.
    destruct (db_unreachable E (calls w)); [now apply tick_wf|].
    destruct d, a, descr, cat, nec, entryId; try now apply tick_wf.
    destruct Hw as [(Hnd & Hall & Hnext) Hg]. split; [|exact Hg].
    unfold entries_wf. simpl.
    rewrite ids_below_map, update_rows_id by reflexivity.
    rewrite <- ids_below_map. auto.
  - (* DELETE FROM spending_entries *)
    unfold executeQuery.
    destruct (db_unreachable E (calls w)); [now apply tick_wf|].
    destruct entryId; try now apply tick_wf.
    destruct Hw as [(Hnd & Hall & Hnext) Hg]. split; [|exact Hg].
    unfold entries_wf. simpl. split; [now apply NoDup_map_id_filter|]. split; [|exact Hnext].
    rewrite List.Forall_forall in *. intros r Hr.
    apply filter_In in Hr as [Hr _]. now apply Hall.
Qed.

Ltac keeps :=
  repeat first
    [ apply preserves_ret | apply preserves_throw | apply preserves_get_world
    | apply preserves_executeQuery | apply preserves_callGemini
    | apply preserves_getConnection
    | apply preserves_bind | apply preserves_try_catch
    | match goal with
      | |- forall _, _ => intro
      | |- preserves (if ?c then _ else _) => destruct c
      | |- preserves (match ?x with _ => _ end) => destruct x
      end ].

Lemma preserves_route ev cp payload : preserves (route E ev cp payload).
Proof.
  unfold route, handleQuizSubmit, handleAddSpendingEntry, handleGetSpendingEntries,
    handleSetSavingsGoal, handleGetDailyAnalysis, handleChatMessage,
    handleGetQuizAnalysis, handleGetSavingsGoal, handleUpdateSpendingEntry,
    handleDeleteSpendingEntry, handleGetChatHistory, JSON_parse.
  keeps.
Qed.

(** Every request leaves the keys of [spending_entries] unique and the
    keys of both tables within the range of [INT]. *)
Lemma handler_preserves_store_wf ev : preserves (handler E ev).
Proof.
  unfold handler, cleanPath_of, verifyToken.
  destruct (String.eqb (httpMethod ev) "OPTIONS"); [apply preserves_ret|].
  apply preserves_try_catch; [|intro; apply preserves_ret].
  apply preserves_bind; [keeps|]. intros cp.
  apply preserves_bind; [keeps|]. intros payload.
  apply preserves_route.
Qed.

End Invariant.


(** * Further properties of the request handler *)

(** ** Postconditions *)

Lemma post_ret {A} (R : A -> Prop) (T : string -> Prop) (a : A) :
  R a -> post R T (ret a).
Proof. intros H w. exact H. Qed.

Lemma post_throw {A} (R : A -> Prop) (T : string -> Prop) (msg : string) :
  T msg -> post R T (@throw A msg).
Proof. intros H w. exact H. Qed.

Lemma post_bind {A B} (R1 : A -> Prop) (R2 : B -> Prop) (T : string -> Prop)
    (m : M A) (k : A -> M B) :
  post R1 T m -> (forall a, R1 a -> post R2 T (k a)) -> post R2 T (bind m k).
Proof.
  intros Hm Hk w. unfold bind. specialize (Hm w).
  destruct (m w) as [[a|e] w1]; simpl in *; [now apply Hk|exact Hm].
Qed.

Lemma post_try_catch {A} (R : A -> Prop) (T1 T2 : string -> Prop)
    (m : M A) (h : string -> M A) :
  post R T1 m -> (forall e, T1 e -> post R T2 (h e)) -> post R T2 (try_catch m h).
Proof.
  intros Hm Hh w. unfold try_catch. specialize (Hm w).
  destruct (m w) as [[a|e] w1]; simpl in *; [exact Hm|now apply Hh].
Qed.

Lemma post_weaken {A} (R R' : A -> Prop) (T T' : string -> Prop) (m : M A) :
  post R T m -> (forall a, R a -> R' a) -> (forall e, T e -> T' e) -> post R' T' m.
Proof.
  intros Hm HR HT w. specialize (Hm w).
  destruct (fst (m w)); [now apply HR|now apply HT].
Qed.

Section Postconditions.

Variable E : env.

Lemma post_executeQuery {A} (q : query A) :
  post (fun _ => True) nonempty (executeQuery E q).
Proof.
  intros w. unfold executeQuery.
  destruct (db_unreachable E (calls w)); [discriminate|].
  destruct (exec_query q (tick E w)) as [[rows w']|]; [exact I|discriminate].
Qed.

Lemma post_getConnection : post (fun _ => True) nonempty (getConnection E).
Proof.
  intros w. unfold getConnection.
  destruct (db_unreachable E (calls w)); [discriminate|exact I].
Qed.

Lemma post_callGemini pr : post nonempty nonempty (callGemini E pr).
Proof.
  intros w. unfold callGemini.
  destruct (negb _); [discriminate|]. unfold_m.
  destruct (axios_post E (calls w)); [discriminate|].
  destruct (String.eqb _ "") eqn:Ht; [discriminate|]. simpl.
  now apply String.eqb_neq.
Qed.

Lemma post_verifyToken ev : post (fun _ => True) nonempty (verifyToken E ev).
Proof.
  intros w. unfold verifyToken. unfold_m.
  destruct (token_of ev) as [t|]; [|discriminate].
  destruct (String.eqb t ""); [discriminate|].
  destruct (verifier_verify E t); [discriminate|exact I].
Qed.

Lemma post_JSON_parse ev : post (fun _ => True) nonempty (JSON_parse ev).
Proof. intros w. unfold JSON_parse. destruct (body ev); [exact I|discriminate]. Qed.

Lemma post_cleanPath_of ev : post (fun _ => True) nonempty (cleanPath_of ev).
Proof.
  intros w. unfold cleanPath_of. unfold_m.
  destruct (Js.truthy _); [exact I|].
  destruct (Js.or (path ev) (resource ev)) as [p|]; [|discriminate].
  destruct (Js.startsWith p "/dev/"); exact I.
Qed.

Lemma well_formed_ok b :
  match b with Failure _ | ErrorObject _ => False | _ => True end ->
  well_formed (createResponse 200 b).
Proof. intros H. split; [reflexivity|]. destruct b; simpl in *; tauto. Qed.

Lemma well_formed_failure status msg :
  msg <> "" -> status = 400 \/ status = 403 \/ status = 404 \/ status = 500 ->
  well_formed (createResponse status (Failure msg)).
Proof. intros Hm Hs. split; [reflexivity|]. simpl. auto. Qed.

Lemma well_formed_error msg : well_formed (createResponse 500 (ErrorObject msg)).
Proof. split; reflexivity. Qed.

Ltac shapes :=
  repeat match goal with
    | |- forall _, _ => intro
    | |- post _ _ (ret _) =>
        apply post_ret; first
          [ apply well_formed_ok; exact I
          | apply well_formed_failure; [discriminate | tauto]
          | apply well_formed_failure; [assumption | tauto]
          | apply well_formed_error
          | exact I ]
    | |- post _ _ (throw _) => apply post_throw; first [assumption | discriminate]
    | |- post _ _ (executeQuery _ _) => apply post_executeQuery
    | |- post _ _ (bind (executeQuery _ _) _) =>
        eapply post_bind; [apply post_executeQuery|]
    | |- post _ _ (bind (callGemini _ _) _) =>
        eapply post_bind; [apply post_callGemini|]
    | |- post _ _ (bind (getConnection _) _) =>
        eapply post_bind; [apply post_getConnection|]
    | |- post _ _ (bind (JSON_parse _) _) =>
        eapply post_bind; [apply post_JSON_parse|]
    | |- post _ _ (bind get_world _) =>
        apply (post_bind (fun _ => True)); [intro; exact I|]
    | |- post _ _ (try_catch _ _) => apply (post_try_catch _ nonempty)
    | |- post _ _ (bind _ _) => apply (post_bind (fun _ => True))
    | |- post _ _ (if ?c then _ else _) => destruct c
    | |- post _ _ (match ?x with _ => _ end) => destruct x
    end.

Lemma post_route ev cp payload : post well_formed nonempty (route E ev cp payload).
Proof.
  unfold route, handleQuizSubmit, handleAddSpendingEntry, handleGetSpendingEntries,
    handleSetSavingsGoal, handleGetDailyAnalysis, handleChatMessage,
    handleGetQuizAnalysis, handleGetSavingsGoal, handleUpdateSpendingEntry,
    handleDeleteSpendingEntry, handleGetChatHistory, unauthorized, entry_not_found.
  shapes.
Qed.

End Postconditions.

(** ** The router answers every request *)

Lemma post_handler (E : env) ev : post well_formed (fun _ => False) (handler E ev).
Proof.
  unfold handler.
  destruct (String.eqb (httpMethod ev) "OPTIONS").
  - apply post_ret. now apply well_formed_ok.
  - apply (post_try_catch _ nonempty).
    + eapply post_bind; [apply post_cleanPath_of|]. intros cp _.
      apply (post_bind (fun _ => True)).
      * destruct (negb (open_route cp)); [|now apply post_ret].
        eapply post_bind; [apply post_verifyToken|]. intros p _. now apply post_ret.
      * intros payload _. apply post_route.
    + intros e He. apply post_ret. apply well_formed_failure; [|tauto].
      destruct (String.eqb e "") eqn:Hempty; [discriminate|].
      now apply String.eqb_neq.
Qed.

(** X1. [exports.handler] never rejects: every event gets a response. The
    response carries the CORS headers; its status is 200, 400, 403, 404 or
    500; a failure envelope has a non-empty error text and a status other
    than 200, and every other body but the bare error object of the
    diagnostic routes comes with status 200. *)
Theorem every_request_is_answered (E : env) (ev : event) (w : world) :
  exists r w', handler E ev w = (Returned r, w') /\ well_formed r.
Proof.
  pose proof (post_handler E ev w) as H.
  destruct (handler E ev w) as [[r|e] w']; simpl in H; [|contradiction].
  exists r, w'. now split.
Qed.

(** ** Routes served without a token *)

(** X2. A preflight request and a request for /health are answered with
    status 200 whatever the headers hold and whatever the store contains:
    the token is not verified and the world is left as it was. *)
Theorem preflight_and_health_need_no_token (E : env) (ev : event) (w : world) :
  (httpMethod ev = "OPTIONS" ->
   handler E ev w = (Returned (createResponse 200 EmptyObject), w)) /\
  (httpMethod ev <> "OPTIONS" ->
   fst (cleanPath_of ev w) = Returned "/health" ->
   handler E ev w = (Returned (createResponse 200 (StatusObject "healthy" None)), w)).
Proof.
  split.
  - intros Hm. unfold handler. now rewrite Hm.
  - intros Hm Hcp. unfold handler. apply String.eqb_neq in Hm. rewrite Hm.
    unfold try_catch, bind at 1.
    rewrite (cleanPath_of_at ev w w "/health" Hcp). reflexivity.
Qed.

Lemma preflight_and_health_need_no_token_witness :
  handler Scenario.env_store_down
    (Scenario.request "GET" "/dev/health" [] [] [("Authorization", "Bearer expired")] None)
    Scenario.base
  = (Returned (createResponse 200 (StatusObject "healthy" None)), Scenario.base).
Proof.
  apply (preflight_and_health_need_no_token Scenario.env_store_down).
  - discriminate.
  - reflexivity.
Defined.

(** ** Path normalisation *)

Lemma substring_all (s : string) : String.substring 0 (String.length s) s = s.
Proof. induction s as [|c s IH]; simpl; [reflexivity|now rewrite IH]. Qed.

Lemma replace_stage (rest : string) : Js.replace ("/dev/" +:+ rest) "/dev" "" = "/" +:+ rest.
Proof.
  unfold Js.replace, Js.indexOf. simpl String.index. cbv iota.
  unfold Js.slice_to, Js.slice_from. simpl. now rewrite substring_all.
Qed.

(** X3. Path normalisation. Without a proxy parameter, a path that starts
    with the stage prefix "/dev/" is routed without "/dev", and any other
    non-empty path is routed as it is; a non-empty proxy parameter replaces
    the path altogether. *)
Theorem stage_prefix_is_stripped (ev : event) (w : world) :
  (forall rest,
     Js.truthy (opt_get (pathParameters ev) "proxy") = false ->
     path ev = Some ("/dev/" +:+ rest) ->
     cleanPath_of ev w = (Returned ("/" +:+ rest), w)) /\
  (forall p,
     Js.truthy (opt_get (pathParameters ev) "proxy") = false ->
     path ev = Some p -> p <> "" -> Js.startsWith p "/dev/" = false ->
     cleanPath_of ev w = (Returned p, w)) /\
  (forall x,
     opt_get (pathParameters ev) "proxy" = Some x -> x <> "" ->
     cleanPath_of ev w = (Returned ("/" +:+ x), w)).
Proof.
  split; [|split].
  - intros rest Hproxy Hpath. unfold cleanPath_of. rewrite Hproxy, Hpath.
    unfold_m. simpl. now rewrite replace_stage.
  - intros p Hproxy Hpath Hne Hdev. unfold cleanPath_of. rewrite Hproxy, Hpath.
    apply String.eqb_neq in Hne.
    unfold_m. unfold Js.or at 1, Js.truthy at 1. rewrite Hne.
    change (negb false) with true. cbv iota. rewrite Hdev.
    unfold Js.or, Js.truthy. repeat (rewrite Hne; simpl). reflexivity.
  - intros x Hx Hne. unfold cleanPath_of. rewrite Hx.
    apply String.eqb_neq in Hne. unfold Js.truthy at 1. rewrite Hne. simpl.
    reflexivity.
Qed.

Lemma stage_prefix_is_stripped_witness :
  cleanPath_of (Scenario.request "GET" "/dev/chat/history/abc" [] [] [] None) Scenario.base
    = (Returned "/chat/history/abc", Scenario.base) /\
  cleanPath_of (Scenario.request "GET" "/dev/ignored" [("proxy", "savings/goal/abc")]
                  [] [] None) Scenario.base
    = (Returned "/savings/goal/abc", Scenario.base).
Proof.
  destruct (stage_prefix_is_stripped
              (Scenario.request "GET" "/dev/chat/history/abc" [] [] [] None) Scenario.base)
    as (Hstage & _ & _).
  destruct (stage_prefix_is_stripped
              (Scenario.request "GET" "/dev/ignored" [("proxy", "savings/goal/abc")]
                 [] [] None) Scenario.base)
    as (_ & _ & Hproxy).
  split.
  - apply (Hstage "chat/history/abc"); reflexivity.
  - apply (Hproxy "savings/goal/abc"); [reflexivity|discriminate].
Defined.

(** ** Requests that match no route *)

(** X4. An authenticated request whose method is none of OPTIONS, GET,
    POST, PUT and DELETE matches no route: on every path outside the open
    routes it is answered with status 404 and "Not found", and the world is
    left as it was. *)
Theorem unrouted_method_is_not_found (E : env) (ev : event) (w : world)
    (cp : string) (p : claims) :
  httpMethod ev <> "OPTIONS" -> httpMethod ev <> "GET" -> httpMethod ev <> "POST" ->
  httpMethod ev <> "PUT" -> httpMethod ev <> "DELETE" ->
  fst (cleanPath_of ev w) = Returned cp ->
  open_route cp = false ->
  fst (verifyToken E ev w) = Returned p ->
  handler E ev w = (Returned (createResponse 404 (Failure "Not found")), w).
Proof.
  intros Ho Hg Hpo Hpu Hd Hcp Hopen Hv.
  rewrite (handler_routed E ev w cp p Ho (cleanPath_of_at ev w w cp Hcp) Hopen
             (verifyToken_at E ev w w p Hv)).
  unfold open_route in Hopen.
  repeat (apply orb_false_elim in Hopen as [Hopen ?]).
  apply String.eqb_neq in Hg, Hpo, Hpu, Hd.
  unfold try_catch, route.
  repeat match goal with H : String.eqb _ _ = false |- _ => rewrite H; clear H end.
  reflexivity.
Qed.

Lemma unrouted_method_is_not_found_witness :
  handler Scenario.env_ok
    (Scenario.request "PATCH" "/spending/entry/1" [("id", "1")] [] Scenario.as_alice None)
    Scenario.after_lunch
  = (Returned (createResponse 404 (Failure "Not found")), Scenario.after_lunch).
Proof.
  apply (unrouted_method_is_not_found Scenario.env_ok _ _ "/spending/entry/1"
           Scenario.alice); try discriminate; reflexivity.
Defined.

(** ** Reading the user id off the path *)

Lemma prefix_empty (s : string) : String.prefix "" s = true.
Proof. destruct s; reflexivity. Qed.

Lemma prefix_app (p r : string) : String.prefix p (p +:+ r) = true.
Proof.
  induction p as [|c p IH]; simpl; [apply prefix_empty|].
  destruct (ascii_dec c c) as [_|Hne]; [exact IH|now contradiction Hne].
Qed.

Lemma indexOf_prefix (p r : string) : p <> "" -> Js.indexOf (p +:+ r) p = Some 0%nat.
Proof.
  intros Hne. destruct p as [|c p]; [now contradiction Hne|].
  unfold Js.indexOf. change (String c p +:+ r) with (String c (p +:+ r)).
  simpl String.index.
  destruct (ascii_dec c c) as [_|Hcc]; [|now contradiction Hcc].
  now rewrite prefix_app.
Qed.

Lemma slice_from_app (p r : string) : Js.slice_from (p +:+ r) (String.length p) = r.
Proof.
  unfold Js.slice_from. induction p as [|c p IH]; simpl.
  - rewrite Nat.sub_0_r. apply substring_all.
  - exact IH.
Qed.

(** Cutting at the first occurrence of a character, as the source does
    with [indexOf] and [slice]. *)
Lemma cut_at_first (c : ascii) (s : string) :
  match Js.indexOf s (String c "") with
  | Some i => Js.slice_to s i
  | None => s
  end = take_until c s.
Proof.
  unfold Js.indexOf, Js.slice_to. induction s as [|d s IH]; [reflexivity|].
  simpl String.index. simpl String.prefix.
  destruct (ascii_dec c d) as [->|Hne].
  - rewrite prefix_empty. simpl. now rewrite Ascii.eqb_refl.
  - simpl take_until. apply Ascii.eqb_neq in Hne. rewrite Hne.
    destruct (String.index 0 (String c "") s) as [n|]; simpl; f_equal; exact IH.
Qed.

Lemma take_until_has_char (c : ascii) (s : string) : has_char c (take_until c s) = false.
Proof.
  induction s as [|d s IH]; [reflexivity|]. simpl.
  destruct (Ascii.eqb c d) eqn:H; [reflexivity|]. simpl. now rewrite H, IH.
Qed.

Lemma take_until_keeps_absent (c d : ascii) (s : string) :
  has_char d s = false -> has_char d (take_until c s) = false.
Proof.
  induction s as [|e s IH]; [reflexivity|]. simpl.
  intros [He Hs]%orb_false_elim.
  destruct (Ascii.eqb c e); [reflexivity|]. simpl. now rewrite He, IH.
Qed.

Lemma take_until_absent (c : ascii) (s : string) :
  has_char c s = false -> take_until c s = s.
Proof.
  induction s as [|d s IH]; [reflexivity|]. simpl.
  intros [Hd Hs]%orb_false_elim. now rewrite Hd, IH.
Qed.

Lemma take_until_app_hit (c : ascii) (u t : string) :
  has_char c u = false -> take_until c (u +:+ String c t) = u.
Proof.
  induction u as [|d u IH]; simpl.
  - intros _. now rewrite Ascii.eqb_refl.
  - intros [Hd Hu]%orb_false_elim. now rewrite Hd, IH.
Qed.

Lemma take_until_app_miss (c : ascii) (u t : string) :
  has_char c u = false -> take_until c (u +:+ t) = u +:+ take_until c t.
Proof.
  induction u as [|d u IH]; simpl; [reflexivity|].
  intros [Hd Hu]%orb_false_elim. now rewrite Hd, IH.
Qed.

(** The user id is what follows the first occurrence of the prefix, up to
    the first "?" and then up to the first "/". *)
Lemma extractUserIdFromPath_spec (p prefix : string) :
  p <> "" -> prefix <> "" ->
  extractUserIdFromPath (Some p) prefix =
    match Js.indexOf p prefix with
    | Some idx =>
        Some (take_until "/" (take_until "?"
                (Js.slice_from p (idx + String.length prefix))))
    | None => None
    end.
Proof.
  intros Hp Hpre. unfold extractUserIdFromPath.
  apply String.eqb_neq in Hp, Hpre. unfold Js.truthy. rewrite Hp, Hpre. simpl.
  destruct (Js.indexOf p prefix) as [idx|]; [|reflexivity].
  set (r := Js.slice_from p (idx + String.length prefix)).
  rewrite <- (cut_at_first "/"), <- (cut_at_first "?").
  destruct (Js.indexOf r "?") as [q|];
    match goal with
    | |- context [Js.indexOf ?x "/"] => destruct (Js.indexOf x "/")
    end; reflexivity.
Qed.

(** X5. Edge behaviour of [extractUserIdFromPath]: without a path, with an
    empty path or an empty prefix, or when the prefix does not occur in the
    path, nothing is extracted; and whatever is extracted contains neither
    "/" nor "?". *)
Theorem extracted_user_id_has_no_separator (p : option string) (prefix : string) :
  (Js.truthy p = false -> extractUserIdFromPath p prefix = None) /\
  (prefix = "" -> extractUserIdFromPath p prefix = None) /\
  (forall s, p = Some s -> Js.indexOf s prefix = None ->
             extractUserIdFromPath p prefix = None) /\
  (forall u, extractUserIdFromPath p prefix = Some u ->
             has_char "/" u = false /\ has_char "?" u = false).
Proof.
  split; [|split; [|split]].
  - intros H. unfold extractUserIdFromPath. now rewrite H.
  - intros ->. unfold extractUserIdFromPath. simpl. now rewrite orb_true_r.
  - intros s -> H. unfold extractUserIdFromPath.
    destruct (negb _ || negb _)%bool; [reflexivity|]. simpl. now rewrite H.
  - intros u H.
    destruct p as [s|]; [|discriminate].
    destruct (String.eqb_spec s ""); [subst; discriminate|].
    destruct (String.eqb_spec prefix "") as [->|].
    { unfold extractUserIdFromPath in H. simpl in H.
      rewrite orb_true_r in H. discriminate. }
    rewrite extractUserIdFromPath_spec in H by assumption.
    destruct (Js.indexOf s prefix); [|discriminate]. injection H as <-.
    split; [apply take_until_has_char|].
    apply take_until_keeps_absent, take_until_has_char.
Qed.

Lemma extracted_user_id_has_no_separator_witness :
  has_char "/" "abc" = false /\ has_char "?" "abc" = false.
Proof.
  apply (extracted_user_id_has_no_separator
           (Some "/spending/entries/abc?date=2025-09-13") "/spending/entries/").
  reflexivity.
Defined.

(** X6. Round trip of the path: from a path made of the route prefix, a
    user id without "/" and "?", and a remainder that is empty or starts
    with "/" or "?", [extractUserIdFromPath] gives back the user id. *)
Theorem user_id_is_read_back_from_the_path (prefix u tail : string) :
  prefix <> "" ->
  has_char "/" u = false -> has_char "?" u = false ->
  (tail = "" \/ exists t, tail = "/" +:+ t \/ tail = "?" +:+ t) ->
  extractUserIdFromPath (Some (prefix +:+ u +:+ tail)) prefix = Some u.
Proof.
  intros Hpre Hslash Hquery Htail.
  assert (Hp : prefix +:+ u +:+ tail <> "").
  { destruct prefix; [now contradiction Hpre|discriminate]. }
  rewrite extractUserIdFromPath_spec by assumption.
  rewrite indexOf_prefix by assumption. simpl Nat.add.
  rewrite slice_from_app. f_equal.
  destruct Htail as [->|[t [->| ->]]].
  - assert (Hu : u +:+ "" = u).
    { clear. induction u as [|c u IH]; [reflexivity|].
      change (String c u +:+ "") with (String c (u +:+ "")). now rewrite IH. }
    rewrite Hu. rewrite (take_until_absent "?") by assumption.
    now apply take_until_absent.
  - rewrite (take_until_app_miss "?") by assumption.
    change ("/" +:+ t) with (String "/" t). simpl take_until.
    now apply take_until_app_hit.
  - change ("?" +:+ t) with (String "?" t).
    rewrite take_until_app_hit by assumption. now apply take_until_absent.
Qed.

Lemma user_id_is_read_back_from_the_path_witness :
  extractUserIdFromPath (Some "/analysis/daily/abc-123?date=2025-09-13")
    "/analysis/daily/" = Some "abc-123".
Proof.
  apply (user_id_is_read_back_from_the_path "/analysis/daily/" "abc-123"
           "?date=2025-09-13").
  - discriminate.
  - reflexivity.
  - reflexivity.
  - right. exists "date=2025-09-13". right. reflexivity.
Defined.

(** ** The bearer scheme *)






(** ** The text-generation client *)

(** X8. [callGemini] never returns an empty text. Without an API key it
    fails before any request is issued; with a key it issues exactly one
    request, whatever the outcome; and it never writes a table. *)
Theorem generation_returns_text_or_fails (E : env) (pr : prompt) (w : world) :
  (forall t w', callGemini E pr w = (Returned t, w') -> t <> "") /\
  (Js.truthy (GEMINI_API_KEY E) = false ->
   callGemini E pr w = (Thrown "GEMINI_API_KEY is not configured", w)) /\
  (Js.truthy (GEMINI_API_KEY E) = true ->
   calls (snd (callGemini E pr w)) = S (calls w)) /\
  tables (snd (callGemini E pr w)) = tables w.
Proof.
  split; [|split; [|split]].
  - intros t w' H. pose proof (post_callGemini E pr w) as Hp.
    rewrite H in Hp. exact Hp.
  - intros Hk. unfold callGemini. now rewrite Hk.
  - intros Hk. unfold callGemini. rewrite Hk. simpl. unfold_m.
    destruct (axios_post E (calls w)); [reflexivity|].
    destruct (String.eqb _ ""); reflexivity.
  - unfold callGemini. destruct (negb _); [reflexivity|]. unfold_m.
    destruct (axios_post E (calls w)); [reflexivity|].
    destruct (String.eqb _ ""); reflexivity.
Qed.

Lemma generation_returns_text_or_fails_witness :
  callGemini Scenario.env_no_key TestPrompt Scenario.base
    = (Thrown "GEMINI_API_KEY is not configured", Scenario.base) /\
  calls (snd (callGemini Scenario.env_transport_error TestPrompt Scenario.base)) = 1%nat.
Proof.
  destruct (generation_returns_text_or_fails Scenario.env_no_key TestPrompt Scenario.base)
    as (_ & Hnokey & _).
  destruct (generation_returns_text_or_fails Scenario.env_transport_error TestPrompt
              Scenario.base) as (_ & _ & Hone & _).
  split; [now apply Hnokey|now apply Hone].
Defined.

(** ** Handlers that only read *)

Lemma read_only_ret {A} (a : A) : read_only (ret a).
Proof. intros w. reflexivity. Qed.

Lemma read_only_throw {A} (msg : string) : read_only (@throw A msg).
Proof. intros w. reflexivity. Qed.

Lemma read_only_bind {A B} (m : M A) (k : A -> M B) :
  read_only m -> (forall a, read_only (k a)) -> read_only (bind m k).
Proof.
  intros Hm Hk w. unfold bind. specialize (Hm w).
  destruct (m w) as [[a|e] w1]; simpl in *; [now rewrite Hk|exact Hm].
Qed.

Lemma read_only_try_catch {A} (m : M A) (h : string -> M A) :
  read_only m -> (forall e, read_only (h e)) -> read_only (try_catch m h).
Proof.
  intros Hm Hh w. unfold try_catch. specialize (Hm w).
  destruct (m w) as [[a|e] w1]; simpl in *; [exact Hm|now rewrite Hh].
Qed.

Section Reads.

Variable E : env.

Lemma read_only_select {A} (q : query A) :
  selects q = true -> read_only (executeQuery E q).
Proof.
  intros Hq w. unfold executeQuery.
  destruct (db_unreachable E (calls w)); [reflexivity|].
  destruct q; try discriminate; simpl exec_query;
    repeat match goal with
      | |- context [match ?o with Some _ => _ | None => _ end] => is_var o; destruct o
      end; reflexivity.
Qed.

Lemma read_only_callGemini pr : read_only (callGemini E pr).
Proof.
  intros w. unfold callGemini. destruct (negb _); [reflexivity|]. unfold_m.
  destruct (axios_post E (calls w)); [reflexivity|].
  destruct (String.eqb _ ""); reflexivity.
Qed.

Ltac reads :=
  repeat match goal with
    | |- forall _, _ => intro
    | |- read_only (ret _) => apply read_only_ret
    | |- read_only (throw _) => apply read_only_throw
    | |- read_only (executeQuery _ _) => apply read_only_select; reflexivity
    | |- read_only (callGemini _ _) => apply read_only_callGemini
    | |- read_only (bind _ _) => apply read_only_bind
    | |- read_only (try_catch _ _) => apply read_only_try_catch
    | |- read_only (if ?c then _ else _) => destruct c
    | |- read_only (match ?x with _ => _ end) => destruct x
    end.

(** X9. The five GET handlers (listing of entries, daily analysis, quiz
    analysis, savings goal, chat history) never write: whatever the request
    and the outcome, the five tables and their counters are as before. *)
Theorem get_handlers_never_write (ev : event) (p : claims) (w : world) :
  tables (snd (handleGetSpendingEntries E ev p w)) = tables w /\
  tables (snd (handleGetDailyAnalysis E ev p w)) = tables w /\
  tables (snd (handleGetQuizAnalysis E ev p w)) = tables w /\
  tables (snd (handleGetSavingsGoal E ev p w)) = tables w /\
  tables (snd (handleGetChatHistory E ev p w)) = tables w.
Proof.
  assert (H1 : read_only (handleGetSpendingEntries E ev p))
    by (unfold handleGetSpendingEntries; reads).
  assert (H2 : read_only (handleGetDailyAnalysis E ev p))
    by (unfold handleGetDailyAnalysis; reads).
  assert (H3 : read_only (handleGetQuizAnalysis E ev p))
    by (unfold handleGetQuizAnalysis; reads).
  assert (H4 : read_only (handleGetSavingsGoal E ev p))
    by (unfold handleGetSavingsGoal; reads).
  assert (H5 : read_only (handleGetChatHistory E ev p))
    by (unfold handleGetChatHistory; reads).
  auto.
Qed.

End Reads.

(** ** The listing of spending entries *)

Lemma In_order_by_desc_inv {A} (key : A -> Z) (l : list A) (x : A) :
  In x (order_by_desc key l) -> In x l.
Proof.
  intros H. unfold order_by_desc in H.
  eapply Permutation_in; [|exact H]. apply merge_sort_Permutation.
Qed.

(** The user whose entries the listing selects is the token subject. *)
Lemma listing_user_is_subject (userId : option string) (s : string) :
  (Js.truthy userId && negb (bool_decide (userId = Some s)))%bool = false ->
  Js.or userId (Some s) = Some s.
Proof.
  intros H. unfold Js.or. destruct (Js.truthy userId) eqn:Ht; simpl in H.
  - apply negb_false_iff, bool_decide_eq_true in H. exact H.
  - reflexivity.
Qed.

Section Listing.

Variable E : env.

(** The outcome of the listing past its ownership check. *)
Lemma getSpendingEntries_run ev p w :
  (Js.truthy (resolve_userId ev "/spending/entries/")
   && negb (bool_decide (resolve_userId ev "/spending/entries/" = Some (sub p))))%bool
    = false ->
  sub p <> "" ->
  handleGetSpendingEntries E ev p w =
    if db_unreachable E (calls w)
    then (Returned (createResponse 200 (Success (EntryRows []))), tick E w)
    else
      (Returned (createResponse 200 (Success (EntryRows
         (order_by_desc created_at
            (let mine := List.filter (owned_by (sub p)) (spending_entries w) in
             match (if Js.truthy (opt_get (queryStringParameters ev) "date")
                    then opt_get (queryStringParameters ev) "date" else None) with
             | Some d => List.filter (on_date d) mine
             | None => mine
             end))))), tick E w).
Proof.
  intros Hcheck Hs. unfold handleGetSpendingEntries. rewrite Hcheck.
  rewrite (listing_user_is_subject _ _ Hcheck).
  apply String.eqb_neq in Hs. rewrite Hs. unfold try_catch, bind.
  destruct (db_unreachable E (calls w)) eqn:Hdb.
  - now rewrite executeQuery_down.
  - now rewrite executeQuery_up.
Qed.

(** X10. Whatever the request, a listing that answers with the success
    envelope shows stored entries of the token subject only; when a
    non-empty date is given, only entries of that date; and it shows them
    newest first by creation time. *)
Theorem listing_shows_only_own_entries (ev : event) (p : claims) (w w' : world)
    (rows : list spending_row) :
  handleGetSpendingEntries E ev p w
    = (Returned (createResponse 200 (Success (EntryRows rows))), w') ->
  (forall r, In r rows -> In r (spending_entries w) /\ user_id r = sub p) /\
  (forall d r, opt_get (queryStringParameters ev) "date" = Some d -> d <> "" ->
               In r rows -> date r = d) /\
  StronglySorted (desc created_at) rows.
Proof.
  intros Hrun.
  destruct (Js.truthy (resolve_userId ev "/spending/entries/")
            && negb (bool_decide (resolve_userId ev "/spending/entries/" = Some (sub p))))%bool
    eqn:Hcheck.
  { unfold handleGetSpendingEntries in Hrun. rewrite Hcheck in Hrun. discriminate. }
  destruct (String.eqb_spec (sub p) "") as [Hs|Hs].
  { unfold handleGetSpendingEntries in Hrun. rewrite Hcheck in Hrun.
    rewrite (listing_user_is_subject _ _ Hcheck), Hs in Hrun. discriminate. }
  rewrite (getSpendingEntries_run ev p w Hcheck Hs) in Hrun.
  destruct (db_unreachable E (calls w)).
  { injection Hrun as <- _. repeat split; try contradiction. constructor. }
  injection Hrun as <- _. split; [|split].
  - intros r Hr. apply In_order_by_desc_inv in Hr.
    assert (Hmine : In r (List.filter (owned_by (sub p)) (spending_entries w))).
    { destruct (if Js.truthy _ then _ else _); [|exact Hr].
      now apply filter_In in Hr as [Hr _]. }
    apply filter_In in Hmine as [Hin Hown]. split; [exact Hin|].
    now apply String.eqb_eq.
  - intros d r Hd Hne Hr. apply In_order_by_desc_inv in Hr.
    rewrite Hd in Hr. apply String.eqb_neq in Hne.
    unfold Js.truthy in Hr. rewrite Hne in Hr. simpl in Hr.
    apply filter_In in Hr as [_ Hr]. now apply String.eqb_eq.
  - apply order_by_desc_sorted.
Qed.

(** X11. A listing asked by the owner, or asked without a user id in the
    request, is the complete listing of the token subject: with the store
    reachable it answers with the success envelope, and every stored entry
    of the subject (of the requested date, when a non-empty date is given)
    is in the list. *)
Theorem listing_is_complete (ev : event) (p : claims) (w : world) :
  (resolve_userId ev "/spending/entries/" = Some (sub p) \/
   Js.truthy (resolve_userId ev "/spending/entries/") = false) ->
  sub p <> "" ->
  db_unreachable E (calls w) = false ->
  exists rows,
    handleGetSpendingEntries E ev p w
      = (Returned (createResponse 200 (Success (EntryRows rows))), tick E w) /\
    forall r, In r (spending_entries w) -> user_id r = sub p ->
              (forall d, opt_get (queryStringParameters ev) "date" = Some d ->
                         d <> "" -> date r = d) ->
              In r rows.
Proof.
  intros Hu Hs Hdb.
  assert (Hcheck : (Js.truthy (resolve_userId ev "/spending/entries/")
                    && negb (bool_decide (resolve_userId ev "/spending/entries/"
                                          = Some (sub p))))%bool = false).
  { destruct Hu as [Hu|Hu]; rewrite Hu; [|reflexivity].
    rewrite bool_decide_eq_true_2 by reflexivity. apply andb_false_r. }
  rewrite (getSpendingEntries_run ev p w Hcheck Hs), Hdb.
  eexists. split; [reflexivity|].
  intros r Hin Hown Hdate. apply In_order_by_desc.
  assert (Hmine : In r (List.filter (owned_by (sub p)) (spending_entries w))).
  { apply filter_In. split; [exact Hin|]. now apply String.eqb_eq. }
  destruct (opt_get (queryStringParameters ev) "date") as [d|]; [|exact Hmine].
  unfold Js.truthy. destruct (String.eqb_spec d "") as [->|Hne]; [exact Hmine|].
  simpl. apply filter_In. split; [exact Hmine|].
  apply String.eqb_eq. now apply Hdate.
Qed.

End Listing.

Lemma listing_shows_only_own_entries_witness :
  In Scenario.lunch_row (spending_entries Scenario.after_lunch) /\
  user_id Scenario.lunch_row = "abc".
Proof.
  apply (listing_shows_only_own_entries Scenario.env_ok Scenario.list_entries
           Scenario.alice Scenario.after_lunch
           (tick Scenario.env_ok Scenario.after_lunch) [Scenario.lunch_row]).
  - vm_compute. reflexivity.
  - left. reflexivity.
Defined.

Lemma listing_is_complete_witness :
  exists rows,
    handleGetSpendingEntries Scenario.env_ok
      (Scenario.request "GET" "/spending/entries/" [] [] Scenario.as_alice None)
      Scenario.alice Scenario.after_lunch
      = (Returned (createResponse 200 (Success (EntryRows rows))),
         tick Scenario.env_ok Scenario.after_lunch) /\
    In Scenario.lunch_row rows.
Proof.
  destruct (listing_is_complete Scenario.env_ok
              (Scenario.request "GET" "/spending/entries/" [] [] Scenario.as_alice None)
              Scenario.alice Scenario.after_lunch) as (rows & Hrun & Hall).
  - right. reflexivity.
  - discriminate.
  - reflexivity.
  - exists rows. split; [exact Hrun|]. apply Hall.
    + vm_compute. left. reflexivity.
    + reflexivity.
    + intros d Hd. discriminate Hd.
Defined.

(** ** Isolation of the users in the handlers that read *)

Lemma agree_ret R {A} (a : A) : agree R (ret a).
Proof. intros w1 w2 H. now split. Qed.

Lemma agree_throw R {A} (e : string) : agree R (@throw A e).
Proof. intros w1 w2 H. now split. Qed.

Lemma agree_bind R {A B} (m : M A) (k : A -> M B) :
  agree R m -> (forall a, agree R (k a)) -> agree R (bind m k).
Proof.
  intros Hm Hk w1 w2 H. unfold bind. destruct (Hm w1 w2 H) as [Hv Hw].
  destruct (m w1) as [[a1|e1] u1], (m w2) as [[a2|e2] u2]; simpl in *;
    try discriminate.
  - injection Hv as <-. now apply Hk.
  - injection Hv as <-. now split.
Qed.

Lemma agree_try_catch R {A} (m : M A) (h : string -> M A) :
  agree R m -> (forall e, agree R (h e)) -> agree R (try_catch m h).
Proof.
  intros Hm Hh w1 w2 H. unfold try_catch. destruct (Hm w1 w2 H) as [Hv Hw].
  destruct (m w1) as [[a1|e1] u1], (m w2) as [[a2|e2] u2]; simpl in *;
    try discriminate.
  - now split.
  - injection Hv as <-. now apply Hh.
Qed.

Section Isolation.

Variable E : env.
Variable s : string.

Lemma same_view_tick w1 w2 : same_view s w1 w2 -> same_view s (tick E w1) (tick E w2).
Proof. intros [Hc Hv]. split; [simpl; now rewrite Hc|exact Hv]. Qed.

Lemma agree_select {A} (q : query A) :
  selects_for s q -> agree (same_view s) (executeQuery E q).
Proof.
  intros Hq w1 w2 H. pose proof (same_view_tick _ _ H) as Ht.
  destruct H as [Hc Hv]. unfold executeQuery. rewrite Hc.
  destruct (db_unreachable E (calls w2)); [now split|].
  unfold view in Hv. injection Hv as He Hg Hz Hm.
  destruct q; simpl in Hq; try contradiction; subst; simpl exec_query;
    repeat match goal with
      | |- context [match ?o with Some _ => _ | None => _ end] => is_var o; destruct o
      end;
    rewrite ?He, ?Hg, ?Hz, ?Hm; now split.
Qed.

Lemma agree_callGemini pr1 pr2 w1 w2 :
  same_view s w1 w2 ->
  fst (callGemini E pr1 w1) = fst (callGemini E pr2 w2) /\
  same_view s (snd (callGemini E pr1 w1)) (snd (callGemini E pr2 w2)).
Proof.
  intros H. pose proof (same_view_tick _ _ H) as Ht. destruct H as [Hc Hv].
  unfold callGemini. destruct (negb _); [now split|]. unfold_m. rewrite Hc.
  destruct (axios_post E (calls w2)); [now split|].
  destruct (String.eqb _ ""); now split.
Qed.

Ltac agrees :=
  repeat match goal with
    | |- forall _, _ => intro
    | |- agree _ (ret _) => apply agree_ret
    | |- agree _ (throw _) => apply agree_throw
    | |- agree _ (executeQuery _ _) => apply agree_select; reflexivity
    | |- agree _ (callGemini _ _) => intros ? ? ?; now apply agree_callGemini
    | |- agree _ (bind _ _) => apply agree_bind
    | |- agree _ (try_catch _ _) => apply agree_try_catch
    | |- agree _ (if ?c then _ else _) => destruct c
    | |- agree _ (match ?x with _ => _ end) => destruct x
    end.

(** X12. The answers of the five GET handlers depend on the rows of the
    token subject only: from two states of the store that hold the same
    rows for the subject (whatever they hold for other users, and whatever
    the clock) at the same point of the sequence of external calls, each
    handler gives the same outcome. *)
Theorem reads_depend_on_own_rows_only (ev : event) (p : claims) (w1 w2 : world) :
  sub p = s ->
  same_view s w1 w2 ->
  fst (handleGetSpendingEntries E ev p w1) = fst (handleGetSpendingEntries E ev p w2) /\
  fst (handleGetDailyAnalysis E ev p w1) = fst (handleGetDailyAnalysis E ev p w2) /\
  fst (handleGetQuizAnalysis E ev p w1) = fst (handleGetQuizAnalysis E ev p w2) /\
  fst (handleGetSavingsGoal E ev p w1) = fst (handleGetSavingsGoal E ev p w2) /\
  fst (handleGetChatHistory E ev p w1) = fst (handleGetChatHistory E ev p w2).
Proof.
  intros Hs Hv.
  assert (H1 : agree (same_view s) (handleGetSpendingEntries E ev p)).
  { unfold handleGetSpendingEntries.
    destruct (Js.truthy _ && negb _)%bool eqn:Hcheck; [apply agree_ret|].
    rewrite (listing_user_is_subject _ _ Hcheck), Hs. agrees. }
  assert (H2 : agree (same_view s) (handleGetDailyAnalysis E ev p))
    by (unfold handleGetDailyAnalysis; rewrite Hs; agrees).
  assert (H3 : agree (same_view s) (handleGetQuizAnalysis E ev p))
    by (unfold handleGetQuizAnalysis; rewrite Hs; agrees).
  assert (H4 : agree (same_view s) (handleGetSavingsGoal E ev p))
    by (unfold handleGetSavingsGoal; rewrite Hs; agrees).
  assert (H5 : agree (same_view s) (handleGetChatHistory E ev p))
    by (unfold handleGetChatHistory; rewrite Hs; agrees).
  repeat split; [apply H1|apply H2|apply H3|apply H4|apply H5]; exact Hv.
Qed.

End Isolation.

Lemma reads_depend_on_own_rows_only_witness :
  fst (handleGetSpendingEntries Scenario.env_ok Scenario.list_entries Scenario.alice
         (tick Scenario.env_ok Scenario.after_lunch))
  = fst (handleGetSpendingEntries Scenario.env_ok Scenario.list_entries Scenario.alice
           Scenario.after_lunch_and_taxi).
Proof.
  apply (reads_depend_on_own_rows_only Scenario.env_ok "abc" Scenario.list_entries
           Scenario.alice (tick Scenario.env_ok Scenario.after_lunch)
           Scenario.after_lunch_and_taxi).
  - reflexivity.
  - split; vm_compute; reflexivity.
Defined.

(** ** Isolation of the users in the handlers that write *)

Lemma keeps_ret s {A} (R : A -> Prop) (a : A) : R a -> keeps_rows_of s R (ret a).
Proof. intros H w. now split. Qed.

Lemma keeps_throw s {A} (R : A -> Prop) (e : string) : keeps_rows_of s R (throw e).
Proof. intros w. now split. Qed.

Lemma keeps_get_world s : keeps_rows_of s (fun _ => True) get_world.
Proof. intros w. now split. Qed.

Lemma keeps_bind s {A B} (R : A -> Prop) (T : B -> Prop) (m : M A) (k : A -> M B) :
  keeps_rows_of s R m -> (forall a, R a -> keeps_rows_of s T (k a)) ->
  keeps_rows_of s T (bind m k).
Proof.
  intros Hm Hk w. unfold bind. destruct (Hm w) as [Hv Hr].
  destruct (m w) as [[a|e] w1]; simpl in *; [|now split].
  destruct (Hk a Hr w1) as [Hv' Hr']. split; [congruence|exact Hr'].
Qed.

Lemma keeps_try_catch s {A} (R T : A -> Prop) (m : M A) (h : string -> M A) :
  keeps_rows_of s R m -> (forall a, R a -> T a) ->
  (forall e, keeps_rows_of s T (h e)) ->
  keeps_rows_of s T (try_catch m h).
Proof.
  intros Hm HR Hh w. unfold try_catch. destruct (Hm w) as [Hv Hr].
  destruct (m w) as [[a|e] w1]; simpl in *; [split; auto|].
  destruct (Hh e w1) as [Hv' Hr']. split; [congruence|exact Hr'].
Qed.

Lemma filter_map_keep {A} (f : A -> bool) (g : A -> A) (l : list A) :
  (forall x, f (g x) = f x) -> (forall x, f x = true -> g x = x) ->
  List.filter f (map g l) = List.filter f l.
Proof.
  intros Hf Hg. induction l as [|x l IH]; [reflexivity|].
  simpl. rewrite Hf. destruct (f x) eqn:Hx; [|exact IH].
  rewrite (Hg x Hx). now f_equal.
Qed.

Lemma filter_filter_keep {A} (f h : A -> bool) (l : list A) :
  (forall x, f x = true -> h x = true) ->
  List.filter f (List.filter h l) = List.filter f l.
Proof.
  intros H. induction l as [|x l IH]; [reflexivity|].
  simpl. destruct (h x) eqn:Hh; simpl.
  - destruct (f x); [now f_equal|exact IH].
  - destruct (f x) eqn:Hx; [|exact IH]. apply H in Hx. congruence.
Qed.

Section WriteIsolation.

Variable E : env.
Variable s : string.

Lemma keeps_executeQuery {A} (q : query A) :
  foreign_to s q -> keeps_rows_of s (fun _ => True) (executeQuery E q).
Proof.
  intros Hq w. split; [|now destruct (fst _)].
  unfold executeQuery. destruct (db_unreachable E (calls w)); [reflexivity|].
  destruct q; simpl in Hq; simpl exec_query;
    repeat match goal with
      | |- context [match ?o with Some _ => _ | None => _ end] => is_var o; destruct o
      | |- context [if ?c then _ else _] => destruct c
      end; try reflexivity;
    apply String.eqb_neq in Hq; unfold view; simpl;
    rewrite ?List.filter_app; simpl; unfold owned_by; simpl; rewrite ?Hq, ?app_nil_r;
    try reflexivity.
  - f_equal. f_equal. f_equal. apply filter_map_keep.
    + intros x. now destruct (String.eqb (g_user_id x) _).
    + intros x Hx. apply String.eqb_eq in Hx. apply String.eqb_neq in Hq.
      destruct (String.eqb_spec (g_user_id x) uid); [congruence|reflexivity].
  - f_equal. f_equal. f_equal. apply filter_map_keep.
    + intros x. now destruct (entry_selected _ _ x).
    + intros x Hx. apply String.eqb_eq in Hx. apply String.eqb_neq in Hq.
      unfold entry_selected, owned_by.
      destruct (String.eqb_spec (user_id x) uid); [congruence|].
      now rewrite andb_false_r.
  - f_equal. f_equal. f_equal. apply filter_filter_keep.
    intros x Hx. apply String.eqb_eq in Hx. apply String.eqb_neq in Hq.
    unfold entry_selected, owned_by.
    destruct (String.eqb_spec (user_id x) uid); [congruence|].
    now rewrite andb_false_r.
Qed.

Lemma keeps_callGemini pr : keeps_rows_of s (fun _ => True) (callGemini E pr).
Proof.
  intros w. split; [|now destruct (fst _)].
  unfold callGemini. destruct (negb _); [reflexivity|]. unfold_m.
  destruct (axios_post E (calls w)); [reflexivity|].
  destruct (String.eqb _ ""); reflexivity.
Qed.

Lemma keeps_getConnection : keeps_rows_of s (fun _ => True) (getConnection E).
Proof.
  intros w. split; [|now destruct (fst _)].
  unfold getConnection. now destruct (db_unreachable E (calls w)).
Qed.

Ltac isolates :=
  repeat match goal with
    | |- forall _, _ => intro
    | |- keeps_rows_of _ _ (ret _) => apply keeps_ret; exact I
    | |- keeps_rows_of _ _ (throw _) => apply keeps_throw
    | |- keeps_rows_of _ _ get_world => apply keeps_get_world
    | |- keeps_rows_of _ _ (executeQuery _ _) =>
        apply keeps_executeQuery; simpl; first [exact I | assumption]
    | |- keeps_rows_of _ _ (callGemini _ _) => apply keeps_callGemini
    | |- keeps_rows_of _ _ (getConnection _) => apply keeps_getConnection
    | |- keeps_rows_of _ _ (bind _ _) => apply (keeps_bind _ (fun _ => True))
    | |- keeps_rows_of _ _ (try_catch _ _) =>
        apply (keeps_try_catch _ (fun _ => True)); [|trivial|]
    | |- keeps_rows_of _ _ (if ?c then _ else _) => destruct c
    | |- keeps_rows_of _ _ (match ?x with _ => _ end) => destruct x
    end.

Lemma keeps_route ev cp payload :
  (forall p, payload = Some p -> sub p <> s) ->
  keeps_rows_of s (fun _ => True) (route E ev cp payload).
Proof.
  intros Hp. destruct payload as [p|].
  - specialize (Hp p eq_refl).
    unfold route, handleQuizSubmit, handleAddSpendingEntry, handleGetSpendingEntries,
      handleSetSavingsGoal, handleGetDailyAnalysis, handleChatMessage,
      handleGetQuizAnalysis, handleGetSavingsGoal, handleUpdateSpendingEntry,
      handleDeleteSpendingEntry, handleGetChatHistory, JSON_parse.
    isolates.
  - unfold route. isolates.
Qed.

(** X13. A request changes rows of the user its token names and of nobody
    else: whatever the request and its outcome, the rows that the four
    per-user tables hold for a user [s] are the same after the handler has
    run, unless the request carries a token that the verifier accepts as
    [s]. *)
Theorem rows_change_only_for_the_token_subject (ev : event) (w : world) :
  authenticated_as E ev s w = false ->
  view s (snd (handler E ev w)) = view s w.
Proof.
  intros Hauth.
  assert (H : keeps_rows_of s (fun _ => True) (handler E ev)); [|apply H].
  unfold handler. destruct (String.eqb (httpMethod ev) "OPTIONS"); [isolates|].
  apply (keeps_try_catch _ (fun _ => True)); [|trivial|isolates].
  apply (keeps_bind _ (fun _ => True)).
  { intros w1. destruct (cleanPath_of_pure ev w1 w1) as [_ ->].
    split; [reflexivity|now destruct (fst _)]. }
  intros cp _.
  apply (keeps_bind _ (fun payload => forall p, payload = Some p -> sub p <> s));
    [|intros payload Hp; now apply keeps_route].
  destruct (negb (open_route cp)); [|apply keeps_ret; discriminate].
  apply (keeps_bind _ (fun p => sub p <> s)).
  - intros w1. destruct (verifyToken_pure E ev w1 w) as [Hfst ->].
    split; [reflexivity|]. rewrite Hfst. unfold authenticated_as in Hauth.
    destruct (fst (verifyToken E ev w)); [|exact I].
    now apply String.eqb_neq.
  - intros p Hp. apply keeps_ret. intros p' [= <-]. exact Hp.
Qed.

End WriteIsolation.

Lemma rows_change_only_for_the_token_subject_witness :
  view "abc"
    (snd (handler Scenario.env_ok Scenario.post_taxi Scenario.after_lunch))
  = view "abc" Scenario.after_lunch.
Proof.
  apply (rows_change_only_for_the_token_subject Scenario.env_ok "abc"
           Scenario.post_taxi Scenario.after_lunch).
  vm_compute. reflexivity.
Defined.

(** ** Logging an expense *)

Section AddEntry.

Variable E : env.

(** X14. Logging an expense stores all or nothing: when the handler
    returns, exactly one row has been appended to [spending_entries], owned
    by the token subject, keyed by the table's counter, which has advanced
    by one, and the other tables are as before; when it raises, the five
    tables and their counters are as before. *)
Theorem add_entry_is_all_or_nothing (ev : event) (p : claims) (w : world) :
  match fst (handleAddSpendingEntry E ev p w) with
  | Returned _ =>
      exists row,
        spending_entries (snd (handleAddSpendingEntry E ev p w))
          = (spending_entries w ++ [row])%list /\
        user_id row = sub p /\ id row = next_entry_id w /\
        next_entry_id (snd (handleAddSpendingEntry E ev p w)) = next_entry_id w + 1 /\
        users (snd (handleAddSpendingEntry E ev p w)) = users w /\
        quiz_responses (snd (handleAddSpendingEntry E ev p w)) = quiz_responses w /\
        savings_goals (snd (handleAddSpendingEntry E ev p w)) = savings_goals w /\
        chat_messages (snd (handleAddSpendingEntry E ev p w)) = chat_messages w
  | Thrown _ => tables (snd (handleAddSpendingEntry E ev p w)) = tables w
  end.
Proof.
  unfold handleAddSpendingEntry, JSON_parse. unfold_m.
  destruct (body ev) as [b|]; [|reflexivity].
  unfold executeQuery. destruct (db_unreachable E (calls w)); [reflexivity|].
  destruct (b_date b), (b_amount b), (b_description b), (b_category b),
    (b_isNecessary b); simpl exec_query; try reflexivity.
  destruct (user_exists (tick E w) (sub p) && _)%bool; [|reflexivity].
  simpl. eexists. repeat split.
Qed.

(** X15. An expense of a subject who has no row in [users] is rejected by
    the foreign key of [spending_entries]: the handler raises and nothing is
    stored. *)
Theorem add_entry_needs_a_user_row (ev : event) (p : claims) (w : world) :
  user_exists w (sub p) = false ->
  exists msg w',
    handleAddSpendingEntry E ev p w = (Thrown msg, w') /\ tables w' = tables w.
Proof.
  intros Hu. unfold handleAddSpendingEntry, JSON_parse. unfold_m.
  destruct (body ev) as [b|]; [|now eexists _, _].
  unfold executeQuery. destruct (db_unreachable E (calls w)); [now eexists _, _|].
  destruct (b_date b), (b_amount b), (b_description b), (b_category b),
    (b_isNecessary b); simpl exec_query; try (now eexists _, _).
  change (user_exists (tick E w) (sub p)) with (user_exists w (sub p)).
  rewrite Hu. simpl. now eexists _, _.
Qed.

End AddEntry.

Lemma add_entry_needs_a_user_row_witness :
  exists msg w',
    handleAddSpendingEntry Scenario.env_ok Scenario.post_lunch Scenario.alice
      Scenario.empty_store = (Thrown msg, w') /\
    tables w' = tables Scenario.empty_store.
Proof.
  apply (add_entry_needs_a_user_row Scenario.env_ok Scenario.post_lunch
           Scenario.alice Scenario.empty_store).
  reflexivity.
Defined.

(** ** Submitting the quiz *)

Lemma bind_returned {A B} (m : M A) (k : A -> M B) w b w' :
  bind m k w = (Returned b, w') ->
  exists a w1, m w = (Returned a, w1) /\ k a w1 = (Returned b, w').
Proof. unfold bind. destruct (m w) as [[a|e] w1]; [eauto|discriminate]. Qed.

Lemma no_row_selected {A} (f : A -> bool) (l : list A) :
  Nat.eqb (length (List.filter f l)) 0 = negb (existsb f l).
Proof.
  induction l as [|x l IH]; [reflexivity|]. simpl. now destruct (f x).
Qed.

Section QuizSubmit.

Variable E : env.

Lemma executeQuery_returned {A} (q : query A) w a w' :
  executeQuery E q w = (Returned a, w') ->
  db_unreachable E (calls w) = false /\ exec_query q (tick E w) = Some (a, w').
Proof.
  unfold executeQuery. destruct (db_unreachable E (calls w)); [discriminate|].
  destruct (exec_query q (tick E w)) as [[a1 w1]|]; [|discriminate].
  intros [= <- <-]. now split.
Qed.

Lemma callGemini_returned pr w t w' :
  callGemini E pr w = (Returned t, w') -> w' = tick E w.
Proof.
  unfold callGemini. destruct (negb _); [discriminate|]. unfold_m.
  destruct (axios_post E (calls w)); [discriminate|].
  destruct (String.eqb _ ""); [discriminate|]. now intros [= _ <-].
Qed.

(** X16. A quiz submission that answers with the success envelope has made
    sure the subject has a row in [users] (created from the token's claims
    when there was none, left alone otherwise) and has appended exactly one
    row to [quiz_responses], keyed by the table's counter, owned by the
    subject, holding the submitted answers and the analysis returned; the
    other three tables are as before. *)
Theorem quiz_submit_stores_user_and_answers (ev : event) (p : claims) (w w' : world)
    (d : quiz_json) :
  handleQuizSubmit E ev p w
    = (Returned (createResponse 200 (Success (QuizData d))), w') ->
  (if user_exists w (sub p) then users w' = users w
   else exists t,
          users w' = (users w ++
            [UserRow (sub p)
               (default "user@example.com" (Js.or (email p) (Some "user@example.com")))
               (default "User" (Js.or (name p) (Some "User"))) t t])%list) /\
  user_exists w' (sub p) = true /\
  (exists t,
     quiz_responses w' = (quiz_responses w ++
       [QuizRow (next_quiz_id w) (sub p) (qj_answers d) (qj_analysis d) t])%list) /\
  b_answers <$> body ev = Some (Some (qj_answers d)) /\
  spending_entries w' = spending_entries w /\
  savings_goals w' = savings_goals w /\
  chat_messages w' = chat_messages w.
Proof.
  intros Hrun. unfold handleQuizSubmit, try_catch in Hrun.
  match type of Hrun with
  | context [match ?m w with _ => _ end] => destruct (m w) as [[r|e] w1] eqn:Hin
  end; [|discriminate].
  injection Hrun as -> ->.
  apply bind_returned in Hin as (b & w1 & Hb & Hin).
  unfold JSON_parse in Hb. destruct (body ev) as [b0|]; [|discriminate].
  injection Hb as <- <-.
  apply bind_returned in Hin as (existing & w1 & Hsel & Hin).
  apply executeQuery_returned in Hsel as [_ Hsel]. simpl in Hsel.
  injection Hsel as <- <-.
  apply bind_returned in Hin as ([] & w2 & Hins & Hin).
  destruct (b_answers b0) as [answers|] eqn:Ha; [|discriminate].
  apply bind_returned in Hin as (analysis & w3 & Hgen & Hin).
  apply callGemini_returned in Hgen as ->.
  apply bind_returned in Hin as ([] & w4 & Hq & Hin).
  apply executeQuery_returned in Hq as [_ Hq]. simpl in Hq.
  destruct (user_exists _ _ && _)%bool eqn:Hok; [|discriminate].
  injection Hq as <-. unfold_m. injection Hin as <- <-.
  apply andb_true_iff in Hok as [Hok _].
  rewrite no_row_selected in Hins. fold (user_exists w (sub p)) in Hins.
  destruct (user_exists w (sub p)) eqn:Hu; simpl in Hins.
  - injection Hins as <-. simpl. rewrite Ha. repeat split; eauto.
  - apply executeQuery_returned in Hins as [_ Hins]. simpl in Hins.
    destruct (_ || _)%bool; [discriminate|]. injection Hins as <-.
    simpl. rewrite Ha. repeat split; eauto.
Qed.

(** X17. The quiz submission is not atomic: when the subject has no row in
    [users] yet and the generation fails after the row was created, the
    handler answers with status 500 and the new [users] row stays, without
    any row in [quiz_responses]. *)
Theorem quiz_submit_keeps_the_user_row_when_generation_fails (ev : event) (p : claims)
    (w : world) (b : request_body) (answers : list quiz_answer) :
  body ev = Some b -> b_answers b = Some answers ->
  user_exists w (sub p) = false ->
  existsb (fun u => String.eqb (u_email u)
                      (default "user@example.com"
                         (Js.or (email p) (Some "user@example.com")))) (users w) = false ->
  db_unreachable E (calls w) = false ->
  db_unreachable E (S (calls w)) = false ->
  Js.truthy (GEMINI_API_KEY E) = true ->
  (forall data, axios_post E (S (S (calls w))) = AxiosOk data -> first_text data = "") ->
  exists w',
    handleQuizSubmit E ev p w
      = (Returned (createResponse 500 (Failure "Failed to get AI response")), w') /\
    users w' = (users w ++
      [UserRow (sub p)
         (default "user@example.com" (Js.or (email p) (Some "user@example.com")))
         (default "User" (Js.or (name p) (Some "User")))
         (NOW (tick E (tick E w))) (NOW (tick E (tick E w)))])%list /\
    quiz_responses w' = quiz_responses w.
Proof.
  intros Hb Ha Hu Hmail Hdb1 Hdb2 Hkey Hgen.
  unfold handleQuizSubmit, JSON_parse. rewrite Hb. unfold try_catch.
  unfold bind at 1. unfold ret at 1. cbv beta iota. rewrite Ha.
  unfold bind at 1. rewrite (executeQuery_up E _ w Hdb1). simpl exec_query.
  cbv beta iota. unfold bind at 1. rewrite no_row_selected.
  fold (user_exists w (sub p)). rewrite Hu. change (negb false) with true.
  cbv iota. rewrite (executeQuery_up E _ (tick E w) Hdb2). simpl exec_query.
  change (user_exists (tick E (tick E w)) (sub p)) with (user_exists w (sub p)).
  rewrite Hu, Hmail. simpl orb. cbv iota. unfold bind at 1.
  rewrite callGemini_fails; [|exact Hkey|exact Hgen].
  eexists. split; [reflexivity|]. now split.
Qed.

End QuizSubmit.

Lemma quiz_submit_stores_user_and_answers_witness :
  user_exists (snd (handleQuizSubmit Scenario.env_ok Scenario.post_quiz Scenario.alice
                      Scenario.empty_store)) "abc" = true.
Proof.
  apply (quiz_submit_stores_user_and_answers Scenario.env_ok Scenario.post_quiz
           Scenario.alice Scenario.empty_store _ Scenario.quiz_created).
  vm_compute. reflexivity.
Defined.

Lemma quiz_submit_keeps_the_user_row_when_generation_fails_witness :
  exists w',
    handleQuizSubmit Scenario.env_transport_error Scenario.post_quiz Scenario.alice
      Scenario.empty_store
      = (Returned (createResponse 500 (Failure "Failed to get AI response")), w') /\
    users w' = [UserRow "abc" "abc@example.com" "Abc" 1762000000 1762000000] /\
    quiz_responses w' = [].
Proof.
  apply (quiz_submit_keeps_the_user_row_when_generation_fails
           Scenario.env_transport_error Scenario.post_quiz Scenario.alice
           Scenario.empty_store
           (Body (Some Scenario.quiz_answers) None None None None None None None None)
           Scenario.quiz_answers); try reflexivity.
  intros data Hdata. discriminate Hdata.
Defined.

(** ** A chat turn *)

Section ChatTurn.

Variable E : env.

Lemma callGemini_reply_nonempty pr w t w' :
  callGemini E pr w = (Returned t, w') -> t <> "".
Proof.
  intros H. pose proof (post_callGemini E pr w) as Hp. now rewrite H in Hp.
Qed.

(** What a chat turn that returns has done. *)
Lemma chatMessage_returned (ev : event) (p : claims) (w w' : world) (r : response) :
  handleChatMessage E ev p w = (Returned r, w') ->
  exists msg reply t1 t2 ident stamp,
    b_message <$> body ev = Some (Some msg) /\
    (exists pr w0, callGemini E pr w0 = (Returned reply, tick E w0)) /\
    r = createResponse 200 (Success (ChatData (ChatJson ident (sub p) reply false stamp))) /\
    chat_messages w' = (chat_messages w ++
      [ChatRow (next_chat_id w) (sub p) msg true t1;
       ChatRow (next_chat_id w + 1) (sub p) reply false t2])%list /\
    next_chat_id w' = next_chat_id w + 2 /\
    users w' = users w /\ quiz_responses w' = quiz_responses w /\
    spending_entries w' = spending_entries w /\ savings_goals w' = savings_goals w.
Proof.
  intros Hrun. unfold handleChatMessage in Hrun.
  apply bind_returned in Hrun as (b & w1 & Hb & Hrun).
  unfold JSON_parse in Hb. destruct (body ev) as [b0|]; [|discriminate].
  injection Hb as <- <-.
  apply bind_returned in Hrun as (goals & w1 & Hsel & Hrun).
  apply executeQuery_returned in Hsel as [_ Hsel]. simpl in Hsel.
  injection Hsel as <- <-.
  apply bind_returned in Hrun as (recent & w2 & Hsel & Hrun).
  apply executeQuery_returned in Hsel as [_ Hsel]. simpl in Hsel.
  injection Hsel as <- <-.
  apply bind_returned in Hrun as (reply & w3 & Hgen & Hrun).
  pose proof Hgen as Hreply. apply callGemini_returned in Hgen as ->.
  apply bind_returned in Hrun as ([] & w4 & Hq1 & Hrun).
  apply executeQuery_returned in Hq1 as [_ Hq1].
  destruct (b_message b0) as [msg|] eqn:Hm; [|discriminate]. simpl in Hq1.
  destruct (user_exists _ _ && _)%bool; [|discriminate]. injection Hq1 as <-.
  apply bind_returned in Hrun as ([] & w5 & Hq2 & Hrun).
  apply executeQuery_returned in Hq2 as [_ Hq2]. simpl in Hq2.
  destruct (user_exists _ _ && _)%bool; [|discriminate]. injection Hq2 as <-.
  unfold_m. injection Hrun as <- <-.
  eexists msg, reply, _, _, _, _. simpl. rewrite <- app_assoc, Hm.
  repeat split; try reflexivity; [eexists _, _; exact Hreply|lia].
Qed.

(** X18. A chat turn that returns has appended exactly two rows to
    [chat_messages], in this order: the user's message and the generated
    reply, both owned by the token subject, keyed by two consecutive values
    of the table's counter; the reply stored is the non-empty reply in the
    response; the other tables are as before. *)
Theorem chat_turn_stores_both_messages (ev : event) (p : claims) (w w' : world)
    (r : response) :
  handleChatMessage E ev p w = (Returned r, w') ->
  exists msg reply t1 t2 ident stamp,
    b_message <$> body ev = Some (Some msg) /\
    reply <> "" /\
    r = createResponse 200 (Success (ChatData (ChatJson ident (sub p) reply false stamp))) /\
    chat_messages w' = (chat_messages w ++
      [ChatRow (next_chat_id w) (sub p) msg true t1;
       ChatRow (next_chat_id w + 1) (sub p) reply false t2])%list /\
    next_chat_id w' = next_chat_id w + 2 /\
    users w' = users w /\ quiz_responses w' = quiz_responses w /\
    spending_entries w' = spending_entries w /\ savings_goals w' = savings_goals w.
Proof.
  intros Hrun.
  destruct (chatMessage_returned ev p w w' r Hrun)
    as (msg & reply & t1 & t2 & ident & stamp & Hmsg & (pr & w0 & Hgen) & Hrest).
  exists msg, reply, t1, t2, ident, stamp.
  split; [exact Hmsg|]. split; [|exact Hrest].
  exact (callGemini_reply_nonempty pr w0 reply _ Hgen).
Qed.

End ChatTurn.

Lemma chat_turn_stores_both_messages_witness :
  exists msg reply t1 t2 ident stamp,
    b_message <$> body Scenario.chat_turn = Some (Some msg) /\
    reply <> "" /\
    createResponse 200 (Success (ChatData Scenario.chat_reply))
      = createResponse 200
          (Success (ChatData (ChatJson ident (sub Scenario.alice) reply false stamp))) /\
    chat_messages Scenario.after_chat = (chat_messages Scenario.base ++
      [ChatRow (next_chat_id Scenario.base) (sub Scenario.alice) msg true t1;
       ChatRow (next_chat_id Scenario.base + 1) (sub Scenario.alice) reply false t2])%list /\
    next_chat_id Scenario.after_chat = next_chat_id Scenario.base + 2 /\
    users Scenario.after_chat = users Scenario.base /\
    quiz_responses Scenario.after_chat = quiz_responses Scenario.base /\
    spending_entries Scenario.after_chat = spending_entries Scenario.base /\
    savings_goals Scenario.after_chat = savings_goals Scenario.base.
Proof.
  apply (chat_turn_stores_both_messages Scenario.env_ok Scenario.chat_turn
           Scenario.alice Scenario.base Scenario.after_chat
           (createResponse 200 (Success (ChatData Scenario.chat_reply)))).
  vm_compute. reflexivity.
Defined.

(** ** Setting and reading the savings goal *)




Section SavingsGoal.

Variable E : env.


(** X20. A goal that could not be stored is still answered as stored: for
    a subject without a row in [users], the foreign key rejects the upsert,
    the handler swallows the rejection, and a POST that returns answers
    with status 200 while the five tables and their counters are as
    before. *)
Theorem unstored_goal_is_answered_as_stored (ev : event) (p : claims) (w w' : world)
    (r : response) :
  user_exists w (sub p) = false ->
  handleSetSavingsGoal E ev p w = (Returned r, w') ->
  is_success (Returned r) = true /\ tables w' = tables w.
Proof.
  intros Hu Hrun. unfold handleSetSavingsGoal in Hrun.
  apply bind_returned in Hrun as (b & w1 & Hb & Hrun).
  unfold JSON_parse in Hb. destruct (body ev) as [b0|]; [|discriminate].
  injection Hb as <- <-.
  apply bind_returned in Hrun as (plan & w1 & Hgen & Hrun).
  apply callGemini_returned in Hgen as ->.
  apply bind_returned in Hrun as ([] & w2 & Hq & Hrun).
  unfold_m. injection Hrun as <- <-. split; [reflexivity|].
  unfold executeQuery in Hq.
  destruct (db_unreachable E (calls (tick E w))); [now injection Hq as <-|].
  destruct (b_monthlyIncome b0), (b_monthlySavingsGoal b0); simpl exec_query in Hq;
    try (now injection Hq as <-).
  change (user_exists (tick E (tick E w)) (sub p)) with (user_exists w (sub p)) in Hq.
  rewrite Hu in Hq. simpl in Hq. now injection Hq as <-.
Qed.

End SavingsGoal.


Lemma unstored_goal_is_answered_as_stored_witness :
  tables (snd (handleSetSavingsGoal Scenario.env_ok Scenario.post_goal Scenario.alice
                 Scenario.empty_store))
  = tables Scenario.empty_store.
Proof.
  apply (unstored_goal_is_answered_as_stored Scenario.env_ok Scenario.post_goal
           Scenario.alice Scenario.empty_store _
           (createResponse 200 (Success (GoalData
              (GoalJson "1762000000010" "abc" (Some 3000%float) (Some 900%float)
                 "Spend less on coffee." (toISOString 1762000000010)
                 (toISOString 1762000000010)))))).
  - reflexivity.
  - vm_compute. reflexivity.
Defined.

(** ** Updating and deleting an entry of one's own *)

Lemma id_matches_refl (i : Z) : id_matches (pretty i) i = true.
Proof. unfold id_matches. apply String.eqb_refl. Qed.

(** With unique keys, the key of a stored entry and its owner select that
    entry and no other. *)
Lemma own_entry_selected (l : list spending_row) (r x : spending_row) :
  List.NoDup (map id l) -> In r l -> In x l ->
  entry_selected (pretty (id r)) (user_id r) x = true <-> x = r.
Proof.
  intros Hnd Hr Hx. unfold entry_selected, owned_by. split.
  - intros H. apply andb_true_iff in H as [H _].
    apply id_matches_pretty in H. now apply (NoDup_map_id_inj l).
  - intros ->. now rewrite id_matches_refl, String.eqb_refl.
Qed.

Section OwnEntry.

Variable E : env.
Variables (ev : event) (p : claims) (w : world) (r : spending_row).

Hypothesis keys_unique : List.NoDup (map id (spending_entries w)).
Hypothesis stored : In r (spending_entries w).
Hypothesis owned : user_id r = sub p.
Hypothesis addressed : opt_get (pathParameters ev) "id" = Some (pretty (id r)).
Hypothesis reachable : db_unreachable E (calls w) = false.
Hypothesis still_reachable : db_unreachable E (S (calls w)) = false.

Lemma own_entry_found :
  head (List.filter (entry_selected (pretty (id r)) (sub p)) (spending_entries w))
  = Some r.
Proof.
  destruct (head _) as [x|] eqn:Hx.
  - apply head_filter_In in Hx as [Hin Hsel]. rewrite <- owned in Hsel.
    f_equal. now apply (own_entry_selected (spending_entries w)).
  - apply head_None in Hx.
    assert (Hin : In r (List.filter (entry_selected (pretty (id r)) (sub p))
                          (spending_entries w))).
    { apply filter_In. split; [exact stored|]. rewrite <- owned.
      now apply (own_entry_selected (spending_entries w)). }
    rewrite Hx in Hin. contradiction.
Qed.

(** X21. The owner's DELETE of a stored entry succeeds and removes that
    entry and no other: with unique keys and the store reachable for both
    statements, the handler answers with the success envelope, the entry is
    not in the table afterwards, every other entry still is and none was
    added, and a second DELETE of the same id is answered with 404. *)
Theorem owner_delete_removes_the_entry :
  exists w',
    handleDeleteSpendingEntry E ev p w
      = (Returned (createResponse 200 (Success NullData)), w') /\
    ~ In r (spending_entries w') /\
    (forall x, In x (spending_entries w') <-> In x (spending_entries w) /\ x <> r) /\
    (db_unreachable E (calls w') = false ->
     fst (handleDeleteSpendingEntry E ev p w') = Returned entry_not_found).
Proof.
  assert (Hrows : forall x,
            In x (List.filter (fun x => negb (entry_selected (pretty (id r)) (sub p) x))
                    (spending_entries w))
            <-> In x (spending_entries w) /\ x <> r).
  { intros x. rewrite filter_In, negb_true_iff, <- owned. split.
    - intros [Hin Hsel]. split; [exact Hin|]. intros ->.
      rewrite (proj2 (own_entry_selected _ r r keys_unique stored stored)) in Hsel;
        [discriminate|reflexivity].
    - intros [Hin Hne]. split; [exact Hin|].
      destruct (entry_selected _ _ x) eqn:Hsel; [|reflexivity].
      apply (own_entry_selected _ r x keys_unique stored Hin) in Hsel. contradiction. }
  eexists. split; [|split; [|split]].
  - unfold handleDeleteSpendingEntry. rewrite addressed. unfold bind at 1.
    rewrite select_entry_up by exact reachable. rewrite own_entry_found.
    unfold bind. rewrite executeQuery_up by exact still_reachable.
    simpl exec_query. reflexivity.
  - simpl. intros Hin. apply Hrows in Hin as [_ Hne]. now apply Hne.
  - simpl. exact Hrows.
  - simpl calls. intros Hdb. unfold handleDeleteSpendingEntry. rewrite addressed.
    unfold bind at 1. rewrite select_entry_up by exact Hdb. simpl spending_entries.
    rewrite filter_nil_iff; [reflexivity|].
    intros x Hx. apply Hrows in Hx as [Hin Hne].
    destruct (entry_selected _ _ x) eqn:Hsel; [|reflexivity].
    rewrite <- owned in Hsel.
    apply (own_entry_selected _ r x keys_unique stored Hin) in Hsel. contradiction.
Qed.


End OwnEntry.

Lemma owner_delete_removes_the_entry_witness :
  exists w',
    handleDeleteSpendingEntry Scenario.env_ok (Scenario.delete_entry_1 Scenario.as_alice)
      Scenario.alice Scenario.after_lunch
      = (Returned (createResponse 200 (Success NullData)), w') /\
    ~ In Scenario.lunch_row (spending_entries w').
Proof.
  destruct (owner_delete_removes_the_entry Scenario.env_ok
              (Scenario.delete_entry_1 Scenario.as_alice) Scenario.alice
              Scenario.after_lunch Scenario.lunch_row)
    as (w' & Hrun & Hgone & _).
  - vm_compute. constructor; [intros []|constructor].
  - vm_compute. left. reflexivity.
  - reflexivity.
  - reflexivity.
  - reflexivity.
  - reflexivity.
  - exists w'. split; [exact Hrun|exact Hgone].
Defined.


(** X23. An update that lacks one of the five fields writes nothing: the
    statement is rejected for its undefined bind value after the ownership
    check, so the handler never answers with the success envelope and the
    five tables and their counters are as before, also for the owner of a
    stored entry. *)
Theorem incomplete_update_writes_nothing (E : env) (ev : event) (p : claims)
    (w : world) (b : request_body) :
  body ev = Some b ->
  (b_date b = None \/ b_amount b = None \/ b_description b = None \/
   b_category b = None \/ b_isNecessary b = None) ->
  is_success (fst (handleUpdateSpendingEntry E ev p w)) = false /\
  tables (snd (handleUpdateSpendingEntry E ev p w)) = tables w.
Proof.
  intros Hb Hmissing. unfold handleUpdateSpendingEntry, JSON_parse. rewrite Hb.
  unfold_m.
  pose proof (read_only_select E
                (SelectEntryByIdUser (opt_get (pathParameters ev) "id") (sub p))
                eq_refl w) as Hread.
  destruct (executeQuery E (SelectEntryByIdUser _ _) w) as [[rows|e] w1];
    simpl in Hread; [|split; [reflexivity|exact Hread]].
  destruct (head rows) as [existing|]; [|split; [reflexivity|exact Hread]].
  unfold executeQuery.
  destruct (db_unreachable E (calls w1)); [split; [reflexivity|exact Hread]|].
  destruct (b_date b), (b_amount b), (b_description b), (b_category b),
    (b_isNecessary b), (opt_get (pathParameters ev) "id");
    simpl exec_query; try (split; [reflexivity|exact Hread]);
    destruct Hmissing as [H|[H|[H|[H|H]]]]; discriminate H.
Qed.

Lemma incomplete_update_writes_nothing_witness :
  is_success (fst (handleUpdateSpendingEntry Scenario.env_ok Scenario.put_incomplete
                     Scenario.alice Scenario.after_lunch)) = false /\
  tables (snd (handleUpdateSpendingEntry Scenario.env_ok Scenario.put_incomplete
                 Scenario.alice Scenario.after_lunch))
  = tables Scenario.after_lunch.
Proof.
  apply (incomplete_update_writes_nothing Scenario.env_ok Scenario.put_incomplete
           Scenario.alice Scenario.after_lunch
           (Body None (Some "2025-09-14") (Some 99%float) (Some "Changed")
                 (Some "Shopping") None None None None)).
  - reflexivity.
  - right. right. right. right. reflexivity.
Defined.

(** ** Sessions *)

(** X24. Along any sequence of requests, from a store whose keys are
    unique, were issued by the counters and are within the range of [INT],
    every request is answered with a well-formed response and the store
    stays in that condition: no key of [spending_entries] is ever issued
    twice. *)
Theorem session_keeps_the_store_invariant (E : env) (evs : list event) (w : world) :
  store_wf w ->
  store_wf (snd (serve E evs w)) /\
  length (fst (serve E evs w)) = length evs /\
  Forall (fun o => exists r, o = Returned r /\ well_formed r) (fst (serve E evs w)).
Proof.
  revert w. induction evs as [|ev rest IH]; intros w Hwf.
  - simpl. repeat split; [apply Hwf..|constructor].
  - simpl. pose proof (handler_preserves_store_wf E ev w Hwf) as Hstep.
    pose proof (post_handler E ev w) as Hresp.
    destruct (handler E ev w) as [o w1]. simpl in Hstep, Hresp.
    destruct (IH w1 Hstep) as (Hwf' & Hlen & Hall).
    destruct (serve E rest w1) as [rs w2]. simpl in *.
    split; [exact Hwf'|]. split; [now rewrite Hlen|].
    constructor; [|exact Hall].
    destruct o as [r|e]; [now exists r|contradiction].
Qed.

Lemma session_keeps_the_store_invariant_witness :
  store_wf (snd (serve Scenario.env_ok
                   [Scenario.post_lunch; Scenario.post_taxi;
                    Scenario.delete_entry_1 Scenario.as_alice; Scenario.post_55]
                   Scenario.base)).
Proof.
  apply (session_keeps_the_store_invariant Scenario.env_ok
           [Scenario.post_lunch; Scenario.post_taxi;
            Scenario.delete_entry_1 Scenario.as_alice; Scenario.post_55]
           Scenario.base).
  repeat split; simpl; try constructor; unfold INT_MAX; lia.
Defined.

(** ** The diagnostic routes *)

Lemma read_only_getConnection (E : env) : read_only (getConnection E).
Proof. intros w. unfold getConnection. now destruct (db_unreachable E (calls w)). Qed.

Lemma cleanPath_of_with_headers ev hs :
  cleanPath_of (with_headers ev hs) = cleanPath_of ev.
Proof. reflexivity. Qed.

(** X25. The diagnostic routes /health, /test-db, /test-gemini,
    /test-schema and /debug are served to anyone: on a request that is
    routed to one of them the outcome is the same whatever headers the
    request carries (no token is looked at), and the five tables and their
    counters are left as they were. *)
Theorem diagnostic_routes_are_open (E : env) (ev : event) (w : world) (cp : string) :
  fst (cleanPath_of ev w) = Returned cp ->
  open_route cp = true ->
  (forall hs, handler E (with_headers ev hs) w = handler E ev w) /\
  tables (snd (handler E ev w)) = tables w.
Proof.
  intros Hcp Hopen.
  assert (Hroute : forall hs, route E (with_headers ev hs) cp None = route E ev cp None).
  { intros hs. unfold route, open_route in *.
    destruct (String.eqb cp "/health"); [reflexivity|].
    destruct (String.eqb cp "/test-db"); [reflexivity|].
    destruct (String.eqb cp "/test-gemini"); [reflexivity|].
    destruct (String.eqb cp "/debug"); [reflexivity|].
    destruct (String.eqb cp "/test-schema"); [reflexivity|discriminate]. }
  assert (Hread : read_only (route E ev cp None)).
  { unfold route, open_route in *.
    destruct (String.eqb cp "/health"); [apply read_only_ret|].
    destruct (String.eqb cp "/test-db").
    { apply read_only_try_catch; [|intro; apply read_only_ret].
      apply read_only_bind; [apply read_only_getConnection|intro; apply read_only_ret]. }
    destruct (String.eqb cp "/test-gemini").
    { apply read_only_try_catch; [|intro; apply read_only_ret].
      apply read_only_bind; [apply read_only_callGemini|intro; apply read_only_ret]. }
    destruct (String.eqb cp "/debug"); [apply read_only_ret|].
    destruct (String.eqb cp "/test-schema"); [|discriminate].
    apply read_only_try_catch; [|intro; apply read_only_ret].
    repeat (apply read_only_bind; [now apply read_only_select|intro]).
    apply read_only_ret. }
  assert (Hrun : forall ev', cleanPath_of ev' = cleanPath_of ev ->
                 httpMethod ev' = httpMethod ev ->
                 httpMethod ev <> "OPTIONS" ->
                 handler E ev' w
                 = try_catch (route E ev' cp None)
                     (fun message =>
                        ret (createResponse 500
                               (Failure (if String.eqb message "" then "Internal server error"
                                         else message)))) w).
  { intros ev' Hsame Hmeth Hm. unfold handler. rewrite Hmeth.
    apply String.eqb_neq in Hm. rewrite Hm. unfold try_catch, bind at 1.
    rewrite Hsame, (cleanPath_of_at ev w w cp Hcp), Hopen. reflexivity. }
  destruct (String.eqb_spec (httpMethod ev) "OPTIONS") as [Hm|Hm].
  - split; [|unfold handler; rewrite Hm; reflexivity].
    intros hs. unfold handler.
    change (httpMethod (with_headers ev hs)) with (httpMethod ev).
    rewrite Hm. reflexivity.
  - split.
    + intros hs. rewrite (Hrun (with_headers ev hs)) by easy.
      rewrite (Hrun ev) by easy. now rewrite Hroute.
    + rewrite (Hrun ev) by easy.
      apply (read_only_try_catch _ _ Hread). intro. apply read_only_ret.
Qed.

Lemma diagnostic_routes_are_open_witness :
  handler Scenario.env_ok
    (with_headers (Scenario.request "GET" "/dev/test-schema" [] [] [] None)
                  (Some (list_to_map [("Authorization", "Bearer expired")])))
    Scenario.after_lunch
  = handler Scenario.env_ok (Scenario.request "GET" "/dev/test-schema" [] [] [] None)
      Scenario.after_lunch.
Proof.
  apply (diagnostic_routes_are_open Scenario.env_ok
           (Scenario.request "GET" "/dev/test-schema" [] [] [] None)
           Scenario.after_lunch "/test-schema").
  - reflexivity.
  - reflexivity.
Defined.

(** ** Reading back what was written *)

Lemma length_order_by_desc {A} (key : A -> Z) (l : list A) :
  length (order_by_desc key l) = length l.
Proof. unfold order_by_desc. apply Permutation_length, merge_sort_Permutation. Qed.


Section ReadBack.

Variable E : env.

(** X26. A chat turn is in the history: after a chat turn that returned,
    for a subject with at most 48 earlier messages, a request for the
    subject's history (with the store reachable) answers with the success
    envelope and a list that holds the user's message, marked as the
    user's, and the reply of the turn's response, marked as not the
    user's. *)
Theorem chat_turn_is_in_the_history (ev ev' : event) (p : claims) (w w' : world)
    (cr : chat_json) :
  handleChatMessage E ev p w
    = (Returned (createResponse 200 (Success (ChatData cr))), w') ->
  (length (List.filter (fun c => String.eqb (c_user_id c) (sub p)) (chat_messages w))
   <= 48)%nat ->
  resolve_userId ev' "/chat/history/" = Some (sub p) ->
  db_unreachable E (calls w') = false ->
  exists items msg w'',
    handleGetChatHistory E ev' p w'
      = (Returned (createResponse 200 (Success (ChatList items))), w'') /\
    b_message <$> body ev = Some (Some msg) /\
    (exists c, In c items /\ cj_userId c = sub p /\ cj_message c = msg /\
               cj_isUser c = true) /\
    (exists c, In c items /\ cj_userId c = sub p /\ cj_message c = cj_message cr /\
               cj_isUser c = false).
Proof.
  intros Hrun Hfew Hpath Hdb.
  destruct (chatMessage_returned E ev p w w' _ Hrun)
    as (msg & reply & t1 & t2 & ident & stamp & Hmsg & _ & Hr & Hrows & _).
  injection Hr as ->. simpl.
  rewrite (getChatHistory_listing E ev' p w' Hpath Hdb).
  eexists _, msg, _. split; [reflexivity|]. split; [exact Hmsg|].
  set (mine := List.filter (fun c => String.eqb (c_user_id c) (sub p)) (chat_messages w')).
  assert (Hmine : mine = (List.filter (fun c => String.eqb (c_user_id c) (sub p))
                            (chat_messages w) ++
                          [ChatRow (next_chat_id w) (sub p) msg true t1;
                           ChatRow (next_chat_id w + 1) (sub p) reply false t2])%list).
  { unfold mine. rewrite Hrows, List.filter_app. simpl.
    now rewrite String.eqb_refl. }
  assert (Hall : take 50 (order_by_desc timestamp mine) = order_by_desc timestamp mine).
  { apply firstn_all2. rewrite length_order_by_desc, Hmine, length_app. simpl. lia. }
  rewrite Hall. split.
  - exists (chat_item (ChatRow (next_chat_id w) (sub p) msg true t1)).
    split; [|now repeat split].
    apply in_map, In_order_by_desc. rewrite Hmine. apply in_or_app. right. now left.
  - exists (chat_item (ChatRow (next_chat_id w + 1) (sub p) reply false t2)).
    split; [|now repeat split].
    apply in_map, In_order_by_desc. rewrite Hmine. apply in_or_app. right.
    right. now left.
Qed.


End ReadBack.

Lemma chat_turn_is_in_the_history_witness :
  exists items msg w'',
    handleGetChatHistory Scenario.env_ok Scenario.chat_history Scenario.alice
      Scenario.after_chat
      = (Returned (createResponse 200 (Success (ChatList items))), w'') /\
    b_message <$> body Scenario.chat_turn = Some (Some msg) /\
    (exists c, In c items /\ cj_userId c = "abc" /\ cj_message c = msg /\
               cj_isUser c = true) /\
    (exists c, In c items /\ cj_userId c = "abc" /\
               cj_message c = "Spend less on coffee." /\ cj_isUser c = false).
Proof.
  apply (chat_turn_is_in_the_history Scenario.env_ok Scenario.chat_turn
           Scenario.chat_history Scenario.alice Scenario.base Scenario.after_chat
           Scenario.chat_reply).
  - vm_compute. reflexivity.
  - simpl. lia.
  - reflexivity.
  - reflexivity.
Defined.

